(** * time-map build scripts: launch-image generator and PNG optimiser

    A shallow embedding of [scripts/generate-ios-splashes.py] and
    [scripts/optimize-pngs.py], and the properties of their
    specification that hold (or fail) on that embedding.

    - Python [int] is [Z]; [float] is IEEE binary64, taken from the
      standard library's executable specification [SpecFloat].
    - Python [str] is [string]: characters are code points below 256.
    - [pathlib.Path] values below the repository root are lists of
      path components; the file tree is a [gmap] from paths to nodes.
    - The Pillow calls of the scripts are an interface ([Imaging]); the
      directory enumeration of the operating system is another
      ([Platform]).  Both scripts run in an error-and-state monad over
      the file tree, the log of file-system calls and standard output. *)

From Stdlib Require Import ZArith Lia String Ascii List Bool.
From Stdlib Require Import SpecFloat.
From stdpp Require Import base option list gmap strings pretty.

Local Open Scope string_scope.
Local Open Scope Z_scope.

(** File contents are sequences of bytes. *)
Abbreviation byte := Init.Byte.byte.

(** ** Paths *)

(** A path relative to the repository root, one component per element;
    [root / "icons" / "ios"] is [["icons"; "ios"]]. *)
Abbreviation path := (list string).

Definition path_join (p : path) (name : string) : path := p ++ [name].
Infix "//" := path_join (at level 40, left associativity).

(** [str(p)] for a relative path, POSIX flavour. *)
Definition path_str (p : path) : string := String.concat "/" p.

(** ** Exceptions and results *)

Inductive value_error :=
| BadColorLength (got : string)      (* "Expected 6-digit hex color, got: ..." *)
| InvalidLiteral (base : Z) (lit : string)   (* int(lit, base) refused lit *)
| NanToInt.                          (* int(float('nan')) *)

Inductive exn :=
| SystemExit (msg : string)
| ValueError (why : value_error)
| OverflowError
| ZeroDivisionError
| FileExistsError (p : path)
| FileNotFoundError (p : path)
| IsADirectoryError (p : path)
| NotADirectoryError (p : path)
| UnidentifiedImageError (p : path)   (* Image.open / Image.load failed *)
| EncoderError (p : path)             (* Image.save failed while encoding *)
| ImagingError (op : string).         (* any other Pillow call failed *)

Inductive result (A : Type) :=
| Ok (a : A)
| Raise (e : exn).
Arguments Ok {A} a.
Arguments Raise {A} e.

#[global] Instance result_ret : MRet result := λ A a, Ok a.
#[global] Instance result_bind : MBind result :=
  λ A B f r, match r with Ok a => f a | Raise e => Raise e end.
#[global] Instance result_fmap : FMap result :=
  λ A B f r, match r with Ok a => Ok (f a) | Raise e => Raise e end.

Definition is_ok {A} (r : result A) : bool :=
  match r with Ok _ => true | Raise _ => false end.

(** ** Python floats *)

Module PyFloat.

Definition prec : Z := 53.
Definition emax : Z := 1024.

Abbreviation float := spec_float.

(** An integer as an unrounded binary float. *)
Definition exact (n : Z) : float :=
  match n with
  | Z0 => S754_zero false
  | Zpos p => S754_finite false p 0
  | Zneg p => S754_finite true p 0
  end.

(** [float(n)], as the mixed [int * float] product converts its
    integer operand: correctly rounded, ties to even, and
    [OverflowError] beyond the range of a double. *)
Definition of_int (n : Z) : result float :=
  match binary_normalize prec emax n 0 false with
  | S754_infinity _ => Raise OverflowError
  | f => Ok f
  end.

Definition mul (x y : float) : float := SFmul prec emax x y.

(** A decimal literal [num / den] with [den] a power of ten: the
    double nearest to the quotient. *)
Definition literal (num den : positive) : float :=
  SFdiv prec emax (S754_finite false num 0) (S754_finite false den 0).

(** [a / b] on two [int]s: the correctly rounded quotient. *)
Definition int_truediv (a b : Z) : result float :=
  if b =? 0 then Raise ZeroDivisionError
  else match SFdiv prec emax (exact a) (exact b) with
       | S754_infinity _ => Raise OverflowError
       | f => Ok f
       end.

(** [int(x)]: truncation towards zero. *)
Definition to_int (x : float) : result Z :=
  match x with
  | S754_zero _ => Ok 0
  | S754_finite s m e => Ok (cond_Zopp s (Z.shiftl (Zpos m) e))
  | S754_infinity _ => Raise OverflowError
  | S754_nan => Raise (ValueError NanToInt)
  end.

(** Round-half-even of [m * 2^e * 100] to an integer: the hundredths
    that ['.2f'] prints. *)
Definition hundredths (m : positive) (e : Z) : Z :=
  let n := Zpos m * 100 in
  if 0 <=? e then Z.shiftl n e
  else
    let d := 2 ^ (- e) in
    let q := n / d in
    let r := n mod d in
    match 2 * r ?= d with
    | Lt => q
    | Eq => if Z.even q then q else q + 1
    | Gt => q + 1
    end.

Definition two_digits (n : Z) : string :=
  if n <? 10 then "0" ++ pretty n else pretty n.

(** [format(x, '.2f')]. *)
Definition format_2f (x : float) : string :=
  match x with
  | S754_zero s => (if s then "-" else "") ++ "0.00"
  | S754_finite s m e =>
      let h := hundredths m e in
      (if s then "-" else "") ++ pretty (h / 100) ++ "." ++ two_digits (h mod 100)
  | S754_infinity s => (if s then "-" else "") ++ "inf"
  | S754_nan => "nan"
  end.

End PyFloat.

(** ** Python strings and [int(s, 16)] *)

Module PyStr.

(** [s.lstrip(c)] for a one-character set. *)
Fixpoint lstrip (c : ascii) (s : string) : string :=
  match s with
  | String a s' => if Ascii.eqb a c then lstrip c s' else s
  | EmptyString => s
  end.

(** [s[i:j]] for [0 <= i <= j]; out-of-range bounds are clipped. *)
Definition slice (s : string) (i j : nat) : string := substring i (j - i) s.

(** Whitespace that [int()] skips: tab, LF, VT, FF, CR and space, and
    the two non-ASCII spaces below 256, NEL and NBSP. *)
Definition is_space (a : ascii) : bool :=
  let n := N_of_ascii a in
  ((9 <=? n) && (n <=? 13) || (n =? 32) || (n =? 133) || (n =? 160))%N.

Definition digit_value (a : ascii) : option Z :=
  let n := Z.of_N (N_of_ascii a) in
  if (48 <=? n) && (n <=? 57) then Some (n - 48)
  else if (97 <=? n) && (n <=? 122) then Some (n - 97 + 10)
  else if (65 <=? n) && (n <=? 90) then Some (n - 65 + 10)
  else None.

Fixpoint skip_spaces (s : string) : string :=
  match s with
  | String a s' => if is_space a then skip_spaces s' else s
  | EmptyString => s
  end.

(** The digits of a literal, with single underscores between digits;
    returns the value read and the text left over.  [prev_us] tells
    whether the previous character was an underscore, [seen] whether a
    digit has been read. *)
Fixpoint digits (base acc : Z) (prev_us seen : bool) (s : string)
  : option (Z * string) :=
  match s with
  | String a s' =>
      if Ascii.eqb a "_" then
        if prev_us then None else digits base acc true seen s'
      else
        match digit_value a with
        | Some d =>
            if d <? base then digits base (acc * base + d) false true s'
            else if prev_us || negb seen then None else Some (acc, s)
        | None => if prev_us || negb seen then None else Some (acc, s)
        end
  | EmptyString => if prev_us || negb seen then None else Some (acc, s)
  end.

Definition strip_sign (s : string) : bool * string :=
  match s with
  | String "+" s' => (false, s')
  | String "-" s' => (true, s')
  | _ => (false, s)
  end.

(** The optional [0x] / [0X] prefix of a base-16 literal, and the one
    underscore that may follow it. *)
Definition strip_0x (s : string) : string :=
  match s with
  | String "0" (String c s') =>
      if Ascii.eqb c "x" || Ascii.eqb c "X" then
        match s' with
        | String "_" s'' => s''
        | _ => s'
        end
      else s
  | _ => s
  end.

(** [int(s, 16)]. *)
Definition int16 (s : string) : result Z :=
  let '(neg, body) := strip_sign (skip_spaces s) in
  let body := strip_0x body in
  match body with
  | String "_" _ => Raise (ValueError (InvalidLiteral 16 s))
  | _ =>
      match digits 16 0 false false body with
      | Some (v, rest) =>
          match skip_spaces rest with
          | EmptyString => Ok (if neg then - v else v)
          | _ => Raise (ValueError (InvalidLiteral 16 s))
          end
      | None => Raise (ValueError (InvalidLiteral 16 s))
      end
  end.

End PyStr.

(** ** generate-ios-splashes.py: the pure part *)

Record SplashSpec := {
  width : Z;
  height : Z;
  filename : string;
}.

Definition SPLASH_SPECS : list SplashSpec := [
  (* iPhone 14 Pro Max / 15 Pro Max *)
  {| width := 1290; height := 2796; filename := "1290x2796.png" |};
  (* iPhone 14 Pro / 15 Pro *)
  {| width := 1179; height := 2556; filename := "1179x2556.png" |};
  (* iPhone 13 / 14 / 15 *)
  {| width := 1170; height := 2532; filename := "1170x2532.png" |}
].

Definition hex_to_rgb (color : string) : result (Z * Z * Z) :=
  let color := PyStr.lstrip "#" color in
  if negb (String.length color =? 6)%nat then
    Raise (ValueError (BadColorLength color))
  else
    r ← PyStr.int16 (PyStr.slice color 0 2);
    g ← PyStr.int16 (PyStr.slice color 2 4);
    b ← PyStr.int16 (PyStr.slice color 4 6);
    mret (r, g, b).

(** The literal [0.22]. *)
Definition lit_0_22 : PyFloat.float := PyFloat.literal 22 100.

(** [int(min(spec.width, spec.height) * 0.22)]. *)
Definition icon_size (spec : SplashSpec) : result Z :=
  m ← PyFloat.of_int (Z.min (width spec) (height spec));
  PyFloat.to_int (PyFloat.mul m lit_0_22).

(** The placement of the icon on the canvas of [spec]: the side of the
    scaled icon and the offset [(x, y)] handed to [alpha_composite]. *)
Definition icon_placement (spec : SplashSpec) : result (Z * (Z * Z)) :=
  icon_size ← icon_size spec;
  let x := (width spec - icon_size) / 2 in
  let y := (height spec - icon_size) / 2 in
  mret (icon_size, (x, y)).

(** ** The imaging library

    The Pillow calls the two scripts make.  A call that raises returns
    [None]; the laws are the size contracts of the library. *)

Inductive mode := RGB | RGBA.

Record save_opts := {
  optimize : bool;
  compress_level : option Z;
}.

Class Imaging := {
  image : Type;
  (** [im.size] *)
  im_size : image -> Z * Z;
  (** [Image.open(fp)] followed by the loading of the pixel data. *)
  decode : list byte -> option image;
  (** [im.convert(mode)] *)
  convert : mode -> image -> option image;
  (** [im.resize(size, Image.LANCZOS)] *)
  resize : Z * Z -> image -> option image;
  (** [Image.new(mode, size, color)] *)
  new_image : mode -> Z * Z -> Z * Z * Z * Z -> option image;
  (** [canvas.alpha_composite(im, dest)]: the canvas after the call. *)
  alpha_composite : image -> image -> Z * Z -> option image;
  (** The bytes [im.save(fp, "PNG", ...)] writes. *)
  png_encode : save_opts -> image -> option (list byte);
  (** What a [save] that raised while encoding leaves at its path,
      from what the path held before ([None]: no file). *)
  save_residue : save_opts -> image -> option (list byte) -> option (list byte);

  convert_size m im im' : convert m im = Some im' -> im_size im' = im_size im;
  resize_size sz im im' : resize sz im = Some im' -> im_size im' = sz;
  new_image_size m sz c im : new_image m sz c = Some im -> im_size im = sz;
  alpha_composite_size cv im at_ cv' :
    alpha_composite cv im at_ = Some cv' -> im_size cv' = im_size cv;
}.

(** ** The file tree and the state of a run *)

Inductive node :=
| File (data : list byte)
| Dir.

(** The calls a script makes on the file tree, in order. *)
Inductive fs_call :=
| Exists (p : path)
| IsFile (p : path)
| Stat (p : path)
| Mkdir (p : path)
| Rglob (base : path)
| OpenRead (p : path)
| OpenWrite (p : path).

Record world := World {
  files : gmap path node;
  calls : list fs_call;
  stdout : list string;
}.

(** A script: from the state before to an outcome and the state after
    (the state in which the exception left the run, when it raises). *)
Definition io (A : Type) : Type := world -> result A * world.

#[global] Instance io_ret : MRet io := λ A a w, (Ok a, w).
#[global] Instance io_bind : MBind io :=
  λ A B f m w, match m w with
               | (Ok a, w') => f a w'
               | (Raise e, w') => (Raise e, w')
               end.

Definition lift {A} (r : result A) : io A := λ w, (r, w).
Definition raise {A} (e : exn) : io A := λ w, (Raise e, w).

Definition logged (c : fs_call) (w : world) : world :=
  World (files w) (calls w ++ [c]) (stdout w).

Definition print (line : string) : io unit :=
  λ w, (Ok tt, World (files w) (calls w) (stdout w ++ [line])).

(** The directory that holds [p]; the root holds the top-level names. *)
Definition parent (p : path) : path := removelast p.

Definition is_dir_in (m : gmap path node) (p : path) : bool :=
  match p with
  | [] => true
  | _ => match m !! p with Some Dir => true | _ => false end
  end.

Definition content (n : option node) : option (list byte) :=
  match n with
  | Some (File b) => Some b
  | _ => None
  end.

(** [p.exists()] *)
Definition path_exists (p : path) : io bool :=
  λ w, (Ok (match files w !! p with Some _ => true | None => false end),
        logged (Exists p) w).

(** [p.is_file()] *)
Definition is_file (p : path) : io bool :=
  λ w, (Ok (match files w !! p with Some (File _) => true | _ => false end),
        logged (IsFile p) w).

(** [p.stat().st_size] of a regular file. *)
Definition stat_size (p : path) : io Z :=
  λ w, match files w !! p with
       | Some (File b) => (Ok (Z.of_nat (length b)), logged (Stat p) w)
       | Some Dir => (Ok 0, logged (Stat p) w)
       | None => (Raise (FileNotFoundError p), logged (Stat p) w)
       end.

(** The directories [mkdir] creates on the way down to [done ++ rest]. *)
Fixpoint mkdir_from (done rest : path) (m : gmap path node)
  : result (gmap path node) :=
  match rest with
  | [] => Ok m
  | c :: rest' =>
      let d := done // c in
      match m !! d with
      | Some Dir => mkdir_from d rest' m
      | Some (File _) =>
          match rest' with
          | [] => Raise (FileExistsError d)
          | _ => Raise (NotADirectoryError d)
          end
      | None => mkdir_from d rest' (<[d := Dir]> m)
      end
  end.

(** [p.mkdir(parents=True, exist_ok=True)] *)
Definition mkdir_p (p : path) : io unit :=
  λ w, match mkdir_from [] p (files w) with
       | Ok m => (Ok tt, World m (calls w ++ [Mkdir p]) (stdout w))
       | Raise e => (Raise e, logged (Mkdir p) w)
       end.

Section Scripts.

Context `{Imaging}.

(** [Image.open(p)] with its pixel data loaded. *)
Definition Image_open (p : path) : io image :=
  λ w, let w' := logged (OpenRead p) w in
       match files w !! p with
       | Some (File b) =>
           match decode b with
           | Some im => (Ok im, w')
           | None => (Raise (UnidentifiedImageError p), w')
           end
       | Some Dir => (Raise (IsADirectoryError p), w')
       | None => (Raise (FileNotFoundError p), w')
       end.

(** [im.save(p, "PNG", ...)]: the file is opened for writing, which
    creates or truncates it, and the encoder writes into it. *)
Definition Image_save (im : image) (p : path) (o : save_opts) : io unit :=
  λ w, let w' := logged (OpenWrite p) w in
       match files w !! p with
       | Some Dir => (Raise (IsADirectoryError p), w')
       | prev =>
           if is_dir_in (files w) (parent p) then
             match png_encode o im with
             | Some b =>
                 (Ok tt, World (<[p := File b]> (files w)) (calls w') (stdout w'))
             | None =>
                 (Raise (EncoderError p),
                  World (match save_residue o im (content prev) with
                         | Some b => <[p := File b]> (files w)
                         | None => delete p (files w)
                         end) (calls w') (stdout w'))
             end
           else (Raise (FileNotFoundError p), w')
       end.

Definition pil {A} (op : string) (r : option A) : io A :=
  match r with
  | Some a => mret a
  | None => raise (ImagingError op)
  end.

End Scripts.

(** ** Directory enumeration

    [base.rglob("*.png")] yields every path below [base] whose name
    matches the pattern, directories included, in an order the
    operating system chooses.  The interface fixes the set and leaves
    the order open. *)

Definition ends_with (suffix s : string) : bool :=
  let n := String.length s in
  let k := String.length suffix in
  (k <=? n)%nat && String.eqb (substring (n - k) k s) suffix.

(** The name of [p] matches ["*.png"]. *)
Definition matches_png (p : path) : bool :=
  match last p with
  | Some name => ends_with ".png" name
  | None => false
  end.

(** [p] lies below the directory [base]. *)
Definition below (base p : path) : Prop := base `prefix_of` p /\ base <> p.

Class Platform := {
  rglob_png : gmap path node -> path -> list path;
  rglob_png_spec m base p :
    p ∈ rglob_png m base <->
    is_Some (m !! p) /\ below base p /\ matches_png p = true;
  rglob_png_NoDup m base : NoDup (rglob_png m base);
}.

(** ** generate-ios-splashes.py *)

Module Splashes.
Section Main.

Context `{Imaging}.

(** The components of the absolute path of the repository root,
    [Path(__file__).resolve().parents[1]]. *)
Variable root : path.

(** [str(root / p)] *)
Definition abs_str (p : path) : string :=
  "/" ++ String.concat "/" (root ++ p)%list.

Definition icons_dir : path := [] // "icons" // "ios".
Definition desired_1024 : path := icons_dir // "1024.png".
Definition icon_candidates : list path := [
  desired_1024;
  icons_dir // "512.png";
  icons_dir // "192.png"
].
Definition out_dir : path := [] // "splash".

(** [next((p for p in ps if p.exists()), None)] *)
Fixpoint first_existing (ps : list path) : io (option path) :=
  match ps with
  | [] => mret None
  | p :: ps' =>
      e ← path_exists p;
      if e : bool then mret (Some p) else first_existing ps'
  end.

Definition missing_icon_message : string :=
  "Missing source icon. Tried: "
  ++ String.concat ", " (map abs_str icon_candidates).

(** [save(..., "PNG", optimize=True)] *)
Definition optimized : save_opts :=
  {| optimize := true; compress_level := None |}.

Fixpoint for_each {A} (l : list A) (body : A -> io unit) : io unit :=
  match l with
  | [] => mret tt
  | a :: l' => body a;; for_each l' body
  end.

(** The body of the loop over [SPLASH_SPECS].  The offsets are pure,
    so [icon_placement] computes them together with the icon size. *)
Definition render (icon : image) (bg : Z * Z * Z) (spec : SplashSpec)
  : io unit :=
  let '(r, g, b) := bg in
  canvas ← pil "new" (new_image RGBA (width spec, height spec) (r, g, b, 255));
  '(icon_size, (x, y)) ← lift (icon_placement spec);
  scaled ← pil "resize" (resize (icon_size, icon_size) icon);
  canvas ← pil "alpha_composite" (alpha_composite canvas scaled (x, y));
  let out_path := out_dir // filename spec in
  flat ← pil "convert" (convert RGB canvas);
  Image_save flat out_path optimized;;
  print ("Wrote " ++ path_str out_path).

Definition main : io unit :=
  icon_path ← first_existing icon_candidates;
  mkdir_p out_dir;;
  match icon_path with
  | None => raise (SystemExit missing_icon_message)
  | Some icon_path =>
      opened ← Image_open icon_path;
      icon ← pil "convert" (convert RGBA opened);
      (* Ensure the manifest-referenced 1024 icon exists. *)
      have ← path_exists desired_1024;
      (if negb have then
         upscaled ← pil "resize" (resize (1024, 1024) icon);
         flat ← pil "convert" (convert RGB upscaled);
         Image_save flat desired_1024 optimized;;
         print ("Wrote " ++ path_str desired_1024)
       else mret tt);;
      bg ← lift (hex_to_rgb "#FDFBF7");
      for_each SPLASH_SPECS (render icon bg)
  end.

End Main.
End Splashes.

(** ** optimize-pngs.py *)

Module OptimizePngs.
Section Main.

Context `{Imaging} `{Platform}.

Definition TARGET_DIRS : list path := [
  [] // "icons" // "ios";
  [] // "splash"
].

(** [base.rglob("*.png")], started on the tree as it is then. *)
Definition rglob (base : path) : io (list path) :=
  λ w, (Ok (rglob_png (files w) base), logged (Rglob base) w).

(** The totals [main] keeps: bytes before, bytes after, files touched. *)
Abbreviation totals := (Z * Z * Z)%type.

(** [iter_pngs] is a generator and the loop of [main] consumes it:
    the loop body runs on each path as it is yielded, before the
    generator looks at the next one.  [yield_files] is the inner loop
    of [iter_pngs] over one directory's matches, [iter_pngs] the outer
    loop over the directories; [body] is the body of the consuming
    [for] statement. *)
Fixpoint yield_files (ps : list path) (body : path -> totals -> io totals)
  (acc : totals) : io totals :=
  match ps with
  | [] => mret acc
  | p :: ps' =>
      f ← is_file p;
      acc' ← (if f : bool then body p acc else mret acc);
      yield_files ps' body acc'
  end.

Fixpoint iter_pngs (dirs : list path) (body : path -> totals -> io totals)
  (acc : totals) : io totals :=
  match dirs with
  | [] => mret acc
  | base :: dirs' =>
      e ← path_exists base;
      acc' ← (if e : bool then ps ← rglob base; yield_files ps body acc
              else mret acc);
      iter_pngs dirs' body acc'
  end.

(** [save(path, format="PNG", optimize=True, compress_level=9)] *)
Definition max_compression : save_opts :=
  {| optimize := true; compress_level := Some 9 |}.

Definition optimize_png (p : path) : io (Z * Z) :=
  before ← stat_size p;
  (* Pillow re-encodes PNG losslessly. *)
  img ← Image_open p;
  Image_save img p max_compression;;
  after ← stat_size p;
  mret (before, after).

(** The literal [100.0]. *)
Definition lit_100 : PyFloat.float := PyFloat.literal 100 1.

(** [(delta / total_before * 100.0) if total_before else 0.0] *)
Definition percentage (delta total_before : Z) : result PyFloat.float :=
  if total_before =? 0 then Ok (S754_zero false)
  else
    q ← PyFloat.int_truediv delta total_before;
    mret (PyFloat.mul q lit_100).

Definition summary_line (touched total_before total_after delta : Z)
  (pct : PyFloat.float) : string :=
  "Optimized " ++ pretty touched ++ " PNGs: " ++ pretty total_before
  ++ " -> " ++ pretty total_after ++ " bytes "
  ++ "(-" ++ pretty delta ++ " bytes, " ++ PyFloat.format_2f pct ++ "%)".

(** The body of the [for png in iter_pngs(TARGET_DIRS)] loop. *)
Definition count_png (png : path) (acc : totals) : io totals :=
  let '(total_before, total_after, touched) := acc in
  '(before, after) ← optimize_png png;
  mret (total_before + before, total_after + after, touched + 1).

Definition main : io Z :=
  '(total_before, total_after, touched) ← iter_pngs TARGET_DIRS count_png (0, 0, 0);
  let delta := total_before - total_after in
  pct ← lift (percentage delta total_before);
  print (summary_line touched total_before total_after delta pct);;
  mret 0.

End Main.
End OptimizePngs.

(** ** A model of the two interfaces

    Rasters without pixel data, stored in a nine-byte format (a colour
    type and two big-endian 32-bit sizes), and a directory enumeration
    in key order.  The examples below run the scripts on it. *)

Module Toy.

Record raster := Raster {
  r_mode : mode;
  r_width : Z;
  r_height : Z;
}.

Definition byte_of (n : Z) : byte :=
  default Byte.x00 (Byte.of_N (Z.to_N (n mod 256))).

Definition be32 (n : Z) : list byte :=
  [byte_of (n / 16777216); byte_of (n / 65536); byte_of (n / 256); byte_of n].

Definition un_be32 (b3 b2 b1 b0 : byte) : Z :=
  Z.of_N (Byte.to_N b3) * 16777216 + Z.of_N (Byte.to_N b2) * 65536
  + Z.of_N (Byte.to_N b1) * 256 + Z.of_N (Byte.to_N b0).

Definition storable (im : raster) : bool :=
  (0 <? r_width im) && (r_width im <? 2 ^ 31)
  && (0 <? r_height im) && (r_height im <? 2 ^ 31).

Definition encode (o : save_opts) (im : raster) : option (list byte) :=
  if storable im then
    Some ((match r_mode im with RGB => Byte.x02 | RGBA => Byte.x06 end)
            :: be32 (r_width im) ++ be32 (r_height im))%list
  else None.

Definition decode (bs : list byte) : option raster :=
  match bs with
  | [t; w3; w2; w1; w0; h3; h2; h1; h0] =>
      let w := un_be32 w3 w2 w1 w0 in
      let h := un_be32 h3 h2 h1 h0 in
      match t with
      | Byte.x02 => Some (Raster RGB w h)
      | Byte.x06 => Some (Raster RGBA w h)
      | _ => None
      end
  | _ => None
  end.

Definition convert (m : mode) (im : raster) : option raster :=
  Some (Raster m (r_width im) (r_height im)).

Definition resize (sz : Z * Z) (im : raster) : option raster :=
  if (0 <? sz.1) && (0 <? sz.2) then Some (Raster (r_mode im) sz.1 sz.2)
  else None.

Definition new_image (m : mode) (sz : Z * Z) (c : Z * Z * Z * Z)
  : option raster :=
  if (0 <=? sz.1) && (0 <=? sz.2) then Some (Raster m sz.1 sz.2) else None.

Definition alpha_composite (cv im : raster) (at_ : Z * Z) : option raster :=
  match r_mode cv, r_mode im with
  | RGBA, RGBA => if (0 <=? at_.1) && (0 <=? at_.2) then Some cv else None
  | _, _ => None
  end.

(** A failed save leaves an existing file truncated and removes a
    file it created. *)
Definition residue (o : save_opts) (im : raster) (prev : option (list byte))
  : option (list byte) :=
  match prev with
  | Some _ => Some []
  | None => None
  end.

Definition size (im : raster) : Z * Z := (r_width im, r_height im).

Lemma convert_size m im im' : convert m im = Some im' -> size im' = size im.
Proof. unfold convert. intros [= <-]. reflexivity. Qed.

Lemma resize_size sz im im' : resize sz im = Some im' -> size im' = sz.
Proof.
  unfold resize. destruct sz as [w h].
  destruct (_ && _); intros [= <-]. reflexivity.
Qed.

Lemma new_image_size m sz c im : new_image m sz c = Some im -> size im = sz.
Proof.
  unfold new_image. destruct sz as [w h].
  destruct (_ && _); intros [= <-]. reflexivity.
Qed.

Lemma alpha_composite_size cv im at_ cv' :
  alpha_composite cv im at_ = Some cv' -> size cv' = size cv.
Proof.
  unfold alpha_composite.
  destruct (r_mode cv), (r_mode im); try discriminate.
  destruct (_ && _); intros [= <-]. reflexivity.
Qed.

Definition imaging : Imaging :=
  Build_Imaging raster size decode convert resize new_image alpha_composite
    encode residue
    convert_size resize_size new_image_size alpha_composite_size.

(** Enumeration in the order of the keys of the tree. *)
Definition rglob (m : gmap path node) (base : path) : list path :=
  filter (λ p, below base p /\ matches_png p = true) (elements (dom m)).

Lemma rglob_spec m base p :
  p ∈ rglob m base <->
  is_Some (m !! p) /\ below base p /\ matches_png p = true.
Proof.
  unfold rglob. rewrite list_elem_of_filter, elem_of_elements, elem_of_dom.
  tauto.
Qed.

Lemma rglob_NoDup m base : NoDup (rglob m base).
Proof. apply NoDup_filter, NoDup_elements. Qed.

Definition platform : Platform :=
  {| rglob_png := rglob;
     rglob_png_spec := rglob_spec;
     rglob_png_NoDup := rglob_NoDup |}.

End Toy.

(** ** A second model of the imaging library

    As [Toy], with two traits of Pillow added: a file may carry further
    bytes after the nine of the image, which re-encoding drops, and the
    sides of a new canvas are C ints. *)

Module Bounded.

Definition decode (bs : list byte) : option Toy.raster :=
  Toy.decode (take 9 bs).

Definition new_image (m : mode) (sz : Z * Z) (c : Z * Z * Z * Z)
  : option Toy.raster :=
  if (0 <=? sz.1) && (sz.1 <? 2 ^ 31) && (0 <=? sz.2) && (sz.2 <? 2 ^ 31)
  then Some (Toy.Raster m sz.1 sz.2) else None.

Lemma new_canvas_size m sz c im :
  new_image m sz c = Some im -> Toy.size im = sz.
Proof.
  unfold new_image. destruct sz as [w h].
  destruct (_ && _); intros [= <-]. reflexivity.
Qed.

Definition imaging : Imaging :=
  Build_Imaging Toy.raster Toy.size decode Toy.convert Toy.resize new_image
    Toy.alpha_composite Toy.encode Toy.residue
    Toy.convert_size Toy.resize_size new_canvas_size Toy.alpha_composite_size.

End Bounded.

(** * The vocabulary of the properties *)

(** The record [shr] reaches after [j] single shifts of [N]. *)
Definition shr_after (N j : Z) : shr_record :=
  {| shr_m := N / 2 ^ j;
     shr_r := (0 <? j) && Z.testbit N (j - 1);
     shr_s := (0 <? j) && negb (N mod 2 ^ (j - 1) =? 0) |}.

(** A square canvas on which the binary64 product is not the exact one. *)
Definition huge_spec : SplashSpec :=
  {| width := 1279438876420709; height := 1279438876420709;
     filename := "huge.png" |}.

(** ** Runs *)

(** [wp m Q w]: the run of [m] from [w] ends in an outcome and a state
    that satisfy [Q]. *)
Definition wp {A} (m : io A) (Q : result A -> world -> Prop) (w : world) : Prop :=
  Q (m w).1 (m w).2.

(** The paths opened for writing, in order. *)
Definition written (cs : list fs_call) : list path :=
  omap (fun c => match c with OpenWrite p => Some p | _ => None end) cs.

(** The paths opened for reading, in order. *)
Definition opened (cs : list fs_call) : list path :=
  omap (fun c => match c with OpenRead p => Some p | _ => None end) cs.

(** The number of times [p] occurs in [ps]. *)
Definition occurrences (p : path) (ps : list path) : nat :=
  length (filter (fun q => q = p) ps).

(** The line printed for a file written. *)
Definition wrote (p : path) : string := "Wrote " ++ path_str p.

Definition is_hex_digit (a : ascii) : bool :=
  match PyStr.digit_value a with Some d => d <? 16 | None => false end.

Definition hex_value (a : ascii) : Z := default 0 (PyStr.digit_value a).

(** The 256 characters of the model. *)
Definition all_ascii : list ascii := map ascii_of_nat (seq 0 256).

(** What [int(s, 16)] does on the two characters [a], [b]: on two hex
    digits it returns their value; whatever it returns lies between
    -15 and 255. *)
Definition pair_ok (a b : ascii) : bool :=
  match PyStr.int16 (String a (String b "")) with
  | Ok v =>
      (-15 <=? v) && (v <=? 255)
      && (if is_hex_digit a && is_hex_digit b
          then v =? 16 * hex_value a + hex_value b else true)
  | Raise _ => negb (is_hex_digit a && is_hex_digit b)
  end.

(** The first path of [ps] present in [m], in the order of [ps]. *)
Fixpoint select (m : gmap path node) (ps : list path) : option path :=
  match ps with
  | [] => None
  | p :: ps' => match m !! p with Some _ => Some p | None => select m ps' end
  end.

(** The paths of [ps] looked at to find it: all up to and including the
    first present one. *)
Fixpoint probes (m : gmap path node) (ps : list path) : list path :=
  match ps with
  | [] => []
  | p :: ps' => p :: match m !! p with Some _ => [] | None => probes m ps' end
  end.

Definition is_file_in (m : gmap path node) (p : path) : bool :=
  match m !! p with Some (File _) => true | _ => false end.

(** [p.stat().st_size] on the tree [m]. *)
Definition size_in (m : gmap path node) (p : path) : Z :=
  match m !! p with Some (File b) => Z.of_nat (length b) | _ => 0 end.

Definition sum_sizes (m : gmap path node) (ps : list path) : Z :=
  foldr (fun p acc => size_in m p + acc) 0 ps.

(** The regular files among [ps], in the order of [ps]. *)
Definition regular (m : gmap path node) (ps : list path) : list path :=
  filter (fun p => is_file_in m p = true) ps.

(** [p] is a file [iter_pngs dirs] yields on the tree [m]: a regular
    file below a directory of [dirs] that exists, with a name matching
    ["*.png"]. *)
Definition is_target (dirs : list path) (m : gmap path node) (p : path) : Prop :=
  exists base,
    base ∈ dirs /\ is_Some (m !! base) /\ below base p /\
    matches_png p = true /\ is_file_in m p = true.

(** No path lies below two directories of [dirs]. *)
Definition separate (dirs : list path) : Prop :=
  forall b1 b2 p, b1 ∈ dirs -> b2 ∈ dirs -> below b1 p -> below b2 p -> b1 = b2.

(** The splash files, in the order of [SPLASH_SPECS]. *)
Definition outputs : list path :=
  map (fun spec => Splashes.out_dir // filename spec) SPLASH_SPECS.

(** What a complete run writes on the tree [m]: the canonical icon
    when [m] has none, then the splash files. *)
Definition planned_writes (m : gmap path node) : list path :=
  (match m !! Splashes.desired_1024 with
   | None => [Splashes.desired_1024]
   | Some _ => []
   end ++ outputs)%list.

Section Vocabulary.

Context `{Imaging}.

(** The state a save leaves: the bytes written on success, what the
    failed encoder left otherwise. *)
Definition after_save (im : image) (p : path) (o : save_opts) (w : world)
  : gmap path node :=
  match png_encode o im with
  | Some b => <[p := File b]> (files w)
  | None =>
      match save_residue o im (content (files w !! p)) with
      | Some b => <[p := File b]> (files w)
      | None => delete p (files w)
      end
  end.

(** What can be said of every run of [main], whatever its outcome. *)
Definition main_post (w : world) (r : result unit) (w' : world) : Prop :=
  exists rest,
    calls w' = (calls w ++ map Exists (probes (files w) Splashes.icon_candidates)
                  ++ Mkdir Splashes.out_dir :: rest)%list /\
    (opened rest = [] \/
     exists p, select (files w) Splashes.icon_candidates = Some p /\
               opened rest = [p]) /\
    written rest `prefix_of` planned_writes (files w) /\
    (forall q, q ∉ written rest -> q <> Splashes.out_dir ->
               files w' !! q = files w !! q) /\
    (r = Ok tt ->
     (exists p, select (files w) Splashes.icon_candidates = Some p /\
                opened rest = [p]) /\
     written rest = planned_writes (files w) /\
     (forall spec, spec ∈ SPLASH_SPECS ->
        exists flat b,
          files w' !! (Splashes.out_dir // filename spec) = Some (File b) /\
          png_encode Splashes.optimized flat = Some b /\
          im_size flat = (width spec, height spec)) /\
     (files w !! Splashes.desired_1024 = None ->
      exists flat b,
        files w' !! Splashes.desired_1024 = Some (File b) /\
        png_encode Splashes.optimized flat = Some b /\
        im_size flat = (1024, 1024))).

(** What a run of [main] prints. *)
Definition prints_post (w : world) (r : result unit) (w' : world) : Prop :=
  exists lines,
    stdout w' = (stdout w ++ lines)%list /\
    lines `prefix_of` map wrote (planned_writes (files w)) /\
    (r = Ok tt -> lines = map wrote (planned_writes (files w))).

(** Pillow takes the size of a new image as two C ints: no canvas has
    a side of 2^31 or more. *)
Definition canvas_limit : Prop :=
  forall m sz c im, new_image m sz c = Some im -> sz.1 < 2 ^ 31 /\ sz.2 < 2 ^ 31.

(** The splash file of [spec] in the tree [m'] is what the loop body
    makes of [icon]: the icon resized to the square of the spec,
    composited at its offsets onto a canvas of the spec's size in the
    background colour, converted to RGB and encoded. *)
Definition composited (icon : image) (m' : gmap path node) (spec : SplashSpec)
  : Prop :=
  exists s x y canvas scaled composed flat bytes,
    icon_placement spec = Ok (s, (x, y)) /\
    new_image RGBA (width spec, height spec) (253, 251, 247, 255) = Some canvas /\
    resize (s, s) icon = Some scaled /\
    alpha_composite canvas scaled (x, y) = Some composed /\
    convert RGB composed = Some flat /\
    png_encode Splashes.optimized flat = Some bytes /\
    m' !! (Splashes.out_dir // filename spec) = Some (File bytes).

(** The canonical icon in the tree [m'] is [icon] resized to
    1024 x 1024, converted to RGB and encoded. *)
Definition upscaled (icon : image) (m' : gmap path node) : Prop :=
  exists up flat bytes,
    resize (1024, 1024) icon = Some up /\
    convert RGB up = Some flat /\
    png_encode Splashes.optimized flat = Some bytes /\
    m' !! Splashes.desired_1024 = Some (File bytes).

(** The loop body can make the splash file of [spec] from [icon] on
    the tree [m]: every call of the library succeeds and the path is
    no directory. *)
Definition renderable (icon : image) (m : gmap path node) (spec : SplashSpec)
  : Prop :=
  m !! (Splashes.out_dir // filename spec) <> Some Dir /\
  exists s x y canvas scaled composed flat bytes,
    icon_placement spec = Ok (s, (x, y)) /\
    new_image RGBA (width spec, height spec) (253, 251, 247, 255) = Some canvas /\
    resize (s, s) icon = Some scaled /\
    alpha_composite canvas scaled (x, y) = Some composed /\
    convert RGB composed = Some flat /\
    png_encode Splashes.optimized flat = Some bytes.

(** The canonical icon can be made from [icon] on the tree [m]. *)
Definition upscalable (icon : image) (m : gmap path node) : Prop :=
  is_dir_in m Splashes.icons_dir = true /\
  exists up flat bytes,
    resize (1024, 1024) icon = Some up /\
    convert RGB up = Some flat /\
    png_encode Splashes.optimized flat = Some bytes.

(** What can be said of a run of [main] that has found the candidate
    [p], holding the image [im], and made its output directory. *)
Definition source_post (w : world) (p : path) (im : image)
  (r : result unit) (w' : world) : Prop :=
  exists rest,
    calls w' = (calls w ++ map Exists (probes (files w) Splashes.icon_candidates)
                  ++ Mkdir Splashes.out_dir :: OpenRead p :: rest)%list /\
    opened rest = [] /\
    (forall msg, r <> Raise (SystemExit msg)) /\
    (r = Ok tt ->
     exists icon,
       convert RGBA im = Some icon /\
       (forall spec, spec ∈ SPLASH_SPECS -> composited icon (files w') spec) /\
       (files w !! Splashes.desired_1024 = None -> upscaled icon (files w'))).

(** [p] held an image in [m] and holds its re-encoding in [m']. *)
Definition reencoded (m m' : gmap path node) (p : path) : Prop :=
  exists b im b',
    m !! p = Some (File b) /\ decode b = Some im /\
    png_encode OptimizePngs.max_compression im = Some b' /\
    m' !! p = Some (File b').

(** The state of the loop of [main] after the files [done], started
    from [w0]: they have been read and rewritten, once each and in
    this order, nothing else has changed, and [acc] holds their
    totals. *)
Definition processed (w0 : world) (done : list path)
  (acc : Z * Z * Z) (w : world) : Prop :=
  exists new,
    calls w = (calls w0 ++ new)%list /\
    written new = done /\ opened new = done /\
    stdout w = stdout w0 /\ NoDup done /\
    (forall q, q ∈ done -> reencoded (files w0) (files w) q) /\
    (forall q, q ∉ done -> files w !! q = files w0 !! q) /\
    acc = (sum_sizes (files w0) done, sum_sizes (files w) done,
           Z.of_nat (length done)).

(** The state in which the loop has raised [e] at the file [p], after
    the files [done]. *)
Definition halted (w0 : world) (done : list path) (p : path) (e : exn)
  (w' : world) : Prop :=
  exists new,
    calls w' = (calls w0 ++ new)%list /\
    stdout w' = stdout w0 /\ NoDup (done ++ [p]) /\
    opened new = (done ++ [p])%list /\
    (forall q, q ∈ done -> reencoded (files w0) (files w') q) /\
    (forall q, q ∉ done -> q <> p -> files w' !! q = files w0 !! q) /\
    ((e = UnidentifiedImageError p /\ written new = done /\
      last new = Some (OpenRead p) /\ files w' !! p = files w0 !! p) \/
     (e = EncoderError p /\ written new = (done ++ [p])%list /\
      last new = Some (OpenWrite p)) \/
     (e = FileNotFoundError p /\ written new = (done ++ [p])%list /\
      last new = Some (OpenWrite p) /\ files w' !! p = files w0 !! p)).

(** What the loop over one directory's matches leaves. *)
Definition loop_post (w0 : world) (done ps : list path)
  (r : result (Z * Z * Z)) (w' : world) : Prop :=
  match r with
  | Ok acc' => processed w0 (done ++ regular (files w0) ps) acc' w'
  | Raise e =>
      exists done' p rest,
        halted w0 done' p e w' /\
        (done ++ regular (files w0) ps = done' ++ p :: rest)%list
  end.

(** What the whole loop of [main] leaves. *)
Definition iter_post (w0 : world) (dirs : list path)
  (r : result (Z * Z * Z)) (w' : world) : Prop :=
  match r with
  | Ok acc' =>
      exists done,
        processed w0 done acc' w' /\
        forall q, q ∈ done <-> is_target dirs (files w0) q
  | Raise e =>
      exists done p,
        halted w0 done p e w' /\
        forall q, q ∈ (done ++ [p])%list -> is_target dirs (files w0) q
  end.

(** What can be said of every run of [main], whatever its outcome. *)
Definition optimize_post (w : world) (r : result Z) (w' : world) : Prop :=
  match r with
  | Ok code =>
      code = 0 /\
      exists done pct,
        let before := sum_sizes (files w) done in
        let after := sum_sizes (files w') done in
        processed w done (before, after, Z.of_nat (length done))
          (World (files w') (calls w') (stdout w)) /\
        (forall q, q ∈ done <-> is_target OptimizePngs.TARGET_DIRS (files w) q) /\
        OptimizePngs.percentage (before - after) before = Ok pct /\
        stdout w' =
          (stdout w ++ [OptimizePngs.summary_line (Z.of_nat (length done))
                          before after (before - after) pct])%list
  | Raise e =>
      (exists done p,
          halted w done p e w' /\
          forall q, q ∈ (done ++ [p])%list ->
                    is_target OptimizePngs.TARGET_DIRS (files w) q) \/
      (e = OverflowError /\
       exists done acc,
         processed w done acc w' /\
         (forall q, q ∈ done <-> is_target OptimizePngs.TARGET_DIRS (files w) q) /\
         OptimizePngs.percentage (acc.1.1 - acc.1.2) acc.1.1 = Raise e)
  end.

End Vocabulary.

(** ** Example trees *)

(** The bytes of a 192 x 192 RGBA image in the nine-byte format. *)
Definition icon192 : list byte :=
  default [] (Toy.encode Splashes.optimized (Toy.Raster RGBA 192 192)).

(** A checkout that has only the smallest icon. *)
Definition small_icon_tree : gmap path node :=
  <[ ["icons"; "ios"; "192.png"] := File icon192 ]>
    (<[ ["icons"; "ios"] := Dir ]> (<[ ["icons"] := Dir ]> ∅)).

Definition small_icon_world : world := World small_icon_tree [] [].

(** A checkout with no icon at all, and no output directory. *)
Definition bare_tree : gmap path node :=
  <[ ["README.md"] := File [Byte.x23] ]> ∅.

Definition bare_world : world := World bare_tree [] [].

(** A checkout where the second of three PNG files is not an image. *)
Definition corrupt_tree : gmap path node :=
  <[ ["splash"; "a.png"] := File icon192 ]>
    (<[ ["splash"; "b.png"] := File [Byte.x00] ]>
       (<[ ["splash"; "c.png"] := File icon192 ]>
          (<[ ["splash"] := Dir ]> ∅))).

Definition corrupt_world : world := World corrupt_tree [] [].

(** A checkout whose canonical icon is there. *)
Definition full_icon_tree : gmap path node :=
  <[ ["icons"; "ios"; "1024.png"] := File icon192 ]>
    (<[ ["icons"; "ios"] := Dir ]> (<[ ["icons"] := Dir ]> ∅)).

Definition full_icon_world : world := World full_icon_tree [] [].

(** A checkout with two PNG files to process. *)
Definition clean_tree : gmap path node :=
  <[ ["splash"; "a.png"] := File icon192 ]>
    (<[ ["splash"] := Dir ]>
       (<[ ["icons"; "ios"; "192.png"] := File icon192 ]>
          (<[ ["icons"; "ios"] := Dir ]> (<[ ["icons"] := Dir ]> ∅)))).

Definition clean_world : world := World clean_tree [] [].

(** The bytes of a 512 x 512 RGBA image in the nine-byte format. *)
Definition icon512 : list byte :=
  default [] (Toy.encode Splashes.optimized (Toy.Raster RGBA 512 512)).

(** A checkout that has the two smaller icons. *)
Definition two_icon_tree : gmap path node :=
  <[ ["icons"; "ios"; "512.png"] := File icon512 ]>
    (<[ ["icons"; "ios"; "192.png"] := File icon192 ]>
       (<[ ["icons"; "ios"] := Dir ]> (<[ ["icons"] := Dir ]> ∅))).

Definition two_icon_world : world := World two_icon_tree [] [].

(** A checkout whose two PNG files carry 3 and 11 bytes after the nine
    of the image. *)
Definition padded_tree : gmap path node :=
  <[ ["splash"; "a.png"] := File (icon192 ++ [Byte.x00; Byte.x00; Byte.x00]) ]>
    (<[ ["splash"; "b.png"] := File (icon192 ++ replicate 11 Byte.x00) ]>
       (<[ ["splash"] := Dir ]> ∅)).

Definition padded_world : world := World padded_tree [] [].

(** A tree that has the output directory and nothing else. *)
Definition empty_splash_world : world :=
  World (<[ ["splash"] := Dir ]> ∅) [] [].

(** A spec that is not one of the built-in ones. *)
Definition vga_spec : SplashSpec :=
  {| width := 640; height := 480; filename := "640x480.png" |}.

(** * Properties *)

(** ** Binary64 rounding

    [SpecFloat] defines the operations and proves nothing about them;
    the facts below are what the icon geometry needs: an integer below
    [2^53] converts exactly, and the rounded product with [0.22]
    truncates to [m * 22 / 100] for every [m] below [2^50]. *)

Lemma digits2_pos_log2 (p : positive) :
  Zpos (digits2_pos p) = Z.log2 (Zpos p) + 1.
Proof.
  induction p as [p IH|p IH|]; simpl digits2_pos.
  - rewrite Pos2Z.inj_succ, IH. change (Z.pos p~1) with (2 * Z.pos p + 1).
    rewrite (Z.log2_succ_double (Zpos p)) by lia. reflexivity.
  - rewrite Pos2Z.inj_succ, IH. change (Z.pos p~0) with (2 * Z.pos p).
    rewrite (Z.log2_double (Zpos p)) by lia. reflexivity.
  - reflexivity.
Qed.

Lemma digits2_pos_bounds (p : positive) (d : Z) :
  2 ^ (d - 1) <= Zpos p < 2 ^ d -> 0 < d -> Zpos (digits2_pos p) = d.
Proof.
  intros H Hd. rewrite digits2_pos_log2.
  rewrite (Z.log2_unique (Zpos p) (d - 1)); [lia | lia |].
  replace (Z.succ (d - 1)) with d by lia. exact H.
Qed.

Lemma iter_xO (p d : positive) :
  Zpos (Pos.iter xO p d) = Zpos p * 2 ^ Zpos d.
Proof.
  revert p. induction d using Pos.peano_ind; intros p.
  - simpl Pos.iter. lia.
  - rewrite Pos.iter_succ. rewrite Pos2Z.inj_xO, IHd.
    rewrite Pos2Z.inj_succ, Z.pow_succ_r by lia. lia.
Qed.

Lemma shr_1_nonneg m r s :
  0 <= m ->
  shr_1 {| shr_m := m; shr_r := r; shr_s := s |} =
  {| shr_m := m / 2; shr_r := Z.odd m; shr_s := r || s |}.
Proof.
  intros Hm. destruct m as [|[p|p|]|p]; try lia; simpl shr_1.
  - reflexivity.
  - f_equal. change (Z.pos p~1) with (2 * Z.pos p + 1).
    apply Z.div_unique with 1; lia.
  - f_equal. change (Z.pos p~0) with (2 * Z.pos p).
    apply Z.div_unique with 0; lia.
  - reflexivity.
Qed.

Lemma shr_1_after N j :
  0 <= N -> 0 <= j -> shr_1 (shr_after N j) = shr_after N (j + 1).
Proof.
  intros HN Hj. unfold shr_after.
  rewrite shr_1_nonneg by (apply Z.div_pos; [lia | apply Z.pow_pos_nonneg; lia]).
  replace (0 <? j + 1) with true by (symmetry; apply Z.ltb_lt; lia).
  replace (j + 1 - 1) with j by lia. simpl andb. f_equal.
  - rewrite Z.pow_add_r, Z.pow_1_r by lia.
    rewrite Z.div_div; try lia.
  - rewrite Z.testbit_odd, Z.shiftr_div_pow2 by lia. reflexivity.
  - destruct (Z.ltb_spec 0 j) as [Hpos|Hz].
    + simpl andb.
      assert (Hp : 0 < 2 ^ (j - 1)) by (apply Z.pow_pos_nonneg; lia).
      assert (Hpow : 2 ^ j = 2 ^ (j - 1) * 2).
      { rewrite <- (Z.pow_1_r 2) at 3. rewrite <- Z.pow_add_r by lia.
        f_equal. lia. }
      assert (Hsplit : N mod 2 ^ j =
                       N mod 2 ^ (j - 1) + 2 ^ (j - 1) * Z.b2z (Z.testbit N (j - 1))).
      { rewrite Hpow, Z.rem_mul_r by lia.
        rewrite Z.testbit_odd, Z.shiftr_div_pow2 by lia.
        rewrite <- Z.bit0_mod, Z.bit0_odd. reflexivity. }
      assert (Hlow : 0 <= N mod 2 ^ (j - 1)).
      { apply Z.mod_pos_bound. apply Z.pow_pos_nonneg; lia. }
      rewrite Hsplit.
      destruct (Z.testbit N (j - 1)); simpl Z.b2z; simpl orb.
      * symmetry. apply negb_true_iff, Z.eqb_neq. lia.
      * f_equal. f_equal. lia.
    + assert (j = 0) by lia. subst j. simpl. rewrite Z.mod_1_r. reflexivity.
Qed.

Lemma iter_pos_shr_after N (p : positive) j :
  0 <= N -> 0 <= j ->
  SpecFloat.iter_pos shr_1 p (shr_after N j) = shr_after N (j + Zpos p).
Proof.
  intros HN. revert j. induction p as [p IH|p IH|]; intros j Hj; cbn [SpecFloat.iter_pos].
  - rewrite shr_1_after, !IH by lia. f_equal. lia.
  - rewrite !IH by lia. f_equal. lia.
  - apply shr_1_after; lia.
Qed.

Lemma mod_pow2_split N j :
  0 < j ->
  N mod 2 ^ j = N mod 2 ^ (j - 1) + 2 ^ (j - 1) * Z.b2z (Z.testbit N (j - 1)).
Proof.
  intros Hj.
  assert (Hp : 0 < 2 ^ (j - 1)) by (apply Z.pow_pos_nonneg; lia).
  assert (Hpow : 2 ^ j = 2 ^ (j - 1) * 2).
  { rewrite <- (Z.pow_1_r 2) at 3. rewrite <- Z.pow_add_r by lia.
    f_equal. lia. }
  rewrite Hpow, Z.rem_mul_r by lia.
  rewrite Z.testbit_odd, Z.shiftr_div_pow2 by lia.
  rewrite <- Z.bit0_mod, Z.bit0_odd. reflexivity.
Qed.

Lemma fexp_normal e :
  -1074 <= e - 53 -> fexp 53 1024 e = e - 53.
Proof. intros H. unfold fexp, emin. lia. Qed.

Lemma shr_zero mrs e : shr mrs e 0 = (mrs, e).
Proof. reflexivity. Qed.

(** A mantissa of exactly 53 bits is left alone by rounding. *)
Lemma binary_round_aux_canonical s (mz : positive) ez :
  Zpos (digits2_pos mz) = 53 -> -1074 <= ez <= 971 ->
  binary_round_aux 53 1024 s (Zpos mz) ez loc_Exact = S754_finite s mz ez.
Proof.
  intros Hd He. unfold binary_round_aux, shr_fexp.
  cbn [Zdigits2 shr_record_of_loc]. rewrite Hd, fexp_normal by lia.
  replace (53 + ez - 53 - ez) with 0 by lia. rewrite shr_zero.
  cbn [shr_m loc_of_shr_record round_nearest_even Zdigits2 shr_record_of_loc].
  rewrite Hd, fexp_normal by lia.
  replace (53 + ez - 53 - ez) with 0 by lia. rewrite shr_zero.
  cbn [shr_m]. replace (ez <=? 1024 - 53) with true; [reflexivity|].
  symmetry. apply Z.leb_le. lia.
Qed.

(** [float(m)] is exact for a positive integer below [2^53]. *)
Lemma of_int_exact (m : Z) :
  0 < m < 2 ^ 53 ->
  let k := Z.log2 m + 1 in
  exists mx : positive,
    PyFloat.of_int m = Ok (S754_finite false mx (k - 53)) /\
    Zpos mx = m * 2 ^ (53 - k) /\ 1 <= k <= 53.
Proof.
  intros Hm k. destruct m as [|p|p]; try lia.
  assert (Hk : 1 <= k <= 53).
  { unfold k. split; [pose proof (Z.log2_nonneg (Zpos p)); lia|].
    assert (Z.log2 (Zpos p) < 53); [|lia].
    apply Z.log2_lt_pow2; lia. }
  assert (Hlog : 2 ^ (k - 1) <= Zpos p < 2 ^ k).
  { unfold k. replace (Z.log2 (Z.pos p) + 1 - 1) with (Z.log2 (Zpos p)) by lia.
    pose proof (Z.log2_spec (Zpos p)). rewrite <- Z.add_1_r in H. apply H. lia. }
  unfold PyFloat.of_int, binary_normalize, binary_round.
  rewrite digits2_pos_log2. fold k. unfold PyFloat.prec, PyFloat.emax.
  rewrite fexp_normal by lia. unfold shl_align.
  assert (Hcan : forall mz : positive, Zpos mz = Zpos p * 2 ^ (53 - k) ->
                 Zpos (digits2_pos mz) = 53).
  { intros mz Hmz. apply digits2_pos_bounds; [|lia]. rewrite Hmz.
    replace (2 ^ (53 - 1)) with (2 ^ (k - 1) * 2 ^ (53 - k))
      by (rewrite <- Z.pow_add_r by lia; f_equal; lia).
    replace (2 ^ 53) with (2 ^ k * 2 ^ (53 - k))
      by (rewrite <- Z.pow_add_r by lia; f_equal; lia).
    assert (0 < 2 ^ (53 - k)) by (apply Z.pow_pos_nonneg; lia). nia. }
  destruct (k + 0 - 53 - 0) as [|d|d] eqn:Hshift; try lia.
  - exists p. assert (k = 53) by lia.
    rewrite binary_round_aux_canonical.
    + replace (53 - k) with 0 by lia. rewrite Z.pow_0_r.
      replace (k - 53) with 0 by lia. split; [reflexivity|]. lia.
    + apply Hcan. replace (53 - k) with 0 by lia. lia.
    + lia.
  - exists (Pos.iter xO p d).
    assert (Hval : Zpos (Pos.iter xO p d) = Zpos p * 2 ^ (53 - k)).
    { rewrite iter_xO. f_equal. f_equal. lia. }
    rewrite binary_round_aux_canonical.
    + replace (k + 0 - 53) with (k - 53) by lia. auto.
    + apply Hcan, Hval.
    + lia.
Qed.

Lemma shr_pos mrs e n :
  0 < n -> shr mrs e n = (SpecFloat.iter_pos shr_1 (Z.to_pos n) mrs, e + n).
Proof. intros Hn. destruct n; try lia. reflexivity. Qed.

(** Rounding a product mantissa [M] of [53 + n] bits: the result
    mantissa comes from [r], one of the two neighbours of
    [M / 2^n], and [r] is the upper one only from the midpoint on. *)
Lemma binary_round_aux_long s (pm : positive) (E n : Z) :
  0 < n ->
  2 ^ 52 * 2 ^ n <= Zpos pm < 2 ^ 53 * 2 ^ n ->
  -1074 <= E + n -> E + n + 1 <= 971 ->
  exists (r : Z) (r' : positive) (e' : Z),
    binary_round_aux 53 1024 s (Zpos pm) E loc_Exact = S754_finite s r' e' /\
    Zpos pm / 2 ^ n <= r /\
    2 * (r * 2 ^ n) <= 2 * Zpos pm + 2 ^ n /\
    ((Zpos r' = r /\ e' = E + n) \/
     (r = 2 ^ 53 /\ Zpos r' = 2 ^ 52 /\ e' = E + n + 1)).
Proof.
  intros Hn HM He1 He2.
  assert (Hpn : 0 < 2 ^ n) by (apply Z.pow_pos_nonneg; lia).
  assert (Hdig : Zpos (digits2_pos pm) = 53 + n).
  { apply digits2_pos_bounds; [|lia].
    replace (53 + n - 1) with (52 + n) by lia.
    rewrite !Z.pow_add_r by lia. lia. }
  unfold binary_round_aux, shr_fexp. cbn [Zdigits2]. rewrite Hdig.
  rewrite fexp_normal by lia.
  replace (53 + n + E - 53 - E) with n by lia.
  assert (Hstart : shr_record_of_loc (Zpos pm) loc_Exact = shr_after (Zpos pm) 0).
  { unfold shr_after. cbn. rewrite Z.div_1_r. reflexivity. }
  rewrite shr_pos, Hstart by lia.
  rewrite iter_pos_shr_after, Z2Pos.id, Z.add_0_l by lia.
  set (q := (Zpos pm) / 2 ^ n).
  set (r := round_nearest_even (shr_m (shr_after (Zpos pm) n))
              (loc_of_shr_record (shr_after (Zpos pm) n))).
  assert (Hq : 2 ^ 52 <= q < 2 ^ 53).
  { unfold q. split.
    - apply Z.div_le_lower_bound; lia.
    - apply Z.div_lt_upper_bound; lia. }
  assert (Hdm : (Zpos pm) = 2 ^ n * q + (Zpos pm) mod 2 ^ n) by (apply Z.div_mod; lia).
  assert (Hmod : 0 <= (Zpos pm) mod 2 ^ n < 2 ^ n) by (apply Z.mod_pos_bound; lia).
  assert (Hr : r = q \/ (r = q + 1 /\ 2 ^ n <= 2 * ((Zpos pm) mod 2 ^ n))).
  { unfold r, shr_after. cbn [shr_m shr_r shr_s loc_of_shr_record].
    replace (0 <? n) with true by (symmetry; apply Z.ltb_lt; lia).
    cbn [andb]. fold q.
    pose proof (mod_pow2_split (Zpos pm) n Hn) as Hsp.
    assert (H2 : 2 ^ n = 2 * 2 ^ (n - 1)).
    { rewrite <- (Z.pow_1_r 2) at 2. rewrite <- Z.pow_add_r by lia.
      f_equal. lia. }
    assert (0 <= (Zpos pm) mod 2 ^ (n - 1)).
    { apply Z.mod_pos_bound. apply Z.pow_pos_nonneg; lia. }
    destruct (Z.testbit (Zpos pm) (n - 1)); cbn [Z.b2z] in Hsp.
    - assert (2 ^ n <= 2 * ((Zpos pm) mod 2 ^ n)) by lia.
      destruct (negb _); cbn [round_nearest_even]; [right; auto|].
      destruct (Z.even q); [left|right]; auto.
    - left. destruct (negb _); reflexivity. }
  assert (Hrr : 2 ^ 52 <= r <= 2 ^ 53) by lia.
  destruct r as [|rp|rp] eqn:Hrp; try lia.
  destruct (Z.eq_dec (Zpos rp) (2 ^ 53)) as [Htop|Htop].
  - (* the mantissa overflowed to 2^53: one more shift *)
    assert (Hd54 : Zpos (digits2_pos rp) = 54).
    { apply digits2_pos_bounds; lia. }
    cbn [Zdigits2]. rewrite Hd54, fexp_normal by lia.
    replace (54 + (E + n) - 53 - (E + n)) with 1 by lia.
    rewrite shr_pos by lia. cbn [Z.to_pos SpecFloat.iter_pos shr_record_of_loc].
    rewrite shr_1_nonneg by lia. cbn [shr_m]. rewrite Htop.
    change (2 ^ 53 / 2) with (Zpos 4503599627370496).
    replace (E + n + 1 <=? 1024 - 53) with true
      by (symmetry; apply Z.leb_le; lia).
    exists (2 ^ 53), 4503599627370496%positive, (E + n + 1).
    split; [reflexivity|]. split; [lia|]. split; [lia|].
    right. repeat split; lia.
  - assert (Hd53 : Zpos (digits2_pos rp) = 53).
    { apply digits2_pos_bounds; lia. }
    cbn [Zdigits2]. rewrite Hd53, fexp_normal by lia.
    replace (53 + (E + n) - 53 - (E + n)) with 0 by lia.
    rewrite shr_zero. cbn [shr_m shr_record_of_loc].
    replace (E + n <=? 1024 - 53) with true
      by (symmetry; apply Z.leb_le; lia).
    exists (Zpos rp), rp, (E + n).
    split; [reflexivity|]. split; [lia|]. split; [lia|]. left. auto.
Qed.

Lemma lit_0_22_value :
  lit_0_22 = S754_finite false 7926335344172073 (-55).
Proof. vm_compute. reflexivity. Qed.

(** The quotient [r / T] is [m * 22 / 100] once [r] is one of the two
    neighbours of [m * A * dm / B], with [dm = 0.22 * 2^55] rounded
    and [B * T = 2^55 * A]. *)
Lemma scaled_quotient (m A B T r : Z) :
  0 < m -> 8 <= A -> 0 < B <= 2 ^ 53 -> 0 < T ->
  m * A < 2 ^ 53 ->
  B * T = 2 ^ 55 * A ->
  (m * A * 7926335344172073) / B <= r ->
  2 * (r * B) <= 2 * (m * A * 7926335344172073) + B ->
  r / T = m * 22 / 100.
Proof.
  intros Hm HA HB HT HmA HBT Hlo Hhi.
  set (q := m * 22 / 100).
  assert (Hq : 50 * q <= 11 * m <= 50 * q + 49).
  { pose proof (Z.div_mod (m * 22) 100 ltac:(lia)) as Hdm.
    pose proof (Z.mod_pos_bound (m * 22) 100 ltac:(lia)) as Hmb.
    fold q in Hdm. lia. }
  assert (Hlo' : m * A * 7926335344172073 < B * (r + 1)).
  { pose proof (Z.div_mod (m * A * 7926335344172073) B ltac:(lia)) as Hdm.
    pose proof (Z.mod_pos_bound (m * A * 7926335344172073) B ltac:(lia)) as Hmb.
    nia. }
  symmetry. apply Z.div_unique with (r - q * T). 2: lia.
  left. split.
  - (* q * T <= r *)
    destruct (Z_le_gt_dec (q * T) r) as [|Hc]; [lia|exfalso].
    assert (B * (r + 1) <= B * (q * T)) by (apply Z.mul_le_mono_nonneg_l; lia).
    assert (B * (q * T) = q * 2 ^ 55 * A) by (rewrite <- Z.mul_assoc, <- HBT; lia).
    assert ((m * 7926335344172073) * A < (q * 2 ^ 55) * A) by lia.
    assert (m * 7926335344172073 < q * 2 ^ 55).
    { apply Z.mul_lt_mono_pos_r with A; lia. }
    lia.
  - (* r < (q + 1) * T *)
    destruct (Z_lt_ge_dec r ((q + 1) * T)) as [|Hc]; [lia|exfalso].
    assert (B * ((q + 1) * T) <= B * r) by (apply Z.mul_le_mono_nonneg_l; lia).
    assert (B * ((q + 1) * T) = (q + 1) * 2 ^ 55 * A)
      by (rewrite <- Z.mul_assoc, <- HBT; lia).
    assert (H50 : (100 * (q + 1) * 2 ^ 55) * A
                  <= (100 * m * 7926335344172073) * A + 50 * B) by lia.
    assert (Hm22 : 100 * m * 7926335344172073 = 22 * m * 2 ^ 55 + 4 * m) by lia.
    rewrite Hm22 in H50.
    assert (H98 : (22 * m * 2 ^ 55) * A <= ((100 * q + 98) * 2 ^ 55) * A).
    { apply Z.mul_le_mono_nonneg_r; lia. }
    assert (2 * 2 ^ 55 * A <= 4 * (m * A) + 50 * B) by lia.
    lia.
Qed.

(** [int(m * 0.22)] in binary64 agrees with the integer quotient
    [m * 22 / 100] for every positive [m] below [2^50]. *)
Lemma int_mul_0_22 (m : Z) :
  0 < m < 2 ^ 50 ->
  (f ← PyFloat.of_int m; PyFloat.to_int (PyFloat.mul f lit_0_22))
  = Ok (m * 22 / 100).
Proof.
  intros Hm.
  destruct (of_int_exact m ltac:(lia)) as (mx & Hof & Hmx & Hk).
  set (k := Z.log2 m + 1) in *.
  assert (Hk50 : k <= 50).
  { unfold k. assert (Z.log2 m < 50); [|lia]. apply Z.log2_lt_pow2; lia. }
  assert (Hlog : 2 ^ (k - 1) <= m < 2 ^ k).
  { unfold k. replace (Z.log2 m + 1 - 1) with (Z.log2 m) by lia.
    pose proof (Z.log2_spec m ltac:(lia)) as H. rewrite <- Z.add_1_r in H. exact H. }
  set (A := 2 ^ (53 - k)) in *.
  assert (HA : 8 <= A).
  { unfold A. change 8 with (2 ^ 3). apply Z.pow_le_mono_r; lia. }
  assert (Hmxr : 2 ^ 52 <= Zpos mx < 2 ^ 53).
  { rewrite Hmx. unfold A.
    replace (2 ^ 52) with (2 ^ (k - 1) * 2 ^ (53 - k))
      by (rewrite <- Z.pow_add_r by lia; f_equal; lia).
    replace (2 ^ 53) with (2 ^ k * 2 ^ (53 - k))
      by (rewrite <- Z.pow_add_r by lia; f_equal; lia).
    fold A. nia. }
  rewrite Hof. cbn [mbind result_bind]. rewrite lit_0_22_value.
  unfold PyFloat.mul, PyFloat.prec, PyFloat.emax, SFmul. cbn [xorb].
  set (pm := (mx * 7926335344172073)%positive).
  assert (Hpm : Zpos pm = m * A * 7926335344172073).
  { unfold pm. rewrite Pos2Z.inj_mul, Hmx. reflexivity. }
  assert (Hn : exists n, (n = 52 \/ n = 53) /\
                         2 ^ 52 * 2 ^ n <= Zpos pm < 2 ^ 53 * 2 ^ n).
  { destruct (Z_lt_ge_dec (Zpos pm) (2 ^ 105)).
    - exists 52. split; [auto|]. unfold pm. rewrite Pos2Z.inj_mul. lia.
    - exists 53. split; [auto|]. unfold pm. rewrite Pos2Z.inj_mul. lia. }
  destruct Hn as (n & Hn & Hrange).
  destruct (binary_round_aux_long false pm (k - 53 + -55) n)
    as (r & r' & e' & Hround & Hlo & Hhi & Hcase); try lia.
  rewrite Hround. unfold PyFloat.to_int. cbn [cond_Zopp]. f_equal.
  set (t := 108 - k - n).
  assert (HT : 0 < 2 ^ t) by (apply Z.pow_pos_nonneg; lia).
  assert (HB : 0 < 2 ^ n <= 2 ^ 53).
  { split; [apply Z.pow_pos_nonneg; lia|]. apply Z.pow_le_mono_r; lia. }
  assert (HBT : 2 ^ n * 2 ^ t = 2 ^ 55 * A).
  { unfold A, t. rewrite <- !Z.pow_add_r by lia. f_equal. lia. }
  assert (Hgoal : r / 2 ^ t = m * 22 / 100).
  { apply scaled_quotient with A (2 ^ n);
      first [ lia | rewrite <- Hpm; assumption | rewrite <- Hmx; lia ]. }
  destruct Hcase as [(Hr' & He') | (Hr & Hr' & He')].
  - rewrite Z.shiftl_div_pow2 by lia. rewrite Hr', He'.
    replace (- (k - 53 + -55 + n)) with t by (unfold t; lia). exact Hgoal.
  - rewrite Z.shiftl_div_pow2 by lia. rewrite Hr', He', <- Hgoal, Hr.
    replace (- (k - 53 + -55 + n + 1)) with (t - 1) by (unfold t; lia).
    replace (2 ^ 53) with (2 * 2 ^ 52) by reflexivity.
    replace (2 ^ t) with (2 * 2 ^ (t - 1)).
    + assert (0 < 2 ^ (t - 1)) by (apply Z.pow_pos_nonneg; unfold t; lia).
      rewrite Z.div_mul_cancel_l by lia. reflexivity.
    + rewrite <- (Z.pow_1_r 2) at 1. rewrite <- Z.pow_add_r by (unfold t; lia).
      f_equal. lia.
Qed.

(** ** Colour parsing *)

Lemma hex_to_rgb_prefixed : hex_to_rgb "#FDFBF7" = Ok (253, 251, 247).
Proof. vm_compute. reflexivity. Qed.

Lemma hex_to_rgb_bare : hex_to_rgb "FDFBF7" = Ok (253, 251, 247).
Proof. vm_compute. reflexivity. Qed.

Lemma hex_to_rgb_short : hex_to_rgb "abc" = Raise (ValueError (BadColorLength "abc")).
Proof. vm_compute. reflexivity. Qed.

(** X1: a string that does not have exactly six characters after its
    leading ['#'] characters is refused, with the [ValueError] that
    shows what was left. *)
Lemma hex_to_rgb_wrong_length (color : string) :
  String.length (PyStr.lstrip "#" color) <> 6%nat ->
  hex_to_rgb color = Raise (ValueError (BadColorLength (PyStr.lstrip "#" color))).
Proof.
  intros Hlen. unfold hex_to_rgb.
  destruct (Nat.eqb_spec (String.length (PyStr.lstrip "#" color)) 6) as [Heq|_].
  - contradiction.
  - reflexivity.
Qed.

(** C4 (evaluation at the failing input): the six characters "-1-2-3"
    are not six hexadecimal digits, yet [hex_to_rgb] returns a value for
    them, with negative components: [int(s, 16)] reads each two-character
    slice as a signed literal. *)
Theorem hex_to_rgb_accepts_signed_slices :
  hex_to_rgb "-1-2-3" = Ok (-1, -2, -3).
Proof. vm_compute. reflexivity. Qed.

(** C10: [hex_to_rgb] strips every leading ['#'], not just one: one more
    ['#'] in front never changes the outcome, and "##FDFBF7" yields
    (253, 251, 247). *)
Theorem hex_to_rgb_strips_every_hash :
  hex_to_rgb "##FDFBF7" = Ok (253, 251, 247) /\
  forall color : string, hex_to_rgb (String "#" color) = hex_to_rgb color.
Proof.
  split.
  - vm_compute. reflexivity.
  - intros color. unfold hex_to_rgb. reflexivity.
Qed.

(** ** Icon geometry *)

Lemma icon_size_small (spec : SplashSpec) :
  0 < Z.min (width spec) (height spec) < 2 ^ 50 ->
  icon_size spec = Ok (Z.min (width spec) (height spec) * 22 / 100).
Proof. intros Hm. unfold icon_size. apply int_mul_0_22, Hm. Qed.

(** The two margins on an axis of length [len] around an icon of side
    [s] placed at [(len - s) / 2] differ by at most one. *)
Lemma centred_margins (len s : Z) :
  let x := (len - s) / 2 in
  0 <= (len - (x + s)) - x <= 1.
Proof.
  intros x. unfold x.
  pose proof (Z.div_mod (len - s) 2 ltac:(lia)).
  pose proof (Z.mod_pos_bound (len - s) 2 ltac:(lia)). lia.
Qed.

(** C9: for each of the three built-in specs the icon size is positive
    and at most the shorter side, the offsets are non-negative, and the
    scaled icon lies within the canvas. *)
Theorem builtin_icons_fit :
  Forall (fun spec =>
            exists s x y,
              icon_placement spec = Ok (s, (x, y)) /\
              0 < s <= Z.min (width spec) (height spec) /\
              0 <= x /\ 0 <= y /\
              x + s <= width spec /\ y + s <= height spec)
         SPLASH_SPECS.
Proof.
  unfold SPLASH_SPECS. repeat constructor.
  - exists 283, 503, 1256. vm_compute. intuition discriminate.
  - exists 259, 460, 1148. vm_compute. intuition discriminate.
  - exists 257, 456, 1137. vm_compute. intuition discriminate.
Qed.

(** ** Reasoning about runs *)

Section Wp.

Context `{Imaging}.

Lemma wp_bind {A B} (m : io A) (f : A -> io B) Q w :
  wp m (fun r w1 => match r with
                    | Ok a => wp (f a) Q w1
                    | Raise e => Q (Raise e) w1
                    end) w ->
  wp (m ≫= f) Q w.
Proof.
  unfold wp, mbind, io_bind. destruct (m w) as [[a|e] w1]; auto.
Qed.

Lemma wp_ret {A} (a : A) Q w : Q (Ok a) w -> wp (mret a) Q w.
Proof. auto. Qed.

Lemma wp_raise {A} e (Q : result A -> world -> Prop) w :
  Q (Raise e) w -> wp (raise e) Q w.
Proof. auto. Qed.

Lemma wp_lift {A} (r : result A) Q w : Q r w -> wp (lift r) Q w.
Proof. auto. Qed.

Lemma wp_print line Q w :
  Q (Ok tt) (World (files w) (calls w) (stdout w ++ [line])) ->
  wp (print line) Q w.
Proof. auto. Qed.

Lemma wp_path_exists p Q w :
  Q (Ok (match files w !! p with Some _ => true | None => false end))
    (logged (Exists p) w) ->
  wp (path_exists p) Q w.
Proof. auto. Qed.

Lemma wp_is_file p Q w :
  Q (Ok (match files w !! p with Some (File _) => true | _ => false end))
    (logged (IsFile p) w) ->
  wp (is_file p) Q w.
Proof. auto. Qed.

Lemma wp_mkdir_p p Q w :
  match mkdir_from [] p (files w) with
  | Ok m => Q (Ok tt) (World m (calls w ++ [Mkdir p]) (stdout w))
  | Raise e => Q (Raise e) (logged (Mkdir p) w)
  end ->
  wp (mkdir_p p) Q w.
Proof. unfold wp, mkdir_p. destruct (mkdir_from _ _ _); auto. Qed.

Lemma wp_Image_open p Q w :
  match files w !! p with
  | Some (File b) =>
      match decode b with
      | Some im => Q (Ok im) (logged (OpenRead p) w)
      | None => Q (Raise (UnidentifiedImageError p)) (logged (OpenRead p) w)
      end
  | Some Dir => Q (Raise (IsADirectoryError p)) (logged (OpenRead p) w)
  | None => Q (Raise (FileNotFoundError p)) (logged (OpenRead p) w)
  end ->
  wp (Image_open p) Q w.
Proof.
  unfold wp, Image_open. destruct (files w !! p) as [[b|]|]; auto.
  destruct (decode b); auto.
Qed.

Lemma wp_Image_save im p o Q w :
  match files w !! p with
  | Some Dir => Q (Raise (IsADirectoryError p)) (logged (OpenWrite p) w)
  | _ =>
      if is_dir_in (files w) (parent p) then
        Q (match png_encode o im with
           | Some _ => Ok tt
           | None => Raise (EncoderError p)
           end)
          (World (after_save im p o w) (calls w ++ [OpenWrite p]) (stdout w))
      else Q (Raise (FileNotFoundError p)) (logged (OpenWrite p) w)
  end ->
  wp (Image_save im p o) Q w.
Proof.
  unfold wp, Image_save, after_save.
  destruct (files w !! p) as [[b|]|]; auto;
    destruct (is_dir_in _ _); auto; destruct (png_encode o im); auto.
Qed.

Lemma after_save_other im p o w q :
  q <> p -> after_save im p o w !! q = files w !! q.
Proof.
  intros Hq. unfold after_save.
  destruct (png_encode o im); [|destruct (save_residue _ _ _)].
  - rewrite lookup_insert_ne; auto.
  - rewrite lookup_insert_ne; auto.
  - rewrite lookup_delete_ne; auto.
Qed.

End Wp.

(** ** generate-ios-splashes.py *)

Section SplashFacts.

Context `{Imaging}.
Variable root : path.

Lemma wp_first_existing ps Q w :
  Q (Ok (select (files w) ps))
    (World (files w) (calls w ++ map Exists (probes (files w) ps)) (stdout w)) ->
  wp (Splashes.first_existing ps) Q w.
Proof.
  revert w. induction ps as [|p ps IH]; intros [m cs out]; cbn [select probes map].
  - rewrite app_nil_r. auto.
  - intros HQ. cbn [Splashes.first_existing]. apply wp_bind, wp_path_exists.
    cbn [files calls stdout logged] in *. destruct (m !! p) as [n|] eqn:Hp.
    + apply wp_ret. exact HQ.
    + apply IH. cbn [files calls stdout logged]. rewrite <- app_assoc. exact HQ.
Qed.

Lemma append_assoc (a b c : string) : (a ++ b) ++ c = a ++ (b ++ c).
Proof.
  induction a as [|x a IH]; [reflexivity|].
  change (String x ((a ++ b) ++ c) = String x (a ++ (b ++ c))).
  f_equal. exact IH.
Qed.

Lemma append_empty_r (a : string) : a ++ "" = a.
Proof.
  induction a as [|x a IH]; [reflexivity|].
  change (String x (a ++ "") = String x a). f_equal. exact IH.
Qed.

(** The diagnostic of the missing icon names every candidate. *)
Lemma missing_icon_message_names_candidates (p : path) :
  p ∈ Splashes.icon_candidates ->
  exists pre post : string,
    Splashes.missing_icon_message root = pre ++ Splashes.abs_str root p ++ post.
Proof.
  set (c1 := Splashes.abs_str root Splashes.desired_1024).
  set (c2 := Splashes.abs_str root (Splashes.icons_dir // "512.png")).
  set (c3 := Splashes.abs_str root (Splashes.icons_dir // "192.png")).
  assert (Hmsg : Splashes.missing_icon_message root
                 = "Missing source icon. Tried: " ++ c1 ++ ", " ++ c2 ++ ", " ++ c3)
    by reflexivity.
  rewrite Hmsg. unfold Splashes.icon_candidates. intros Hp.
  apply elem_of_cons in Hp as [->|Hp]; [|apply elem_of_cons in Hp as [->|Hp]];
    [| |apply list_elem_of_singleton in Hp as ->].
  - exists "Missing source icon. Tried: ", (", " ++ c2 ++ ", " ++ c3).
    reflexivity.
  - exists ("Missing source icon. Tried: " ++ c1 ++ ", "), (", " ++ c3).
    fold c2. rewrite !append_assoc. reflexivity.
  - exists ("Missing source icon. Tried: " ++ c1 ++ ", " ++ c2 ++ ", "), "".
    fold c3. rewrite !append_assoc, append_empty_r. reflexivity.
Qed.

Ltac wp_prim :=
  first [ apply wp_ret | apply wp_raise | apply wp_lift
        | apply wp_print | apply wp_path_exists | apply wp_mkdir_p
        | apply wp_Image_open | apply wp_Image_save
        | apply wp_first_existing ].

Ltac wp_step :=
  first [ apply wp_bind; wp_prim | wp_prim | apply wp_bind ];
  cbn [files calls stdout logged].

Lemma missing_icon_run (w : world) :
  (forall p, p ∈ Splashes.icon_candidates -> files w !! p = None) ->
  exists new,
    calls (Splashes.main root w).2 = (calls w ++ new)%list /\
    written new = [] /\ opened new = [] /\
    stdout (Splashes.main root w).2 = stdout w /\
    match files w !! Splashes.out_dir with
    | Some (File _) =>
        (Splashes.main root w).1 = Raise (FileExistsError Splashes.out_dir) /\
        files (Splashes.main root w).2 = files w
    | Some Dir =>
        (Splashes.main root w).1
        = Raise (SystemExit (Splashes.missing_icon_message root)) /\
        files (Splashes.main root w).2 = files w
    | None =>
        (Splashes.main root w).1
        = Raise (SystemExit (Splashes.missing_icon_message root)) /\
        files (Splashes.main root w).2 = <[Splashes.out_dir := Dir]> (files w)
    end.
Proof.
  intros Hnone.
  assert (H1 : files w !! Splashes.desired_1024 = None)
    by (apply Hnone; unfold Splashes.icon_candidates; set_solver).
  assert (H2 : files w !! (Splashes.icons_dir // "512.png") = None)
    by (apply Hnone; unfold Splashes.icon_candidates; set_solver).
  assert (H3 : files w !! (Splashes.icons_dir // "192.png") = None)
    by (apply Hnone; unfold Splashes.icon_candidates; set_solver).
  change (wp (Splashes.main root)
            (fun r w' =>
               exists new,
                 calls w' = (calls w ++ new)%list /\ written new = [] /\
                 opened new = [] /\ stdout w' = stdout w /\
                 match files w !! Splashes.out_dir with
                 | Some (File _) =>
                     r = Raise (FileExistsError Splashes.out_dir) /\
                     files w' = files w
                 | Some Dir =>
                     r = Raise (SystemExit (Splashes.missing_icon_message root)) /\
                     files w' = files w
                 | None =>
                     r = Raise (SystemExit (Splashes.missing_icon_message root)) /\
                     files w' = <[Splashes.out_dir := Dir]> (files w)
                 end) w).
  unfold Splashes.main. wp_step.
  unfold Splashes.icon_candidates. cbn [select probes]. rewrite H1, H2, H3.
  wp_step. change Splashes.out_dir with ["splash"].
  cbn [mkdir_from path_join app].
  destruct (files w !! ["splash"]) as [[b|]|].
  - eexists. rewrite <- app_assoc. repeat split.
  - wp_step. eexists. rewrite <- app_assoc. repeat split.
  - wp_step. eexists. rewrite <- app_assoc. repeat split.
Qed.

Lemma placement_1290 :
  icon_placement {| width := 1290; height := 2796; filename := "1290x2796.png" |}
  = Ok (283, (503, 1256)).
Proof. vm_compute. reflexivity. Qed.

Lemma placement_1179 :
  icon_placement {| width := 1179; height := 2556; filename := "1179x2556.png" |}
  = Ok (259, (460, 1148)).
Proof. vm_compute. reflexivity. Qed.

Lemma placement_1170 :
  icon_placement {| width := 1170; height := 2532; filename := "1170x2532.png" |}
  = Ok (257, (456, 1137)).
Proof. vm_compute. reflexivity. Qed.

(** Rules with one premise per way out of a call, the failures
    first. *)
Lemma wp_pil_cases {A} op (r : option A) Q w :
  Q (Raise (ImagingError op)) w ->
  (forall a, r = Some a -> Q (Ok a) w) ->
  wp (pil op r) Q w.
Proof. intros Hf Hs. destruct r; [apply Hs; reflexivity | exact Hf]. Qed.

Lemma wp_Image_open_cases p Q w :
  (forall e, Q (Raise e) (logged (OpenRead p) w)) ->
  (forall b im, files w !! p = Some (File b) -> decode b = Some im ->
                Q (Ok im) (logged (OpenRead p) w)) ->
  wp (Image_open p) Q w.
Proof.
  intros Hf Hs. apply wp_Image_open.
  destruct (files w !! p) as [[b|]|] eqn:Hp; auto.
  destruct (decode b) eqn:Hd; eauto.
Qed.

Lemma wp_Image_save_cases im p o Q w :
  (forall e, Q (Raise e) (logged (OpenWrite p) w)) ->
  (png_encode o im = None ->
   Q (Raise (EncoderError p))
     (World (after_save im p o w) (calls w ++ [OpenWrite p]) (stdout w))) ->
  (forall b, png_encode o im = Some b -> files w !! p <> Some Dir ->
             is_dir_in (files w) (parent p) = true ->
             Q (Ok tt) (World (<[p := File b]> (files w))
                              (calls w ++ [OpenWrite p]) (stdout w))) ->
  wp (Image_save im p o) Q w.
Proof.
  intros Hf He Hs. apply wp_Image_save. unfold after_save in *.
  destruct (files w !! p) as [[b|]|] eqn:Hp; auto;
    destruct (is_dir_in _ _) eqn:Hd; auto;
    destruct (png_encode o im) eqn:Henc; auto; apply Hs; auto; discriminate.
Qed.

(** [mkdir] of the output directory: it is there afterwards and
    nothing else has changed. *)
Lemma wp_mkdir_out Q w :
  (forall b, files w !! Splashes.out_dir = Some (File b) ->
             Q (Raise (FileExistsError Splashes.out_dir))
               (logged (Mkdir Splashes.out_dir) w)) ->
  (forall m1,
      m1 !! Splashes.out_dir = Some Dir ->
      (forall q, q <> Splashes.out_dir -> m1 !! q = files w !! q) ->
      (files w !! Splashes.out_dir <> None -> m1 = files w) ->
      (files w !! Splashes.out_dir = None ->
       m1 = <[Splashes.out_dir := Dir]> (files w)) ->
      Q (Ok tt) (World m1 (calls w ++ [Mkdir Splashes.out_dir]) (stdout w))) ->
  wp (mkdir_p Splashes.out_dir) Q w.
Proof.
  intros Hf Hs. apply wp_mkdir_p. change Splashes.out_dir with ["splash"] in *.
  cbn [mkdir_from path_join app].
  destruct (files w !! ["splash"]) as [[b|]|] eqn:Hout.
  - eapply Hf. reflexivity.
  - apply Hs; auto. congruence.
  - apply Hs.
    + apply lookup_insert_eq.
    + intros q Hq. apply lookup_insert_ne. congruence.
    + congruence.
    + reflexivity.
Qed.

Tactic Notation "step_with" uconstr(R) :=
  first [ apply wp_bind; apply R | apply R ];
  intros; cbv beta iota; cbn [files calls stdout logged] in *.

Ltac lookups Hframe :=
  repeat first
    [ rewrite lookup_insert_ne by discriminate
    | rewrite after_save_other by discriminate
    | rewrite Hframe by discriminate ].

Lemma outputs_eq :
  outputs = [["splash"; "1290x2796.png"]; ["splash"; "1179x2556.png"];
             ["splash"; "1170x2532.png"]].
Proof. reflexivity. Qed.

(** The frame of a run: a path never opened for writing, and not the
    output directory, holds what it held. *)
Ltac frame Hframe :=
  let q := fresh "q" in
  let Hq := fresh "Hq" in
  let Hqo := fresh "Hqo" in
  intros q Hq Hqo;
  repeat first
    [ progress cbn [files]
    | rewrite lookup_insert_ne by (intros <-; apply Hq; set_solver)
    | rewrite after_save_other by (intros ->; apply Hq; set_solver) ];
  first [ reflexivity | apply Hframe; exact Hqo ].

Ltac prefix Hd :=
  first
    [ apply prefix_nil
    | unfold planned_writes; rewrite Hd, outputs_eq; cbn [app];
      eexists; reflexivity ].

(** A run that has raised. *)
Ltac failed Hframe Hd :=
  unfold main_post; cbn [files calls stdout logged];
  eexists; split; [ rewrite <- ?app_assoc; cbn [app]; reflexivity | ];
  cbn [opened written omap];
  split; [ first [ left; reflexivity | right; eexists; split; eauto ] | ];
  split; [ prefix Hd | ];
  split; [ frame Hframe | discriminate ].

(** One pass of the loop body: it fails before touching the tree,
    or while opening or encoding the output, or writes one image of
    the size of the spec. *)
Lemma wp_render icon bg spec s x y Q w2 :
  icon_placement spec = Ok (s, (x, y)) ->
  let out := Splashes.out_dir // filename spec in
  (forall e, Q (Raise e) w2) ->
  (forall e, Q (Raise e) (logged (OpenWrite out) w2)) ->
  (forall flat,
      im_size flat = (width spec, height spec) ->
      png_encode Splashes.optimized flat = None ->
      Q (Raise (EncoderError out))
        (World (after_save flat out Splashes.optimized w2)
               (calls w2 ++ [OpenWrite out]) (stdout w2))) ->
  (forall flat b,
      im_size flat = (width spec, height spec) ->
      png_encode Splashes.optimized flat = Some b ->
      Q (Ok tt)
        (World (<[out := File b]> (files w2)) (calls w2 ++ [OpenWrite out])
               (stdout w2 ++ ["Wrote " ++ path_str out]))) ->
  wp (Splashes.render icon bg spec) Q w2.
Proof.
  intros Hplace out Hearly Hopen Henc Hdone.
  unfold Splashes.render. destruct bg as [[r g] b]. rewrite Hplace.
  step_with wp_pil_cases; [apply Hearly|].
  step_with wp_lift.
  step_with wp_pil_cases; [apply Hearly|].
  step_with wp_pil_cases; [apply Hearly|].
  step_with wp_pil_cases; [apply Hearly|].
  assert (Hsize : im_size a2 = (width spec, height spec)).
  { erewrite convert_size by eassumption.
    erewrite alpha_composite_size by eassumption.
    eapply new_image_size; eassumption. }
  step_with wp_Image_save_cases.
  - apply Hopen.
  - apply (Henc a2); assumption.
  - step_with wp_print.
    match goal with
    | E : png_encode _ a2 = Some ?b |- _ => apply (Hdone a2 b); assumption
    end.
Qed.

(** A run that has finished. *)
Ltac finished Hframe Hd :=
  unfold main_post; cbn [files calls stdout logged];
  eexists; split; [ rewrite <- ?app_assoc; cbn [app]; reflexivity | ];
  cbn [opened written omap];
  split; [ right; eexists; split; eauto | ];
  split; [ prefix Hd | ];
  split; [ frame Hframe | ];
  intros _;
  split; [ eexists; split; eauto | ];
  split; [ unfold planned_writes; rewrite Hd, outputs_eq; reflexivity | ];
  split;
  [ let spec := fresh "spec" in
    let Hspec := fresh "Hspec" in
    intros spec Hspec; unfold SPLASH_SPECS in Hspec;
    repeat (apply elem_of_cons in Hspec as [->|Hspec]);
    [ .. | apply elem_of_nil in Hspec; contradiction ];
    cbn [filename width height];
    eexists _, _;
    (split;
     [ rewrite ?lookup_insert_ne by discriminate; apply lookup_insert_eq
     | split; eassumption ])
  | first
      [ let Habs := fresh "Habs" in
        intros Habs; rewrite Hd in Habs; discriminate Habs
      | intros _; eexists _, _;
        split;
        [ rewrite ?lookup_insert_ne by discriminate; apply lookup_insert_eq
        | split;
          [ eassumption
          | erewrite convert_size by eassumption;
            eapply resize_size; eassumption ] ] ] ].

Ltac render_with Hplace Hframe Hd :=
  apply wp_bind, (wp_render _ _ _ _ _ _ _ _ Hplace);
  cbn [filename width height files calls stdout logged]; intros;
  cbv beta iota;
  [ failed Hframe Hd | failed Hframe Hd | failed Hframe Hd | ].

Ltac renders Hframe Hd :=
  rewrite hex_to_rgb_prefixed; step_with wp_lift;
  unfold SPLASH_SPECS; cbn [Splashes.for_each];
  render_with placement_1290 Hframe Hd;
  render_with placement_1179 Hframe Hd;
  render_with placement_1170 Hframe Hd;
  step_with wp_ret;
  finished Hframe Hd.

Lemma main_run (w : world) : wp (Splashes.main root) (main_post w) w.
Proof.
  unfold Splashes.main.
  step_with wp_first_existing.
  apply wp_bind, wp_mkdir_out; cbn [files calls stdout logged].
  { intros b Hfile. cbv beta iota.
    assert (Hframe : forall q, q <> Splashes.out_dir -> files w !! q = files w !! q)
      by reflexivity.
    failed Hframe Hfile. }
  intros m1 Hout Hframe _ _. cbv beta iota.
  destruct (select (files w) Splashes.icon_candidates) as [p|] eqn:Hsel.
  2: { step_with wp_raise. failed Hframe Hsel. }
  step_with wp_Image_open_cases.
  { failed Hframe Hsel. }
  step_with wp_pil_cases.
  { failed Hframe Hsel. }
  step_with wp_path_exists.
  rewrite (Hframe Splashes.desired_1024) by discriminate.
  destruct (files w !! Splashes.desired_1024) as [n|] eqn:Hd; cbn [negb].
  - step_with wp_ret. renders Hframe Hd.
  - apply wp_bind, wp_bind.
    step_with wp_pil_cases; [failed Hframe Hd|].
    step_with wp_pil_cases; [failed Hframe Hd|].
    step_with wp_Image_save_cases; [failed Hframe Hd | failed Hframe Hd |].
    step_with wp_print.
    renders Hframe Hd.
Qed.

Ltac printed Hd :=
  unfold prints_post; cbn [files calls stdout logged];
  eexists;
  split;
  [ rewrite <- ?app_assoc; cbn [app];
    first [ reflexivity | symmetry; apply app_nil_r ] | ];
  split;
  [ first
      [ apply prefix_nil
      | unfold planned_writes; rewrite Hd, outputs_eq; cbn [map app];
        eexists; reflexivity ]
  | first
      [ discriminate
      | intros _; unfold planned_writes; rewrite Hd, outputs_eq;
        reflexivity ] ].

Ltac prints_render Hplace Hd :=
  apply wp_bind, (wp_render _ _ _ _ _ _ _ _ Hplace);
  cbn [filename width height files calls stdout logged]; intros;
  cbv beta iota;
  [ printed Hd | printed Hd | printed Hd | ].

Ltac prints_renders Hd :=
  rewrite hex_to_rgb_prefixed; step_with wp_lift;
  unfold SPLASH_SPECS; cbn [Splashes.for_each];
  prints_render placement_1290 Hd;
  prints_render placement_1179 Hd;
  prints_render placement_1170 Hd;
  step_with wp_ret;
  printed Hd.

Lemma main_prints (w : world) : wp (Splashes.main root) (prints_post w) w.
Proof.
  unfold Splashes.main.
  step_with wp_first_existing.
  apply wp_bind, wp_mkdir_out; cbn [files calls stdout logged].
  { intros b Hfile. cbv beta iota. printed Hfile. }
  intros m1 Hout Hframe _ _. cbv beta iota.
  destruct (select (files w) Splashes.icon_candidates) as [p|] eqn:Hsel.
  2: { step_with wp_raise. printed Hsel. }
  step_with wp_Image_open_cases.
  { printed Hsel. }
  step_with wp_pil_cases.
  { printed Hsel. }
  step_with wp_path_exists.
  rewrite (Hframe Splashes.desired_1024) by discriminate.
  destruct (files w !! Splashes.desired_1024) as [n|] eqn:Hd; cbn [negb].
  - step_with wp_ret. prints_renders Hd.
  - apply wp_bind, wp_bind.
    step_with wp_pil_cases; [printed Hd|].
    step_with wp_pil_cases; [printed Hd|].
    step_with wp_Image_save_cases; [printed Hd | printed Hd |].
    step_with wp_print.
    prints_renders Hd.
Qed.

Lemma written_probes ps : written (map Exists ps) = [].
Proof. induction ps as [|p ps IH]; [reflexivity|exact IH]. Qed.

Lemma opened_probes ps : opened (map Exists ps) = [].
Proof. induction ps as [|p ps IH]; [reflexivity|exact IH]. Qed.

Lemma written_prelude ps d rest :
  written (map Exists ps ++ Mkdir d :: rest) = written rest.
Proof. unfold written. rewrite omap_app. fold (written (map Exists ps)).
       rewrite written_probes. reflexivity. Qed.

Lemma opened_prelude ps d rest :
  opened (map Exists ps ++ Mkdir d :: rest) = opened rest.
Proof. unfold opened. rewrite omap_app. fold (opened (map Exists ps)).
       rewrite opened_probes. reflexivity. Qed.

Lemma select_Some m ps p :
  select m ps = Some p ->
  exists before after,
    ps = (before ++ p :: after)%list /\ is_Some (m !! p) /\
    (forall q, q ∈ before -> m !! q = None) /\
    probes m ps = (before ++ [p])%list.
Proof.
  induction ps as [|a ps IH]; cbn [select probes]; [discriminate|].
  destruct (m !! a) as [n|] eqn:Ha.
  - intros [= <-]. exists [], ps. repeat split; eauto.
    intros q Hq. apply elem_of_nil in Hq. contradiction.
  - intros Hsel. destruct (IH Hsel) as (before & after & -> & Hp & Hnone & ->).
    exists (a :: before), after. repeat split; auto.
    intros q Hq. apply elem_of_cons in Hq as [->|Hq]; auto.
Qed.

Lemma select_None m ps :
  select m ps = None ->
  (forall q, q ∈ ps -> m !! q = None) /\ probes m ps = ps.
Proof.
  induction ps as [|a ps IH]; cbn [select probes].
  - intros _. split; [|reflexivity].
    intros q Hq. apply elem_of_nil in Hq. contradiction.
  - destruct (m !! a) as [n|] eqn:Ha; [discriminate|].
    intros Hsel. destruct (IH Hsel) as [Hnone ->]. split; [|reflexivity].
    intros q Hq. apply elem_of_cons in Hq as [->|Hq]; auto.
Qed.

Lemma occurrences_prefix p l1 l2 :
  l1 `prefix_of` l2 -> (occurrences p l1 <= occurrences p l2)%nat.
Proof.
  intros [k ->]. unfold occurrences. rewrite filter_app, length_app. lia.
Qed.

Lemma elem_of_prefix (q : path) l1 l2 : l1 `prefix_of` l2 -> q ∈ l1 -> q ∈ l2.
Proof. intros [k ->] Hq. apply elem_of_app. auto. Qed.

Lemma desired_not_output : Splashes.desired_1024 ∉ outputs.
Proof.
  rewrite outputs_eq. intros Hin.
  repeat (apply elem_of_cons in Hin as [Hin|Hin]; [discriminate|]).
  apply elem_of_nil in Hin. contradiction.
Qed.

Lemma elem_of_outputs q :
  q ∈ outputs <-> exists spec, spec ∈ SPLASH_SPECS /\ q = Splashes.out_dir // filename spec.
Proof.
  unfold outputs. rewrite list_elem_of_fmap. split.
  - intros (spec & -> & Hspec). eauto.
  - intros (spec & Hspec & ->). eauto.
Qed.

Lemma elem_of_planned_writes m q :
  q ∈ planned_writes m ->
  (q = Splashes.desired_1024 /\ m !! Splashes.desired_1024 = None) \/ q ∈ outputs.
Proof.
  unfold planned_writes. intros Hq. apply elem_of_app in Hq as [Hq|Hq]; [|auto].
  destruct (m !! Splashes.desired_1024).
  - apply elem_of_nil in Hq. contradiction.
  - apply list_elem_of_singleton in Hq. auto.
Qed.

(** C1: in a run of the generator that completes, each spec of
    [SPLASH_SPECS] has its file [splash/<filename>] opened for writing
    exactly once, and afterwards the file holds the PNG encoding of an
    image whose size is the spec's [(width, height)]; what the path
    held before the run plays no part, so an existing file is
    overwritten. *)
Theorem splash_files_written (w : world) :
  (Splashes.main root w).1 = Ok tt ->
  exists new,
    calls (Splashes.main root w).2 = (calls w ++ new)%list /\
    forall spec, spec ∈ SPLASH_SPECS ->
      occurrences (Splashes.out_dir // filename spec) (written new) = 1%nat /\
      exists flat b,
        files (Splashes.main root w).2 !! (Splashes.out_dir // filename spec)
        = Some (File b) /\
        png_encode Splashes.optimized flat = Some b /\
        im_size flat = (width spec, height spec).
Proof.
  intros Hok. pose proof (main_run w) as Hrun. unfold wp in Hrun.
  destruct Hrun as (rest & Hcalls & _ & _ & _ & Hdone).
  destruct (Hdone Hok) as (_ & Hwritten & Hfiles & _).
  eexists. split; [exact Hcalls|].
  intros spec Hspec. split; [|apply Hfiles, Hspec].
  rewrite written_prelude, Hwritten. unfold planned_writes.
  unfold SPLASH_SPECS in Hspec.
  repeat (apply elem_of_cons in Hspec as [->|Hspec]);
    [ .. | apply elem_of_nil in Hspec; contradiction ];
    destruct (files w !! Splashes.desired_1024); reflexivity.
Qed.

(** C5: whatever the outcome of a run, the generator opens for writing
    only [icons/ios/1024.png] and the splash files, and the icon at
    most once and only when the path did not exist before the run;
    when it existed, it holds afterwards what it held before.  A run
    that completes from a tree without it leaves there the encoding
    of a 1024 x 1024 image. *)
Theorem canonical_icon_only_if_absent (w : world) :
  exists new,
    calls (Splashes.main root w).2 = (calls w ++ new)%list /\
    (forall q, q ∈ written new ->
               q = Splashes.desired_1024 \/
               exists spec, spec ∈ SPLASH_SPECS /\
                            q = Splashes.out_dir // filename spec) /\
    (occurrences Splashes.desired_1024 (written new) <= 1)%nat /\
    (Splashes.desired_1024 ∈ written new ->
     files w !! Splashes.desired_1024 = None) /\
    (is_Some (files w !! Splashes.desired_1024) ->
     files (Splashes.main root w).2 !! Splashes.desired_1024
     = files w !! Splashes.desired_1024) /\
    ((Splashes.main root w).1 = Ok tt ->
     files w !! Splashes.desired_1024 = None ->
     occurrences Splashes.desired_1024 (written new) = 1%nat /\
     exists flat b,
       files (Splashes.main root w).2 !! Splashes.desired_1024 = Some (File b) /\
       png_encode Splashes.optimized flat = Some b /\
       im_size flat = (1024, 1024)).
Proof.
  pose proof (main_run w) as Hrun. unfold wp in Hrun.
  destruct Hrun as (rest & Hcalls & _ & Hprefix & Hframe & Hdone).
  eexists. split; [exact Hcalls|]. rewrite written_prelude.
  assert (Hicon : Splashes.desired_1024 ∈ written rest ->
                  files w !! Splashes.desired_1024 = None).
  { intros Hin. apply (elem_of_prefix _ _ _ Hprefix) in Hin.
    apply elem_of_planned_writes in Hin as [[_ Hnone]|Hout]; [exact Hnone|].
    destruct (desired_not_output Hout). }
  split; [|split; [|split; [exact Hicon|split]]].
  - intros q Hq. apply (elem_of_prefix _ _ _ Hprefix) in Hq.
    apply elem_of_planned_writes in Hq as [[-> _]|Hout]; [auto|].
    right. apply elem_of_outputs, Hout.
  - etransitivity; [apply occurrences_prefix, Hprefix|].
    unfold planned_writes.
    destruct (files w !! Splashes.desired_1024); vm_compute; lia.
  - intros [n Hn]. apply Hframe; [|discriminate].
    intros Hin. rewrite (Hicon Hin) in Hn. discriminate.
  - intros Hok Hnone. destruct (Hdone Hok) as (_ & Hwritten & _ & Hmade).
    split; [|apply Hmade, Hnone].
    rewrite Hwritten. unfold planned_writes. rewrite Hnone. reflexivity.
Qed.

(** C3, as the code has it: when none of the three candidates exists
    the run fails without opening any file, for reading or writing,
    and without printing; but it has called [mkdir] on the output
    directory first.  So the tree is unchanged only when [splash] was
    there: when it was absent the failed run has created it, and when
    it was a regular file the error is [FileExistsError] from [mkdir],
    not the diagnostic.  The diagnostic names every candidate. *)
Theorem missing_icon_run_outcome (w : world) :
  (forall p, p ∈ Splashes.icon_candidates -> files w !! p = None) ->
  (exists new,
      calls (Splashes.main root w).2 = (calls w ++ new)%list /\
      written new = [] /\ opened new = [] /\
      stdout (Splashes.main root w).2 = stdout w /\
      match files w !! Splashes.out_dir with
      | Some (File _) =>
          (Splashes.main root w).1 = Raise (FileExistsError Splashes.out_dir) /\
          files (Splashes.main root w).2 = files w
      | Some Dir =>
          (Splashes.main root w).1
          = Raise (SystemExit (Splashes.missing_icon_message root)) /\
          files (Splashes.main root w).2 = files w
      | None =>
          (Splashes.main root w).1
          = Raise (SystemExit (Splashes.missing_icon_message root)) /\
          files (Splashes.main root w).2 = <[Splashes.out_dir := Dir]> (files w)
      end) /\
  forall p, p ∈ Splashes.icon_candidates ->
    exists pre post : string,
      Splashes.missing_icon_message root = pre ++ Splashes.abs_str root p ++ post.
Proof.
  intros Hnone. split.
  - apply missing_icon_run, Hnone.
  - apply missing_icon_message_names_candidates.
Qed.

End SplashFacts.

(** ** The source icon of the generator *)

Section Source.

Context `{Imaging}.
Variable root : path.

Tactic Notation "step_with" uconstr(R) :=
  first [ apply wp_bind; apply R | apply R ];
  intros; cbv beta iota; cbn [files calls stdout logged] in *.

(** [save], with one premise per way out. *)
Lemma wp_Image_save_exact im p o Q w :
  Q (Raise (IsADirectoryError p)) (logged (OpenWrite p) w) ->
  Q (Raise (FileNotFoundError p)) (logged (OpenWrite p) w) ->
  (png_encode o im = None ->
   Q (Raise (EncoderError p))
     (World (after_save im p o w) (calls w ++ [OpenWrite p]) (stdout w))) ->
  (forall b, png_encode o im = Some b ->
             Q (Ok tt) (World (<[p := File b]> (files w))
                              (calls w ++ [OpenWrite p]) (stdout w))) ->
  wp (Image_save im p o) Q w.
Proof.
  intros Hdir Hnone Henc Hok. apply wp_Image_save. unfold after_save in *.
  destruct (files w !! p) as [[b|]|] eqn:Hp; auto;
    destruct (is_dir_in _ _) eqn:Hd; auto;
    destruct (png_encode o im) eqn:He; auto.
Qed.

(** One pass of the loop body, with what it computed on the way. *)
Lemma wp_render_exact icon r g b spec s x y Q w2 :
  icon_placement spec = Ok (s, (x, y)) ->
  let out := Splashes.out_dir // filename spec in
  (forall op, Q (Raise (ImagingError op)) w2) ->
  Q (Raise (IsADirectoryError out)) (logged (OpenWrite out) w2) ->
  Q (Raise (FileNotFoundError out)) (logged (OpenWrite out) w2) ->
  (forall flat,
      Q (Raise (EncoderError out))
        (World (after_save flat out Splashes.optimized w2)
               (calls w2 ++ [OpenWrite out]) (stdout w2))) ->
  (forall canvas scaled composed flat bytes,
      new_image RGBA (width spec, height spec) (r, g, b, 255) = Some canvas ->
      resize (s, s) icon = Some scaled ->
      alpha_composite canvas scaled (x, y) = Some composed ->
      convert RGB composed = Some flat ->
      png_encode Splashes.optimized flat = Some bytes ->
      Q (Ok tt)
        (World (<[out := File bytes]> (files w2)) (calls w2 ++ [OpenWrite out])
               (stdout w2 ++ ["Wrote " ++ path_str out]))) ->
  wp (Splashes.render icon (r, g, b) spec) Q w2.
Proof.
  intros Hplace out Hpil Hdir Hnone Henc Hdone.
  unfold Splashes.render. rewrite Hplace.
  apply wp_bind, wp_pil_cases; [apply Hpil|]. intros canvas Hnew.
  apply wp_bind, wp_lift.
  apply wp_bind, wp_pil_cases; [apply Hpil|]. intros scaled Hres.
  apply wp_bind, wp_pil_cases; [apply Hpil|]. intros composed Hcomp.
  apply wp_bind, wp_pil_cases; [apply Hpil|]. intros flat Hflat.
  apply wp_bind, wp_Image_save_exact.
  - apply Hdir.
  - apply Hnone.
  - intros _. apply Henc.
  - intros bytes Hbytes. apply wp_print. cbn [files calls stdout].
    apply (Hdone canvas scaled composed flat bytes); assumption.
Qed.

Lemma select_elem_of m ps p : select m ps = Some p -> p ∈ ps.
Proof.
  intros Hsel. destruct (select_Some _ _ _ Hsel) as (before & after & -> & _).
  apply elem_of_app. right. apply elem_of_cons. auto.
Qed.

Lemma candidate_not_out_dir p :
  p ∈ Splashes.icon_candidates -> p <> Splashes.out_dir.
Proof.
  unfold Splashes.icon_candidates. intros Hp.
  repeat (apply elem_of_cons in Hp as [->|Hp]; [discriminate|]).
  apply elem_of_nil in Hp. contradiction.
Qed.

(** A run that has raised after opening the source. *)
Ltac src_failed :=
  unfold source_post; cbn [files calls stdout logged];
  eexists; split; [ rewrite <- ?app_assoc; cbn [app]; reflexivity | ];
  cbn [opened omap];
  split; [ reflexivity | ];
  split; [ intros msg; discriminate | discriminate ].

Ltac src_spec :=
  unfold composited; cbn [filename width height];
  eexists _, _, _, _, _, _, _, _;
  (split;
   [ first [ exact placement_1290 | exact placement_1179 | exact placement_1170 ]
   | ]);
  do 5 (split; [ eassumption | ]);
  rewrite ?lookup_insert_ne by discriminate; apply lookup_insert_eq.

(** A run that has finished. *)
Ltac src_finished Hd :=
  unfold source_post; cbn [files calls stdout logged];
  eexists; split; [ rewrite <- ?app_assoc; cbn [app]; reflexivity | ];
  cbn [opened omap];
  split; [ reflexivity | ];
  split; [ intros msg; discriminate | ];
  intros _; eexists; split; [ eassumption | ];
  split;
  [ let spec := fresh "spec" in
    let Hspec := fresh "Hspec" in
    intros spec Hspec; unfold SPLASH_SPECS in Hspec;
    repeat (apply elem_of_cons in Hspec as [->|Hspec]);
    [ .. | apply elem_of_nil in Hspec; contradiction ];
    src_spec
  | first
      [ let Habs := fresh "Habs" in
        intros Habs; rewrite Hd in Habs; discriminate Habs
      | intros _; unfold upscaled; eexists _, _, _;
        do 3 (split; [ eassumption | ]);
        rewrite ?lookup_insert_ne by discriminate; apply lookup_insert_eq ] ].

Ltac src_render Hplace :=
  apply wp_bind, (wp_render_exact _ _ _ _ _ _ _ _ _ _ Hplace);
  cbn [filename width height files calls stdout logged]; intros;
  cbv beta iota;
  [ src_failed | src_failed | src_failed | src_failed | ].

Ltac src_renders Hd :=
  rewrite hex_to_rgb_prefixed; step_with wp_lift;
  unfold SPLASH_SPECS; cbn [Splashes.for_each];
  src_render placement_1290;
  src_render placement_1179;
  src_render placement_1170;
  step_with wp_ret;
  src_finished Hd.

(** The run of [main] when a candidate is there and the output
    directory can be made: the candidate is opened, first thing, and
    what follows works on the image it holds. *)
Lemma main_source_run (w : world) (p : path) :
  select (files w) Splashes.icon_candidates = Some p ->
  (forall b, files w !! Splashes.out_dir <> Some (File b)) ->
  wp (Splashes.main root)
     (fun r w' =>
        match files w !! p with
        | Some (File b) =>
            match decode b with
            | Some im => source_post w p im r w'
            | None =>
                r = Raise (UnidentifiedImageError p) /\
                calls w' =
                  (calls w ++ map Exists (probes (files w) Splashes.icon_candidates)
                     ++ [Mkdir Splashes.out_dir; OpenRead p])%list
            end
        | Some Dir =>
            r = Raise (IsADirectoryError p) /\
            calls w' =
              (calls w ++ map Exists (probes (files w) Splashes.icon_candidates)
                 ++ [Mkdir Splashes.out_dir; OpenRead p])%list
        | None => False
        end) w.
Proof.
  intros Hsel Hnofile.
  assert (Hp : p <> Splashes.out_dir)
    by (eapply candidate_not_out_dir, select_elem_of, Hsel).
  destruct (select_Some _ _ _ Hsel) as (_ & _ & _ & Hthere & _).
  unfold Splashes.main.
  step_with wp_first_existing.
  apply wp_bind, wp_mkdir_out; cbn [files calls stdout logged].
  { intros b Hfile. destruct (Hnofile b Hfile). }
  intros m1 Hout Hframe _ _. cbv beta iota. rewrite Hsel.
  apply wp_bind, wp_Image_open. cbn [files calls stdout logged].
  rewrite (Hframe p Hp).
  destruct (files w !! p) as [[b|]|] eqn:Hlook.
  2: { split; [reflexivity|]. rewrite <- !app_assoc. reflexivity. }
  2: { destruct Hthere as [n Hn]. discriminate. }
  destruct (decode b) as [im|] eqn:Hdec.
  2: { split; [reflexivity|]. rewrite <- !app_assoc. reflexivity. }
  step_with wp_pil_cases.
  { src_failed. }
  step_with wp_path_exists.
  rewrite (Hframe Splashes.desired_1024) by discriminate.
  destruct (files w !! Splashes.desired_1024) as [n|] eqn:Hd; cbn [negb].
  - step_with wp_ret. src_renders Hd.
  - apply wp_bind, wp_bind.
    step_with wp_pil_cases; [src_failed|].
    step_with wp_pil_cases; [src_failed|].
    step_with wp_Image_save_exact; [src_failed | src_failed | src_failed |].
    step_with wp_print.
    src_renders Hd.
Qed.

(** One pass of the loop body when every call succeeds. *)
Lemma wp_render_renderable icon spec Q w2 :
  renderable icon (files w2) spec ->
  is_dir_in (files w2) Splashes.out_dir = true ->
  (forall bytes,
      Q (Ok tt)
        (World (<[Splashes.out_dir // filename spec := File bytes]> (files w2))
               (calls w2 ++ [OpenWrite (Splashes.out_dir // filename spec)])
               (stdout w2 ++ ["Wrote " ++ path_str (Splashes.out_dir // filename spec)]))) ->
  wp (Splashes.render icon (253, 251, 247) spec) Q w2.
Proof.
  intros [Hnodir (s & x & y & canvas & scaled & composed & flat & bytes
                  & Hplace & Hnew & Hres & Hcomp & Hflat & Hbytes)] Hparent Hdone.
  unfold Splashes.render. rewrite Hplace, Hnew.
  apply wp_bind, wp_ret. apply wp_bind, wp_lift. rewrite Hres.
  apply wp_bind, wp_ret. rewrite Hcomp. apply wp_bind, wp_ret.
  rewrite Hflat. apply wp_bind, wp_ret.
  apply wp_bind, wp_Image_save.
  assert (Hpar : parent (Splashes.out_dir // filename spec) = Splashes.out_dir)
    by reflexivity.
  rewrite Hpar, Hparent, Hbytes.
  destruct (files w2 !! (Splashes.out_dir // filename spec)) as [[b|]|];
    try (destruct Hnodir; reflexivity);
    apply wp_print; unfold after_save; cbn [files calls stdout];
    rewrite Hbytes; apply Hdone.
Qed.

Lemma renderable_insert icon m q n spec :
  q <> Splashes.out_dir // filename spec ->
  renderable icon m spec -> renderable icon (<[q := n]> m) spec.
Proof.
  intros Hq [Hnodir Hchain]. split; [|exact Hchain].
  rewrite lookup_insert_ne by exact Hq. exact Hnodir.
Qed.

Lemma renderable_frame icon m m1 spec :
  (forall q, q <> Splashes.out_dir -> m1 !! q = m !! q) ->
  renderable icon m spec -> renderable icon m1 spec.
Proof.
  intros Hframe [Hnodir Hchain]. split; [|exact Hchain].
  rewrite Hframe; [exact Hnodir|].
  unfold Splashes.out_dir, path_join. cbn [app]. discriminate.
Qed.

(** The run of [main] completes when the source decodes and every
    call of the library succeeds. *)
Lemma main_completes (w : world) (p : path) (b : list byte) (im icon : image) :
  select (files w) Splashes.icon_candidates = Some p ->
  (forall b', files w !! Splashes.out_dir <> Some (File b')) ->
  files w !! p = Some (File b) -> decode b = Some im ->
  convert RGBA im = Some icon ->
  (forall spec, spec ∈ SPLASH_SPECS -> renderable icon (files w) spec) ->
  (files w !! Splashes.desired_1024 = None -> upscalable icon (files w)) ->
  (Splashes.main root w).1 = Ok tt.
Proof.
  intros Hsel Hnofile Hlook Hdec Hconv Hall Hup.
  assert (Hp : p <> Splashes.out_dir)
    by (eapply candidate_not_out_dir, select_elem_of, Hsel).
  assert (H1 := Hall _ ltac:(unfold SPLASH_SPECS; apply elem_of_cons; left; reflexivity)).
  assert (H2 := Hall _ ltac:(unfold SPLASH_SPECS; apply elem_of_cons; right;
                             apply elem_of_cons; left; reflexivity)).
  assert (H3 := Hall _ ltac:(unfold SPLASH_SPECS; do 2 (apply elem_of_cons; right);
                             apply elem_of_cons; left; reflexivity)).
  change (wp (Splashes.main root) (fun r _ => r = Ok tt) w).
  unfold Splashes.main.
  step_with wp_first_existing.
  apply wp_bind, wp_mkdir_out; cbn [files calls stdout logged].
  { intros b' Hfile. destruct (Hnofile b' Hfile). }
  intros m1 Hout Hframe _ _. cbv beta iota. rewrite Hsel.
  apply (renderable_frame _ _ m1 _ Hframe) in H1, H2, H3.
  apply wp_bind, wp_Image_open. cbn [files calls stdout logged].
  rewrite (Hframe p Hp), Hlook, Hdec, Hconv.
  apply wp_bind, wp_ret.
  step_with wp_path_exists.
  rewrite (Hframe Splashes.desired_1024) by discriminate.
  assert (Hsplash : forall m2, m2 !! Splashes.out_dir = Some Dir ->
                               is_dir_in m2 Splashes.out_dir = true).
  { intros m2 Hm2. unfold is_dir_in, Splashes.out_dir, path_join in *.
    cbn [app] in *. rewrite Hm2. reflexivity. }
  destruct (files w !! Splashes.desired_1024) as [n|] eqn:Hd; cbn [negb].
  - step_with wp_ret.
    rewrite hex_to_rgb_prefixed. step_with wp_lift.
    unfold SPLASH_SPECS. cbn [Splashes.for_each].
    apply wp_bind, wp_render_renderable; cbn [files calls stdout filename].
    { exact H1. }
    { apply Hsplash, Hout. }
    intros bytes1.
    apply wp_bind, wp_render_renderable; cbn [files calls stdout filename].
    { apply renderable_insert; [discriminate|exact H2]. }
    { apply Hsplash. rewrite lookup_insert_ne by discriminate. exact Hout. }
    intros bytes2.
    apply wp_bind, wp_render_renderable; cbn [files calls stdout filename].
    { do 2 (apply renderable_insert; [discriminate|]). exact H3. }
    { apply Hsplash. rewrite !lookup_insert_ne by discriminate. exact Hout. }
    intros bytes3. apply wp_ret. reflexivity.
  - destruct (Hup eq_refl) as [Hicons (up & flat & bytes0 & Hres & Hflat & Hbytes)].
    apply wp_bind. rewrite Hres. apply wp_bind, wp_ret.
    rewrite Hflat. apply wp_bind, wp_ret.
    apply wp_bind, wp_Image_save. unfold logged. cbn [files calls stdout].
    rewrite (Hframe Splashes.desired_1024) by discriminate. rewrite Hd.
    assert (Hpar : is_dir_in m1 (parent Splashes.desired_1024) = true).
    { change (parent Splashes.desired_1024) with Splashes.icons_dir.
      unfold is_dir_in, Splashes.icons_dir, path_join in *. cbn [app] in *.
      rewrite Hframe by discriminate. exact Hicons. }
    rewrite Hpar, Hbytes. unfold after_save. cbn [files]. rewrite Hbytes.
    step_with wp_print.
    rewrite hex_to_rgb_prefixed. step_with wp_lift.
    unfold SPLASH_SPECS. cbn [Splashes.for_each].
    apply wp_bind, wp_render_renderable; cbn [files calls stdout filename].
    { apply renderable_insert; [discriminate|exact H1]. }
    { apply Hsplash. rewrite lookup_insert_ne by discriminate. exact Hout. }
    intros bytes1.
    apply wp_bind, wp_render_renderable; cbn [files calls stdout filename].
    { do 2 (apply renderable_insert; [discriminate|]). exact H2. }
    { apply Hsplash. rewrite !lookup_insert_ne by discriminate. exact Hout. }
    intros bytes2.
    apply wp_bind, wp_render_renderable; cbn [files calls stdout filename].
    { do 3 (apply renderable_insert; [discriminate|]). exact H3. }
    { apply Hsplash. rewrite !lookup_insert_ne by discriminate. exact Hout. }
    intros bytes3. apply wp_ret. reflexivity.
Qed.

(** The run of [main] when the output directory is a regular file:
    [mkdir] raises, after the probes. *)
Lemma main_blocked_run (w : world) (b : list byte) :
  files w !! Splashes.out_dir = Some (File b) ->
  wp (Splashes.main root)
     (fun r w' =>
        r = Raise (FileExistsError Splashes.out_dir) /\
        calls w' =
          (calls w ++ map Exists (probes (files w) Splashes.icon_candidates)
             ++ [Mkdir Splashes.out_dir])%list) w.
Proof.
  intros Hfile. unfold Splashes.main.
  step_with wp_first_existing.
  apply wp_bind, wp_mkdir_out; cbn [files calls stdout logged].
  - intros b' _. split; [reflexivity|]. rewrite <- !app_assoc. reflexivity.
  - intros m1 Hdir _ Hsame _.
    rewrite Hsame, Hfile in Hdir by (rewrite Hfile; discriminate).
    discriminate.
Qed.

(** The run of [main] when a candidate is there and the output
    directory can be made, read off the runs above. *)
Lemma main_found_run (w : world) (p : path) :
  select (files w) Splashes.icon_candidates = Some p ->
  (forall b, files w !! Splashes.out_dir <> Some (File b)) ->
  exists rest',
    calls (Splashes.main root w).2
    = (calls w ++ map Exists (probes (files w) Splashes.icon_candidates)
         ++ Mkdir Splashes.out_dir :: OpenRead p :: rest')%list /\
    opened rest' = [] /\
    match files w !! p with
    | Some (File b) =>
        match decode b with
        | Some im =>
            (forall msg, (Splashes.main root w).1 <> Raise (SystemExit msg)) /\
            ((Splashes.main root w).1 = Ok tt ->
             exists icon,
               convert RGBA im = Some icon /\
               (forall spec, spec ∈ SPLASH_SPECS ->
                  composited icon (files (Splashes.main root w).2) spec) /\
               (files w !! Splashes.desired_1024 = None ->
                upscaled icon (files (Splashes.main root w).2))) /\
            (forall icon,
                convert RGBA im = Some icon ->
                (forall spec, spec ∈ SPLASH_SPECS ->
                   renderable icon (files w) spec) ->
                (files w !! Splashes.desired_1024 = None ->
                 upscalable icon (files w)) ->
                (Splashes.main root w).1 = Ok tt)
        | None =>
            rest' = [] /\
            (Splashes.main root w).1 = Raise (UnidentifiedImageError p)
        end
    | _ =>
        rest' = [] /\
        (Splashes.main root w).1 = Raise (IsADirectoryError p)
    end.
Proof.
  intros Hsel Hnofile.
  pose proof (main_source_run w p Hsel Hnofile) as Hrun. unfold wp in Hrun.
  pose proof (main_completes w p) as Hlive.
  destruct (files w !! p) as [[b|]|] eqn:Hlook.
  - destruct (decode b) as [im|] eqn:Hdec.
    + destruct Hrun as (rest' & Hcalls & Hopened & Hnot & Hdone).
      exists rest'. split; [exact Hcalls|]. split; [exact Hopened|].
      split; [exact Hnot|]. split; [exact Hdone|].
      intros icon Hconv Hall Hup.
      exact (Hlive b im icon Hsel Hnofile eq_refl Hdec Hconv Hall Hup).
    + destruct Hrun as [Hr Hcalls]. exists []. auto.
  - destruct Hrun as [Hr Hcalls]. exists []. auto.
  - destruct Hrun.
Qed.

(** C6: a run probes the candidates with [exists()] in the order
    1024.png, 512.png, 192.png and stops at the first that is there:
    the candidates before it are absent and none after it is probed.
    That candidate is the source: unless [mkdir] fails on a regular
    file [splash], it is opened for reading right after [mkdir], and
    it is the only file the run ever reads.  If it is a directory or
    does not decode, the run ends there with that error.  Otherwise
    the run never ends in the missing-icon error; when it completes,
    every splash file (and the canonical icon, if it was absent) is
    made from the image that candidate held, converted to RGBA; and
    it does complete when every call of the library on that image
    succeeds.  When no candidate is there, all three are probed,
    nothing is opened and the run ends in the missing-icon error, or
    in the error of [mkdir]. *)
Theorem first_existing_candidate_is_source (w : world) :
  Splashes.icon_candidates
  = [ ["icons"; "ios"; "1024.png"]; ["icons"; "ios"; "512.png"];
      ["icons"; "ios"; "192.png"] ] /\
  exists tried rest,
    calls (Splashes.main root w).2
    = (calls w ++ map Exists tried ++ Mkdir Splashes.out_dir :: rest)%list /\
    ((exists before p after,
         Splashes.icon_candidates = (before ++ p :: after)%list /\
         tried = (before ++ [p])%list /\
         is_Some (files w !! p) /\
         (forall q, q ∈ before -> files w !! q = None) /\
         match files w !! Splashes.out_dir with
         | Some (File _) =>
             rest = [] /\
             (Splashes.main root w).1 = Raise (FileExistsError Splashes.out_dir)
         | _ =>
             exists rest',
               rest = OpenRead p :: rest' /\ opened rest' = [] /\
               match files w !! p with
               | Some (File b) =>
                   match decode b with
                   | Some im =>
                       (forall msg,
                           (Splashes.main root w).1 <> Raise (SystemExit msg)) /\
                       ((Splashes.main root w).1 = Ok tt ->
                        exists icon,
                          convert RGBA im = Some icon /\
                          (forall spec, spec ∈ SPLASH_SPECS ->
                             composited icon (files (Splashes.main root w).2) spec) /\
                          (files w !! Splashes.desired_1024 = None ->
                           upscaled icon (files (Splashes.main root w).2))) /\
                       (forall icon,
                           convert RGBA im = Some icon ->
                           (forall spec, spec ∈ SPLASH_SPECS ->
                              renderable icon (files w) spec) ->
                           (files w !! Splashes.desired_1024 = None ->
                            upscalable icon (files w)) ->
                           (Splashes.main root w).1 = Ok tt)
                   | None =>
                       rest' = [] /\
                       (Splashes.main root w).1 = Raise (UnidentifiedImageError p)
                   end
               | _ =>
                   rest' = [] /\
                   (Splashes.main root w).1 = Raise (IsADirectoryError p)
               end
         end)
     \/
     (tried = Splashes.icon_candidates /\
      (forall q, q ∈ Splashes.icon_candidates -> files w !! q = None) /\
      opened rest = [] /\
      ((Splashes.main root w).1
       = Raise (SystemExit (Splashes.missing_icon_message root)) \/
       (Splashes.main root w).1 = Raise (FileExistsError Splashes.out_dir)))).
Proof.
  split; [reflexivity|].
  destruct (select (files w) Splashes.icon_candidates) as [p|] eqn:Hsel.
  - destruct (select_Some _ _ _ Hsel)
      as (before & after & Heq & Hp & Hnone & Hpr).
    exists (probes (files w) Splashes.icon_candidates).
    destruct (files w !! Splashes.out_dir) as [[b|]|] eqn:Hout.
    + pose proof (main_blocked_run w b Hout) as [Hr Hcalls].
      exists []. split; [exact Hcalls|]. left.
      exists before, p, after.
      split; [exact Heq|]. split; [exact Hpr|]. split; [exact Hp|].
      split; [exact Hnone|]. auto.
    + assert (Hnofile : forall b, files w !! Splashes.out_dir <> Some (File b))
        by (rewrite Hout; discriminate).
      destruct (main_found_run w p Hsel Hnofile) as (rest' & Hcalls & Hopened & Hrest).
      exists (OpenRead p :: rest'). split; [exact Hcalls|]. left.
      exists before, p, after.
      split; [exact Heq|]. split; [exact Hpr|]. split; [exact Hp|].
      split; [exact Hnone|]. exists rest'. auto.
    + assert (Hnofile : forall b, files w !! Splashes.out_dir <> Some (File b))
        by (rewrite Hout; discriminate).
      destruct (main_found_run w p Hsel Hnofile) as (rest' & Hcalls & Hopened & Hrest).
      exists (OpenRead p :: rest'). split; [exact Hcalls|]. left.
      exists before, p, after.
      split; [exact Heq|]. split; [exact Hpr|]. split; [exact Hp|].
      split; [exact Hnone|]. exists rest'. auto.
  - pose proof (main_run root w) as Hrun. unfold wp in Hrun.
    destruct Hrun as (rest & Hcalls & Hopened & _ & _ & _).
    exists (probes (files w) Splashes.icon_candidates), rest.
    split; [exact Hcalls|]. right.
    destruct (select_None _ _ Hsel) as [Hnone Hpr].
    split; [exact Hpr|]. split; [exact Hnone|]. split.
    + destruct Hopened as [Ho|(p' & Hp' & _)]; [exact Ho|congruence].
    + destruct (missing_icon_run root w Hnone) as (new & _ & _ & _ & _ & Hcase).
      destruct (files w !! Splashes.out_dir) as [[b|]|];
        destruct Hcase as [Hr _]; auto.
Qed.

(** A pass of the loop body that succeeds has created its canvas. *)
Lemma render_creates_canvas icon bg spec w w' :
  Splashes.render icon bg spec w = (Ok tt, w') ->
  exists canvas,
    new_image RGBA (width spec, height spec) (bg.1.1, bg.1.2, bg.2, 255)
    = Some canvas.
Proof.
  intros Hrun.
  assert (Hwp : wp (Splashes.render icon bg spec)
                  (fun r _ =>
                     r = Ok tt ->
                     exists canvas,
                       new_image RGBA (width spec, height spec)
                         (bg.1.1, bg.1.2, bg.2, 255) = Some canvas) w).
  { destruct bg as [[r g] b]. unfold Splashes.render. cbn [fst snd].
    apply wp_bind, wp_pil_cases; [discriminate|]. intros canvas Hnew.
    unfold wp. eauto. }
  unfold wp in Hwp. rewrite Hrun in Hwp. apply Hwp. reflexivity.
Qed.

(** What a pass of the loop body that succeeds has computed, and
    written. *)
Lemma render_exact_Ok icon bg spec s x y w w' :
  icon_placement spec = Ok (s, (x, y)) ->
  Splashes.render icon bg spec w = (Ok tt, w') ->
  exists canvas scaled composed flat bytes,
    new_image RGBA (width spec, height spec) (bg.1.1, bg.1.2, bg.2, 255)
    = Some canvas /\
    resize (s, s) icon = Some scaled /\
    alpha_composite canvas scaled (x, y) = Some composed /\
    convert RGB composed = Some flat /\
    png_encode Splashes.optimized flat = Some bytes /\
    files w' = <[Splashes.out_dir // filename spec := File bytes]> (files w).
Proof.
  intros Hplace Hrun. destruct bg as [[r g] b]. cbn [fst snd].
  assert (Hwp : wp (Splashes.render icon (r, g, b) spec)
                  (fun res w'' =>
                     res = Ok tt ->
                     exists canvas scaled composed flat bytes,
                       new_image RGBA (width spec, height spec) (r, g, b, 255)
                       = Some canvas /\
                       resize (s, s) icon = Some scaled /\
                       alpha_composite canvas scaled (x, y) = Some composed /\
                       convert RGB composed = Some flat /\
                       png_encode Splashes.optimized flat = Some bytes /\
                       files w''
                       = <[Splashes.out_dir // filename spec := File bytes]>
                           (files w)) w).
  { apply (wp_render_exact _ _ _ _ _ _ _ _ _ _ Hplace); try discriminate.
    intros canvas scaled composed flat bytes Hnew Hres Hcomp Hflat Hbytes _.
    exists canvas, scaled, composed, flat, bytes. auto 10. }
  unfold wp in Hwp. rewrite Hrun in Hwp. apply Hwp. reflexivity.
Qed.

(** C2: for every spec with positive width and height, a pass of the
    loop body that succeeds has composited onto the canvas the icon
    resized to the square of side floor(min(width, height) * 22 / 100),
    at the offsets floor((width - side) / 2) and
    floor((height - side) / 2), and has saved that composite; the two
    margins on each axis differ by at most one pixel.  The canvas
    exists, so by the limit of the library its sides are below 2^31,
    where the binary64 product [int(min * 0.22)] is the exact floor. *)
Theorem composited_icon_square_and_centred (spec : SplashSpec)
  (icon : image) (bg : Z * Z * Z) (w w' : world) :
  0 < width spec -> 0 < height spec ->
  canvas_limit ->
  Splashes.render icon bg spec w = (Ok tt, w') ->
  let s := Z.min (width spec) (height spec) * 22 / 100 in
  let x := (width spec - s) / 2 in
  let y := (height spec - s) / 2 in
  icon_size spec = Ok s /\
  (exists canvas scaled composed flat bytes,
      new_image RGBA (width spec, height spec) (bg.1.1, bg.1.2, bg.2, 255)
      = Some canvas /\
      resize (s, s) icon = Some scaled /\ im_size scaled = (s, s) /\
      alpha_composite canvas scaled (x, y) = Some composed /\
      convert RGB composed = Some flat /\
      png_encode Splashes.optimized flat = Some bytes /\
      files w' = <[Splashes.out_dir // filename spec := File bytes]> (files w)) /\
  0 <= (width spec - (x + s)) - x <= 1 /\
  0 <= (height spec - (y + s)) - y <= 1.
Proof.
  intros Hw Hh Hlimit Hrun s x y.
  destruct (render_creates_canvas _ _ _ _ _ Hrun) as [canvas Hnew].
  destruct (Hlimit _ _ _ _ Hnew) as [Hw31 Hh31]. cbn [fst snd] in Hw31, Hh31.
  assert (Hm : 0 < Z.min (width spec) (height spec) < 2 ^ 50).
  { assert (2 ^ 31 < 2 ^ 50) by reflexivity. lia. }
  assert (Hsize : icon_size spec = Ok s) by (apply icon_size_small, Hm).
  assert (Hplace : icon_placement spec = Ok (s, (x, y))).
  { unfold icon_placement. rewrite Hsize. reflexivity. }
  split; [exact Hsize|]. split; [|split; apply centred_margins].
  destruct (render_exact_Ok _ _ _ _ _ _ _ _ Hplace Hrun)
    as (cv & scaled & composed & flat & bytes & Hcv & Hres & Hcomp & Hflat
        & Hbytes & Hfiles).
  exists cv, scaled, composed, flat, bytes.
  repeat (split; [assumption|]). split; [eapply resize_size, Hres|]. auto.
Qed.

End Source.

(** ** optimize-pngs.py *)

Section OptimizeFacts.

Context `{Imaging} `{Platform}.

Lemma written_app a b : written (a ++ b) = (written a ++ written b)%list.
Proof. apply omap_app. Qed.

Lemma opened_app a b : opened (a ++ b) = (opened a ++ opened b)%list.
Proof. apply omap_app. Qed.

Lemma sum_sizes_app m a b : sum_sizes m (a ++ b) = sum_sizes m a + sum_sizes m b.
Proof.
  unfold sum_sizes. induction a as [|x a IH]; cbn [foldr app]; [lia|].
  rewrite IH. lia.
Qed.

Lemma sum_sizes_snoc m a p : sum_sizes m (a ++ [p]) = sum_sizes m a + size_in m p.
Proof. rewrite sum_sizes_app. unfold sum_sizes at 2. cbn [foldr]. lia. Qed.

Lemma sum_sizes_ext m m' ps :
  (forall q, q ∈ ps -> m' !! q = m !! q) -> sum_sizes m' ps = sum_sizes m ps.
Proof.
  unfold sum_sizes.
  induction ps as [|x ps IH]; intros Hagree; cbn [foldr]; [reflexivity|].
  unfold size_in at 1 3. rewrite (Hagree x) by set_solver.
  f_equal. apply IH. intros q Hq. apply Hagree. set_solver.
Qed.

Lemma wp_stat_size p Q w :
  match files w !! p with
  | Some (File b) => Q (Ok (Z.of_nat (length b))) (logged (Stat p) w)
  | Some Dir => Q (Ok 0) (logged (Stat p) w)
  | None => Q (Raise (FileNotFoundError p)) (logged (Stat p) w)
  end ->
  wp (stat_size p) Q w.
Proof. unfold wp, stat_size. destruct (files w !! p) as [[b|]|]; auto. Qed.

(** [optimize_png] on a regular file: the ways out. *)
Lemma wp_optimize_png p b Q w :
  files w !! p = Some (File b) ->
  (decode b = None ->
   Q (Raise (UnidentifiedImageError p))
     (World (files w) (calls w ++ [Stat p; OpenRead p]) (stdout w))) ->
  (forall im, decode b = Some im ->
     Q (Raise (FileNotFoundError p))
       (World (files w) (calls w ++ [Stat p; OpenRead p; OpenWrite p]) (stdout w))) ->
  (forall im, decode b = Some im ->
     png_encode OptimizePngs.max_compression im = None ->
     Q (Raise (EncoderError p))
       (World (after_save im p OptimizePngs.max_compression w)
              (calls w ++ [Stat p; OpenRead p; OpenWrite p]) (stdout w))) ->
  (forall im b', decode b = Some im ->
     png_encode OptimizePngs.max_compression im = Some b' ->
     Q (Ok (Z.of_nat (length b), Z.of_nat (length b')))
       (World (<[p := File b']> (files w))
              (calls w ++ [Stat p; OpenRead p; OpenWrite p; Stat p]) (stdout w))) ->
  wp (OptimizePngs.optimize_png p) Q w.
Proof.
  intros Hp Hdec Hopen Henc Hdone. unfold OptimizePngs.optimize_png.
  apply wp_bind, wp_stat_size. rewrite Hp.
  apply wp_bind, wp_Image_open. unfold logged at 1 2. cbn [files calls stdout].
  rewrite Hp. unfold logged. cbn [files calls stdout].
  destruct (decode b) as [im|] eqn:Hd.
  - apply wp_bind, wp_Image_save. unfold logged. cbn [files calls stdout].
    rewrite Hp. rewrite <- ?app_assoc. cbn [app].
    destruct (is_dir_in (files w) (parent p)).
    + destruct (png_encode OptimizePngs.max_compression im) as [b'|] eqn:He.
      * apply wp_bind, wp_stat_size. cbn [files calls stdout].
        unfold after_save. cbn [files]. rewrite He, lookup_insert_eq.
        apply wp_ret. unfold logged. cbn [files calls stdout].
        rewrite <- ?app_assoc. cbn [app]. apply (Hdone im b' eq_refl He).
      * specialize (Henc im eq_refl He). unfold after_save in *.
        cbn [files] in *. exact Henc.
    + apply (Hopen im). reflexivity.
  - rewrite <- ?app_assoc. cbn [app]. apply Hdec. reflexivity.
Qed.

Lemma processed_logged w0 done acc w c :
  processed w0 done acc w -> written [c] = [] -> opened [c] = [] ->
  processed w0 done acc (logged c w).
Proof.
  intros (new & Hc & Hw & Ho & Hout & Hnd & Hre & Hfr & Hacc) Hcw Hco.
  exists (new ++ [c])%list. cbn [files calls stdout logged].
  rewrite Hc, app_assoc, written_app, opened_app, Hcw, Hco, !app_nil_r.
  repeat split; assumption.
Qed.

Lemma reencoded_other m m1 m2 q :
  m2 !! q = m1 !! q -> reencoded m m1 q -> reencoded m m2 q.
Proof.
  intros Heq (b & im & b' & Hb & Hd & He & Hb'). exists b, im, b'.
  rewrite Heq. auto.
Qed.

(** One more file re-encoded. *)
Lemma processed_step w0 done tb ta t w p b im b' cs :
  processed w0 done (tb, ta, t) w -> p ∉ done ->
  files w0 !! p = Some (File b) -> decode b = Some im ->
  png_encode OptimizePngs.max_compression im = Some b' ->
  written cs = [p] -> opened cs = [p] ->
  processed w0 (done ++ [p])
    (tb + Z.of_nat (length b), ta + Z.of_nat (length b'), t + 1)
    (World (<[p := File b']> (files w)) (calls w ++ cs) (stdout w)).
Proof.
  intros (new & Hc & Hw & Ho & Hout & Hnd & Hre & Hfr & Hacc) Hp Hb Hd He Hcw Hco.
  injection Hacc as -> -> ->.
  exists (new ++ cs)%list. cbn [files calls stdout].
  rewrite Hc, app_assoc, written_app, opened_app, Hw, Ho, Hcw, Hco.
  repeat split; try assumption; try reflexivity.
  - apply NoDup_app. repeat split; [assumption| |apply NoDup_singleton].
    intros q Hq Hq'. apply list_elem_of_singleton in Hq' as ->. auto.
  - intros q Hq. apply elem_of_app in Hq as [Hq|Hq].
    + apply (reencoded_other _ (files w)); [|auto].
      apply lookup_insert_ne. intros <-. auto.
    + apply list_elem_of_singleton in Hq as ->.
      exists b, im, b'. rewrite lookup_insert_eq. auto.
  - intros q Hq. rewrite lookup_insert_ne by (intros <-; apply Hq; set_solver).
    apply Hfr. set_solver.
  - rewrite !sum_sizes_snoc, length_app, Nat2Z.inj_add. cbn [length].
    rewrite (sum_sizes_ext (files w) (<[p:=File b']> (files w)) done).
    2: { intros q Hq. apply lookup_insert_ne. intros <-. auto. }
    unfold size_in. rewrite Hb, lookup_insert_eq. f_equal; lia.
Qed.

(** The loop body on a regular file: the ways out. *)
Lemma wp_count_png p b tb ta t Q w :
  files w !! p = Some (File b) ->
  (decode b = None ->
   Q (Raise (UnidentifiedImageError p))
     (World (files w) (calls w ++ [Stat p; OpenRead p]) (stdout w))) ->
  (forall im, decode b = Some im ->
     Q (Raise (FileNotFoundError p))
       (World (files w) (calls w ++ [Stat p; OpenRead p; OpenWrite p]) (stdout w))) ->
  (forall im, decode b = Some im ->
     png_encode OptimizePngs.max_compression im = None ->
     Q (Raise (EncoderError p))
       (World (after_save im p OptimizePngs.max_compression w)
              (calls w ++ [Stat p; OpenRead p; OpenWrite p]) (stdout w))) ->
  (forall im b', decode b = Some im ->
     png_encode OptimizePngs.max_compression im = Some b' ->
     Q (Ok (tb + Z.of_nat (length b), ta + Z.of_nat (length b'), t + 1))
       (World (<[p := File b']> (files w))
              (calls w ++ [Stat p; OpenRead p; OpenWrite p; Stat p]) (stdout w))) ->
  wp (OptimizePngs.count_png p (tb, ta, t)) Q w.
Proof.
  intros Hp Hdec Hopen Henc Hdone. unfold OptimizePngs.count_png.
  apply wp_bind, (wp_optimize_png p b); auto.
Qed.

(** The loop stops at [p]. *)
Lemma halted_intro w0 done acc w p e m' cs :
  processed w0 done acc w -> p ∉ done ->
  opened cs = [p] ->
  (forall q, q <> p -> m' !! q = files w !! q) ->
  (e = UnidentifiedImageError p /\ written cs = [] /\
   last cs = Some (OpenRead p) /\ m' !! p = files w !! p) \/
  (e = EncoderError p /\ written cs = [p] /\ last cs = Some (OpenWrite p)) \/
  (e = FileNotFoundError p /\ written cs = [p] /\
   last cs = Some (OpenWrite p) /\ m' !! p = files w !! p) ->
  halted w0 done p e (World m' (calls w ++ cs) (stdout w)).
Proof.
  intros (new & Hc & Hw & Ho & Hout & Hnd & Hre & Hfr & Hacc) Hp Hco Hm' Hcase.
  exists (new ++ cs)%list. cbn [files calls stdout].
  rewrite Hc, app_assoc, written_app, opened_app, Hw, Ho, Hco, last_app.
  split; [reflexivity|]. split; [assumption|].
  split.
  { apply NoDup_app. repeat split; [assumption| |apply NoDup_singleton].
    intros q Hq Hq'. apply list_elem_of_singleton in Hq' as ->. auto. }
  split; [reflexivity|].
  split.
  { intros q Hq. apply (reencoded_other _ (files w)); [|auto].
    apply Hm'. intros ->. auto. }
  split.
  { intros q Hq Hqp. rewrite Hm' by assumption. auto. }
  destruct Hcase as [(-> & -> & -> & Hsame)|[(-> & -> & ->)|(-> & -> & -> & Hsame)]].
  - left. rewrite app_nil_r, Hsame, Hfr by assumption. auto.
  - right; left. auto.
  - right; right. rewrite Hsame, Hfr by assumption. auto.
Qed.

Lemma wp_mono {A} (m : io A) (Q Q' : result A -> world -> Prop) w :
  wp m Q w -> (forall r w', Q r w' -> Q' r w') -> wp m Q' w.
Proof. unfold wp. auto. Qed.

Lemma wp_yield_files ps : forall w0 done acc w,
  processed w0 done acc w -> NoDup ps -> (forall p, p ∈ ps -> p ∉ done) ->
  wp (OptimizePngs.yield_files ps OptimizePngs.count_png acc)
     (loop_post w0 done ps) w.
Proof.
  induction ps as [|p ps IH]; intros w0 done acc w Hinv Hnd Hfresh.
  - apply wp_ret. unfold loop_post, regular. cbn. rewrite app_nil_r. exact Hinv.
  - cbn [OptimizePngs.yield_files].
    apply NoDup_cons in Hnd as [Hp Hnd].
    assert (Hpd : p ∉ done) by (apply Hfresh; set_solver).
    assert (Hlook : files w !! p = files w0 !! p).
    { destruct Hinv as (new & _ & _ & _ & _ & _ & _ & Hfr & _). auto. }
    apply wp_bind, wp_is_file. rewrite Hlook.
    pose proof (processed_logged _ _ _ _ (IsFile p) Hinv eq_refl eq_refl) as Hinv1.
    set (w1 := logged (IsFile p) w) in *.
    assert (Hlook1 : files w1 !! p = files w0 !! p) by exact Hlook.
    destruct (files w0 !! p) as [[b|]|] eqn:Hb.
    + assert (Hreg : regular (files w0) (p :: ps) = p :: regular (files w0) ps).
      { unfold regular. apply filter_cons_True. unfold is_file_in. rewrite Hb.
        reflexivity. }
      destruct acc as [[tb ta] t].
      apply wp_bind, (wp_count_png p b); [exact Hlook1|..].
      * intros Hd. unfold loop_post. exists done, p, (regular (files w0) ps).
        rewrite Hreg. split; [|reflexivity].
        eapply (halted_intro _ _ _ w1); [exact Hinv1|exact Hpd|reflexivity|reflexivity|].
        left. auto.
      * intros im Hd. unfold loop_post. exists done, p, (regular (files w0) ps).
        rewrite Hreg. split; [|reflexivity].
        eapply (halted_intro _ _ _ w1); [exact Hinv1|exact Hpd|reflexivity|reflexivity|].
        right; right. auto.
      * intros im Hd He. unfold loop_post. exists done, p, (regular (files w0) ps).
        rewrite Hreg. split; [|reflexivity].
        eapply (halted_intro _ _ _ w1); [exact Hinv1|exact Hpd|reflexivity| |].
        { intros q Hq. apply after_save_other. exact Hq. }
        right; left. auto.
      * intros im b' Hd He.
        pose proof (processed_step _ _ _ _ _ w1 p b im b'
                      [Stat p; OpenRead p; OpenWrite p; Stat p]
                      Hinv1 Hpd Hb Hd He eq_refl eq_refl) as Hinv2.
        eapply wp_mono.
        { apply (IH _ _ _ _ Hinv2 Hnd). intros q Hq Hq'.
          apply elem_of_app in Hq' as [Hq'|Hq'].
          - apply (Hfresh q); set_solver.
          - apply list_elem_of_singleton in Hq' as ->. auto. }
        intros r w'. unfold loop_post. rewrite Hreg, <- app_assoc. auto.
    + assert (Hreg : regular (files w0) (p :: ps) = regular (files w0) ps).
      { unfold regular. apply filter_cons_False. unfold is_file_in. rewrite Hb.
        discriminate. }
      apply wp_bind, wp_ret. eapply wp_mono.
      { apply (IH _ _ _ _ Hinv1 Hnd). intros q Hq. apply Hfresh. set_solver. }
      intros r w'. unfold loop_post. rewrite Hreg. auto.
    + assert (Hreg : regular (files w0) (p :: ps) = regular (files w0) ps).
      { unfold regular. apply filter_cons_False. unfold is_file_in. rewrite Hb.
        discriminate. }
      apply wp_bind, wp_ret. eapply wp_mono.
      { apply (IH _ _ _ _ Hinv1 Hnd). intros q Hq. apply Hfresh. set_solver. }
      intros r w'. unfold loop_post. rewrite Hreg. auto.
Qed.

Lemma wp_rglob base Q w :
  Q (Ok (rglob_png (files w) base)) (logged (Rglob base) w) ->
  wp (OptimizePngs.rglob base) Q w.
Proof. auto. Qed.

(** Re-encoding keeps what kind of node every path holds. *)
Lemma processed_is_Some w0 done acc w q :
  processed w0 done acc w -> is_Some (files w !! q) <-> is_Some (files w0 !! q).
Proof.
  intros (new & _ & _ & _ & _ & _ & Hre & Hfr & _).
  destruct (decide (q ∈ done)) as [Hq|Hq].
  - destruct (Hre q Hq) as (b & im & b' & -> & _ & _ & ->). split; eauto.
  - rewrite Hfr by assumption. reflexivity.
Qed.

Lemma elem_of_regular m ps q :
  q ∈ regular m ps <-> is_file_in m q = true /\ q ∈ ps.
Proof. unfold regular. rewrite list_elem_of_filter. reflexivity. Qed.

Lemma is_file_in_is_Some m q : is_file_in m q = true -> is_Some (m !! q).
Proof. unfold is_file_in. destruct (m !! q); [eauto|discriminate]. Qed.

Lemma is_target_mono dirs dirs' m p :
  (forall b, b ∈ dirs -> b ∈ dirs') -> is_target dirs m p -> is_target dirs' m p.
Proof. intros Hsub (b & Hb & Hrest). exists b. split; auto. Qed.

Lemma elem_of_snoc (l : list path) (x y : path) :
  x ∈ (l ++ [y])%list <-> x ∈ l \/ x = y.
Proof. rewrite elem_of_app, list_elem_of_singleton. reflexivity. Qed.

Lemma wp_iter_pngs dirs : forall seen w0 done acc w,
  NoDup (seen ++ dirs) -> separate (seen ++ dirs) ->
  processed w0 done acc w ->
  (forall q, q ∈ done <-> is_target seen (files w0) q) ->
  wp (OptimizePngs.iter_pngs dirs OptimizePngs.count_png acc)
     (iter_post w0 (seen ++ dirs)) w.
Proof.
  induction dirs as [|base dirs IH]; intros seen w0 done acc w Hnd Hsep Hinv Hdone.
  - apply wp_ret. rewrite app_nil_r. exists done. auto.
  - cbn [OptimizePngs.iter_pngs].
    assert (Hbase : base ∉ seen).
    { apply NoDup_app in Hnd as (_ & Hdis & _). intros Hb.
      apply (Hdis base Hb). apply elem_of_cons. auto. }
    replace (seen ++ base :: dirs)%list with ((seen ++ [base]) ++ dirs)%list in *
      by (rewrite <- app_assoc; reflexivity).
    assert (Hin : forall b, b ∈ (seen ++ [base])%list -> b ∈ ((seen ++ [base]) ++ dirs)%list)
      by (intros b Hb; apply elem_of_app; auto).
    apply wp_bind, wp_path_exists.
    pose proof (processed_logged _ _ _ _ (Exists base) Hinv eq_refl eq_refl) as Hinv1.
    set (w1 := logged (Exists base) w) in *.
    pose proof (processed_is_Some _ _ _ _ base Hinv) as Hkind.
    destruct (files w !! base) as [n|] eqn:Hn.
    + assert (Hex : is_Some (files w0 !! base)) by (apply Hkind; eauto).
      apply wp_bind, wp_bind, wp_rglob.
      pose proof (processed_logged _ _ _ _ (Rglob base) Hinv1 eq_refl eq_refl) as Hinv2.
      change (files (logged (Exists base) w)) with (files w).
      set (ps := rglob_png (files w) base).
      assert (Hps : forall q, q ∈ ps <->
                      is_Some (files w0 !! q) /\ below base q /\ matches_png q = true).
      { intros q. unfold ps. rewrite rglob_png_spec.
        rewrite (processed_is_Some _ _ _ _ q Hinv). reflexivity. }
      eapply wp_mono.
      { apply (wp_yield_files ps _ _ _ _ Hinv2); [apply rglob_png_NoDup|].
        intros q Hq Hqd. apply Hps in Hq as (_ & Hbelow & _).
        apply Hdone in Hqd as (b & Hb & _ & Hbelow' & _).
        assert (b = base).
        { apply (Hsep b base q); auto.
          - apply Hin, elem_of_snoc. auto.
          - apply Hin, elem_of_snoc. auto. }
        subst b. auto. }
      assert (Hdone' : forall q, q ∈ (done ++ regular (files w0) ps)%list <->
                         is_target (seen ++ [base]) (files w0) q).
      { intros q. rewrite elem_of_app, elem_of_regular, Hps, Hdone. split.
        - intros [Hq|(Hf & Hs & Hb & Hm)].
          + eapply is_target_mono; [|exact Hq].
            intros b Hb. apply elem_of_snoc. auto.
          + exists base. split; [apply elem_of_snoc; auto|]. auto.
        - intros (b & Hb & Hs & Hbl & Hm & Hf).
          apply elem_of_snoc in Hb as [Hb| ->].
          + left. exists b. auto.
          + right. split; [exact Hf|]. split; [|auto].
            apply is_file_in_is_Some, Hf. }
      intros [acc'|e] w'; unfold loop_post.
      * intros Hinv3. apply (IH (seen ++ [base])%list _ _ _ _ Hnd Hsep Hinv3 Hdone').
      * intros (done' & p & rest & Hhalt & Heq).
        exists done', p. split; [exact Hhalt|].
        intros q Hq. eapply is_target_mono; [exact Hin|apply Hdone'].
        rewrite Heq. apply elem_of_snoc in Hq as [Hq| ->].
        -- apply elem_of_app. auto.
        -- apply elem_of_app. right. apply elem_of_cons. auto.
    + apply wp_bind, wp_ret.
      assert (Hdone' : forall q, q ∈ done <-> is_target (seen ++ [base]) (files w0) q).
      { intros q. rewrite Hdone. split.
        - apply is_target_mono. intros b Hb. apply elem_of_snoc. auto.
        - intros (b & Hb & Hs & Hrest). exists b. split; [|auto].
          apply elem_of_snoc in Hb as [Hb| ->]; [exact Hb|].
          apply Hkind in Hs. destruct Hs; discriminate. }
      apply (IH (seen ++ [base])%list _ _ _ _ Hnd Hsep Hinv1 Hdone').
Qed.

Lemma TARGET_DIRS_NoDup : NoDup OptimizePngs.TARGET_DIRS.
Proof.
  unfold OptimizePngs.TARGET_DIRS. apply NoDup_cons. split.
  - intros Hin. apply list_elem_of_singleton in Hin. discriminate.
  - apply NoDup_singleton.
Qed.

Lemma TARGET_DIRS_separate : separate OptimizePngs.TARGET_DIRS.
Proof.
  intros b1 b2 p Hb1 Hb2 [[k1 ->] _] [[k2 Heq] _].
  unfold OptimizePngs.TARGET_DIRS in *.
  apply elem_of_cons in Hb1 as [->|Hb1]; [|apply list_elem_of_singleton in Hb1 as ->];
    (apply elem_of_cons in Hb2 as [->|Hb2]; [|apply list_elem_of_singleton in Hb2 as ->]);
    try reflexivity; discriminate.
Qed.

Lemma processed_start w : processed w [] (0, 0, 0) w.
Proof.
  exists []. rewrite app_nil_r. repeat split; auto using NoDup_nil_2.
  - intros q Hq. apply elem_of_nil in Hq. contradiction.
Qed.

(** The guard on [total_before] keeps the division from raising
    [ZeroDivisionError]; the quotient of two integers can still be too
    large for a float. *)
Lemma percentage_raises delta total_before e :
  OptimizePngs.percentage delta total_before = Raise e -> e = OverflowError.
Proof.
  unfold OptimizePngs.percentage, PyFloat.int_truediv.
  destruct (total_before =? 0); [discriminate|].
  destruct (SFdiv _ _ _ _); unfold mbind, result_bind, mret, result_ret;
    congruence.
Qed.

Lemma optimize_run (w : world) : wp OptimizePngs.main (optimize_post w) w.
Proof.
  unfold OptimizePngs.main. apply wp_bind.
  eapply wp_mono.
  { apply (wp_iter_pngs OptimizePngs.TARGET_DIRS [] w [] (0, 0, 0) w).
    - apply TARGET_DIRS_NoDup.
    - apply TARGET_DIRS_separate.
    - apply processed_start.
    - intros q. split.
      + intros Hq. apply elem_of_nil in Hq. contradiction.
      + intros (b & Hb & _). apply elem_of_nil in Hb. contradiction. }
  cbn [app]. intros [[[tb ta] t]|e] w1; unfold iter_post.
  - intros (done & Hinv & Hdone).
    assert (Hacc : (tb, ta, t) = (sum_sizes (files w) done, sum_sizes (files w1) done,
                                  Z.of_nat (length done))).
    { destruct Hinv as (new & _ & _ & _ & _ & _ & _ & _ & Hacc). exact Hacc. }
    injection Hacc as -> -> ->.
    apply wp_bind, wp_lift.
    destruct (OptimizePngs.percentage _ _) as [pct|e] eqn:Hpct.
    + apply wp_bind, wp_print, wp_ret. cbn [files calls stdout].
      split; [reflexivity|]. exists done, pct. cbn zeta.
      split; [|split; [exact Hdone|split; [exact Hpct|]]].
      * destruct Hinv as (new & Hc & Hw & Ho & Hout & Hrest).
        exists new. cbn [files calls stdout]. auto.
      * destruct Hinv as (new & _ & _ & _ & -> & _). reflexivity.
    + right. split.
      * apply (percentage_raises _ _ _ Hpct).
      * exists done, (sum_sizes (files w) done, sum_sizes (files w1) done,
                      Z.of_nat (length done)). auto.
  - intros (done & p & Hhalt & Htargets). left. exists done, p. auto.
Qed.

Lemma no_targets_nil (dirs : list path) (m : gmap path node) (done : list path) :
  (forall q, ~ is_target dirs m q) ->
  (forall q, q ∈ done <-> is_target dirs m q) -> done = [].
Proof.
  intros Hnone Hdone. destruct done as [|q done]; [reflexivity|].
  destruct (Hnone q). apply Hdone. apply elem_of_cons. auto.
Qed.

(** C8: the optimiser has no handler around the loop.  When a run ends
    in the decoding or the encoding error of a file [p], then [p] is
    the last file the run opened, the files opened before it are
    re-encoded in the final tree (nothing is rolled back), no other
    path has changed, and no summary is printed.  And a run cannot
    skip a bad file: if some file to process cannot be decoded and
    re-encoded, the run ends in an error, halted at a file. *)
Theorem optimizer_halts_at_first_failure (w : world) :
  (forall e p,
      (OptimizePngs.main w).1 = Raise e ->
      e = UnidentifiedImageError p \/ e = EncoderError p ->
      exists done,
        halted w done p e (OptimizePngs.main w).2 /\
        forall q, q ∈ (done ++ [p])%list ->
                  is_target OptimizePngs.TARGET_DIRS (files w) q) /\
  (forall q b,
      is_target OptimizePngs.TARGET_DIRS (files w) q ->
      files w !! q = Some (File b) ->
      (forall im, decode b = Some im ->
                  png_encode OptimizePngs.max_compression im = None) ->
      exists e done p,
        (OptimizePngs.main w).1 = Raise e /\
        halted w done p e (OptimizePngs.main w).2).
Proof.
  pose proof (optimize_run w) as Hrun. unfold wp, optimize_post in Hrun.
  destruct (OptimizePngs.main w) as [[code|e] w'] eqn:Hmain; cbn [fst snd] in *.
  - split; [intros e p; discriminate|].
    intros q b Hq Hb Hbad.
    destruct Hrun as (_ & done & pct & Hinv & Hdone & _).
    destruct Hinv as (new & _ & _ & _ & _ & _ & Hre & _).
    destruct (Hre q) as (b0 & im & b' & Hb0 & Hd & He & _); [apply Hdone, Hq|].
    rewrite Hb in Hb0. injection Hb0 as <-.
    rewrite (Hbad im Hd) in He. discriminate.
  - destruct Hrun as [(done & p0 & Hhalt & Htargets)|(-> & done & acc & Hinv & Hdone & _)].
    + split.
      * intros e0 p [= <-] Hcase. exists done.
        assert (p0 = p) as <-.
        { destruct Hhalt as (new & _ & _ & _ & _ & _ & _ & Hways).
          destruct Hcase as [->| ->];
            destruct Hways as [(Heq & _)|[(Heq & _)|(Heq & _)]]; congruence. }
        auto.
      * intros q b _ _ _. eauto.
    + split.
      * intros e0 p [= <-] [Hcase|Hcase]; discriminate.
      * intros q b Hq Hb Hbad.
        destruct Hinv as (new & _ & _ & _ & _ & _ & Hre & _).
        destruct (Hre q) as (b0 & im & b' & Hb0 & Hd & He & _); [apply Hdone, Hq|].
        rewrite Hb in Hb0. injection Hb0 as <-.
        rewrite (Hbad im Hd) in He. discriminate.
Qed.

End OptimizeFacts.

Section Summary.

Context `{Imaging} `{Platform}.

(** C7: a run of the optimiser that completes returns 0 and has
    printed one line: "Optimized", the number of files processed (the
    regular files matching "*.png" below the target directories that
    exist), the sum of their sizes before the run, the sum of their
    sizes after it, the difference of the two behind a minus sign,
    and the percentage with two decimals.  The percentage is 0.0 when
    the total before is 0, and otherwise the binary64 quotient of the
    difference by the total before, times 100.0.  No run raises
    [ZeroDivisionError]; and when there is nothing to process the run
    completes, changes no file and reports 0 files and 0.00%. *)
Theorem summary_line_reports_totals (w : world) :
  (forall code, (OptimizePngs.main w).1 = Ok code ->
     code = 0 /\
     exists done pct,
       NoDup done /\
       (forall q, q ∈ done <-> is_target OptimizePngs.TARGET_DIRS (files w) q) /\
       let before := sum_sizes (files w) done in
       let after := sum_sizes (files (OptimizePngs.main w).2) done in
       let delta := before - after in
       pct = (if before =? 0 then S754_zero false
              else SFmul 53 1024
                     (SFdiv 53 1024 (PyFloat.exact delta) (PyFloat.exact before))
                     (S754_finite false 7036874417766400 (-46))) /\
       stdout (OptimizePngs.main w).2 =
         (stdout w ++
            [("Optimized " ++ pretty (Z.of_nat (length done)) ++ " PNGs: "
              ++ pretty before ++ " -> " ++ pretty after ++ " bytes (-"
              ++ pretty delta ++ " bytes, " ++ PyFloat.format_2f pct
              ++ "%)")%string])%list) /\
  (OptimizePngs.main w).1 <> Raise ZeroDivisionError /\
  ((forall q, ~ is_target OptimizePngs.TARGET_DIRS (files w) q) ->
   (OptimizePngs.main w).1 = Ok 0 /\
   files (OptimizePngs.main w).2 = files w /\
   stdout (OptimizePngs.main w).2 =
     (stdout w ++ ["Optimized 0 PNGs: 0 -> 0 bytes (-0 bytes, 0.00%)"])%list).
Proof.
  pose proof (optimize_run w) as Hrun. unfold wp, optimize_post in Hrun.
  destruct (OptimizePngs.main w) as [[code|e] w'] eqn:Hmain; cbn [fst snd] in *.
  - destruct Hrun as (-> & done & pct & Hinv & Hdone & Hpct & Hout).
    split; [|split; [discriminate|]].
    + intros code [= <-]. split; [reflexivity|]. exists done, pct.
      destruct Hinv as (new & _ & _ & _ & _ & Hnd & _).
      split; [exact Hnd|]. split; [exact Hdone|]. cbv zeta. split.
      * unfold OptimizePngs.percentage, PyFloat.int_truediv, PyFloat.mul,
          PyFloat.prec, PyFloat.emax in Hpct.
        change OptimizePngs.lit_100
          with (S754_finite false 7036874417766400 (-46)) in Hpct.
        destruct (sum_sizes (files w) done =? 0); [congruence|].
        set (q := SFdiv 53 1024 _ _) in *.
        destruct q; unfold mbind, result_bind, mret, result_ret in Hpct;
          congruence.
      * exact Hout.
    + intros Hnone. pose proof (no_targets_nil _ _ _ Hnone Hdone) as ->.
      split; [reflexivity|].
      destruct Hinv as (new & _ & _ & _ & _ & _ & _ & Hframe & _).
      cbn [files] in Hframe. split.
      * apply map_eq. intros q. apply Hframe. apply not_elem_of_nil.
      * rewrite Hout. f_equal. f_equal.
        cbn [sum_sizes foldr length] in *. change (0 - 0) with 0 in *.
        injection Hpct as <-. vm_compute. reflexivity.
  - split; [intros code; discriminate|]. split.
    + destruct Hrun as [(done & p & Hhalt & _)|[-> _]]; [|discriminate].
      destruct Hhalt as (new & _ & _ & _ & _ & _ & _ & Hcase).
      destruct Hcase as [(-> & _)|[(-> & _)|(-> & _)]]; discriminate.
    + intros Hnone.
      destruct Hrun as [(done & p & _ & Htargets)|(-> & done & acc & Hinv & Hdone & Hpct)].
      * destruct (Hnone p). apply Htargets. apply elem_of_app. right.
        apply list_elem_of_singleton. reflexivity.
      * pose proof (no_targets_nil _ _ _ Hnone Hdone) as ->.
        destruct Hinv as (new & _ & _ & _ & _ & _ & _ & _ & ->).
        discriminate Hpct.
Qed.

End Summary.

(** * Further properties *)

(** ** Colour parsing *)

Lemma in_all_ascii (a : ascii) : In a all_ascii.
Proof.
  unfold all_ascii. rewrite <- (ascii_nat_embedding a).
  apply in_map, in_seq. pose proof (nat_ascii_bounded a). lia.
Qed.

Lemma pairs_ok : forallb (fun a => forallb (pair_ok a) all_ascii) all_ascii = true.
Proof. vm_compute. reflexivity. Qed.

Lemma int16_pair (a b : ascii) : pair_ok a b = true.
Proof.
  pose proof pairs_ok as Hall. rewrite forallb_forall in Hall.
  specialize (Hall a (in_all_ascii a)). rewrite forallb_forall in Hall.
  apply Hall, in_all_ascii.
Qed.

Lemma int16_hex_pair (a b : ascii) :
  is_hex_digit a = true -> is_hex_digit b = true ->
  PyStr.int16 (String a (String b "")) = Ok (16 * hex_value a + hex_value b).
Proof.
  intros Ha Hb. pose proof (int16_pair a b) as Hok. unfold pair_ok in Hok.
  rewrite Ha, Hb in Hok. cbn [andb negb] in Hok.
  destruct (PyStr.int16 _) as [v|e]; [|discriminate].
  apply andb_true_iff in Hok as [_ Hv]. apply Z.eqb_eq in Hv. congruence.
Qed.

Lemma int16_pair_bounds (a b : ascii) (v : Z) :
  PyStr.int16 (String a (String b "")) = Ok v -> -15 <= v <= 255.
Proof.
  intros Hv. pose proof (int16_pair a b) as Hok. unfold pair_ok in Hok.
  rewrite Hv in Hok. apply andb_true_iff in Hok as [Hok _].
  apply andb_true_iff in Hok as [H1 H2]. lia.
Qed.

Lemma hex_digit_not_hash (a : ascii) :
  is_hex_digit a = true -> Ascii.eqb a "#" = false.
Proof.
  intros Ha.
  assert (Hall : forallb (fun c => implb (is_hex_digit c) (negb (Ascii.eqb c "#")))
                   all_ascii = true) by (vm_compute; reflexivity).
  rewrite forallb_forall in Hall. specialize (Hall a (in_all_ascii a)).
  rewrite Ha in Hall. cbn [implb] in Hall. apply negb_true_iff, Hall.
Qed.

Lemma hex_value_range (a : ascii) : is_hex_digit a = true -> 0 <= hex_value a <= 15.
Proof.
  intros Ha.
  assert (Hall : forallb (fun c => implb (is_hex_digit c)
                                     ((0 <=? hex_value c) && (hex_value c <=? 15)))
                   all_ascii = true) by (vm_compute; reflexivity).
  rewrite forallb_forall in Hall. specialize (Hall a (in_all_ascii a)).
  rewrite Ha in Hall. cbn [implb] in Hall.
  apply andb_true_iff in Hall as [H1 H2]. lia.
Qed.

(** X2: six hex digits, with or without a ['#'] in front, give the three
    bytes they denote. *)
Theorem hex_to_rgb_six_digits (c1 c2 c3 c4 c5 c6 : ascii) :
  is_hex_digit c1 = true -> is_hex_digit c2 = true -> is_hex_digit c3 = true ->
  is_hex_digit c4 = true -> is_hex_digit c5 = true -> is_hex_digit c6 = true ->
  let digits :=
    String c1 (String c2 (String c3 (String c4 (String c5 (String c6 ""))))) in
  let r := 16 * hex_value c1 + hex_value c2 in
  let g := 16 * hex_value c3 + hex_value c4 in
  let b := 16 * hex_value c5 + hex_value c6 in
  hex_to_rgb digits = Ok (r, g, b) /\
  hex_to_rgb (String "#" digits) = Ok (r, g, b) /\
  0 <= r <= 255 /\ 0 <= g <= 255 /\ 0 <= b <= 255.
Proof.
  intros H1 H2 H3 H4 H5 H6 digits r g b.
  assert (Hrgb : hex_to_rgb digits = Ok (r, g, b)).
  { unfold hex_to_rgb, digits. cbn [PyStr.lstrip]. rewrite (hex_digit_not_hash c1 H1).
    cbn [String.length Nat.eqb negb]. unfold PyStr.slice.
    cbn [substring Nat.sub].
    rewrite (int16_hex_pair c1 c2 H1 H2), (int16_hex_pair c3 c4 H3 H4),
      (int16_hex_pair c5 c6 H5 H6). reflexivity. }
  split; [exact Hrgb|]. split; [exact Hrgb|].
  pose proof (hex_value_range c1 H1). pose proof (hex_value_range c2 H2).
  pose proof (hex_value_range c3 H3). pose proof (hex_value_range c4 H4).
  pose proof (hex_value_range c5 H5). pose proof (hex_value_range c6 H6).
  unfold r, g, b. lia.
Qed.

(** X3: whatever [hex_to_rgb] returns, no component is above 255 or below
    -15: a slice can carry a sign, but then it has one digit. *)
Theorem hex_to_rgb_components_bounded (color : string) (r g b : Z) :
  hex_to_rgb color = Ok (r, g, b) ->
  -15 <= r <= 255 /\ -15 <= g <= 255 /\ -15 <= b <= 255.
Proof.
  unfold hex_to_rgb. set (s := PyStr.lstrip "#" color).
  destruct (Nat.eqb_spec (String.length s) 6) as [Hlen|Hlen]; [|discriminate].
  cbn [negb].
  destruct s as [|c1 [|c2 [|c3 [|c4 [|c5 [|c6 [|c7 s]]]]]]]; try discriminate Hlen.
  unfold PyStr.slice. cbn [substring Nat.sub].
  destruct (PyStr.int16 (String c1 (String c2 ""))) as [r'|] eqn:Hr; [|discriminate].
  destruct (PyStr.int16 (String c3 (String c4 ""))) as [g'|] eqn:Hg; [|discriminate].
  destruct (PyStr.int16 (String c5 (String c6 ""))) as [b'|] eqn:Hb; [|discriminate].
  intros [= <- <- <-].
  split; [|split]; eapply int16_pair_bounds; eassumption.
Qed.

(** ** Icon geometry *)

(** X4: every spec whose shorter side is at least 5 and below 2^50 gets an
    icon of positive size that lies within the canvas; below 5 the
    size is 0. *)
Theorem icon_fits_any_canvas (spec : SplashSpec) :
  0 < Z.min (width spec) (height spec) < 2 ^ 50 ->
  exists s x y,
    icon_placement spec = Ok (s, (x, y)) /\
    (s = 0 <-> Z.min (width spec) (height spec) < 5) /\
    0 <= s <= Z.min (width spec) (height spec) /\
    0 <= x /\ 0 <= y /\ x + s <= width spec /\ y + s <= height spec.
Proof.
  intros Hm.
  set (m := Z.min (width spec) (height spec)) in *.
  set (s := m * 22 / 100).
  exists s, ((width spec - s) / 2), ((height spec - s) / 2).
  assert (Hsize : icon_size spec = Ok s) by (apply icon_size_small, Hm).
  split; [unfold icon_placement; rewrite Hsize; reflexivity|].
  pose proof (Z.div_mod (m * 22) 100 ltac:(lia)) as Hdiv.
  pose proof (Z.mod_pos_bound (m * 22) 100 ltac:(lia)) as Hmod.
  fold s in Hdiv.
  assert (Hw : m <= width spec) by apply Z.le_min_l.
  assert (Hh : m <= height spec) by apply Z.le_min_r.
  pose proof (Z.div_mod (width spec - s) 2 ltac:(lia)).
  pose proof (Z.mod_pos_bound (width spec - s) 2 ltac:(lia)).
  pose proof (Z.div_mod (height spec - s) 2 ltac:(lia)).
  pose proof (Z.mod_pos_bound (height spec - s) 2 ltac:(lia)).
  repeat split; lia.
Qed.

Section SplashExtras.

Context `{Imaging}.
Variable root : path.

(** X5: [next((p for p in ps if p.exists()), None)], for any list of
    candidates: the paths are probed in order up to the first that
    exists, which is the result; nothing else happens. *)
Theorem first_existing_finds_first (ps : list path) (w : world) :
  exists tried,
    (Splashes.first_existing ps w).2
    = World (files w) (calls w ++ map Exists tried) (stdout w) /\
    ((exists before p after,
         ps = (before ++ p :: after)%list /\ tried = (before ++ [p])%list /\
         is_Some (files w !! p) /\
         (forall q, q ∈ before -> files w !! q = None) /\
         (Splashes.first_existing ps w).1 = Ok (Some p))
     \/
     (tried = ps /\ (forall q, q ∈ ps -> files w !! q = None) /\
      (Splashes.first_existing ps w).1 = Ok None)).
Proof.
  assert (Hwp : wp (Splashes.first_existing ps)
                  (fun r w' =>
                     r = Ok (select (files w) ps) /\
                     w' = World (files w)
                            (calls w ++ map Exists (probes (files w) ps)) (stdout w))
                  w) by (apply wp_first_existing; auto).
  unfold wp in Hwp. destruct Hwp as [Hr Hw'].
  exists (probes (files w) ps). split; [exact Hw'|]. rewrite Hr.
  destruct (select (files w) ps) as [p|] eqn:Hsel.
  - left. destruct (select_Some _ _ _ Hsel) as (before & after & Heq & Hp & Hnone & Hpr).
    exists before, p, after. auto.
  - right. destruct (select_None _ _ Hsel) as [Hnone Hpr]. auto.
Qed.

(** X6: whatever the outcome of a run of the generator, the files it has
    opened for writing are, in this order, the canonical icon (when
    it was absent) and the splash files of [SPLASH_SPECS], or the
    first few of them; every path it has not opened for writing,
    the output directory apart, holds what it held. *)
Theorem generator_writes_in_order (w : world) :
  exists new,
    calls (Splashes.main root w).2 = (calls w ++ new)%list /\
    written new `prefix_of` planned_writes (files w) /\
    ((Splashes.main root w).1 = Ok tt -> written new = planned_writes (files w)) /\
    forall q, q ∉ written new -> q <> Splashes.out_dir ->
              files (Splashes.main root w).2 !! q = files w !! q.
Proof.
  pose proof (main_run root w) as Hrun. unfold wp in Hrun.
  destruct Hrun as (rest & Hcalls & _ & Hprefix & Hframe & Hdone).
  eexists. split; [exact Hcalls|]. rewrite written_prelude.
  split; [exact Hprefix|]. split; [|exact Hframe].
  intros Hok. apply (Hdone Hok).
Qed.

(** X7: a run that completes has printed one line per file written,
    ["Wrote "] and the path relative to the root, in the order of the
    writes; a run that fails has printed the first few of them. *)
Theorem generator_prints_each_write (w : world) :
  exists lines,
    stdout (Splashes.main root w).2 = (stdout w ++ lines)%list /\
    lines `prefix_of` map wrote (planned_writes (files w)) /\
    ((Splashes.main root w).1 = Ok tt ->
     lines = map wrote (planned_writes (files w))).
Proof. exact (main_prints root w). Qed.

(** X8: a second run: after a run that completes the canonical icon is
    there, so the next run probes it alone, has no other file to
    read, and writes splash files only. *)
Theorem rerun_takes_canonical_icon (w : world) :
  (Splashes.main root w).1 = Ok tt ->
  let w1 := (Splashes.main root w).2 in
  is_Some (files w1 !! Splashes.desired_1024) /\
  exists rest,
    calls (Splashes.main root w1).2
    = (calls w1 ++ Exists Splashes.desired_1024
         :: Mkdir Splashes.out_dir :: rest)%list /\
    written rest `prefix_of` outputs /\
    (opened rest = [] \/ opened rest = [Splashes.desired_1024]).
Proof.
  intros Hok w1.
  assert (Hthere : is_Some (files w1 !! Splashes.desired_1024)).
  { pose proof (main_run root w) as Hrun. unfold wp in Hrun. fold w1 in Hrun.
    destruct Hrun as (rest & _ & _ & _ & Hframe & Hdone).
    destruct (Hdone Hok) as (_ & Hwritten & _ & Hmade).
    destruct (files w !! Splashes.desired_1024) as [n|] eqn:Hd.
    - rewrite Hframe; [rewrite Hd; eauto| |discriminate].
      rewrite Hwritten. unfold planned_writes. rewrite Hd.
      apply desired_not_output.
    - destruct (Hmade eq_refl) as (flat & b & -> & _). eauto. }
  split; [exact Hthere|].
  destruct Hthere as [n Hn].
  pose proof (main_run root w1) as Hrun. unfold wp in Hrun.
  destruct Hrun as (rest & Hcalls & Hopened & Hprefix & _).
  unfold planned_writes in Hprefix. rewrite Hn in Hprefix.
  unfold Splashes.icon_candidates in Hcalls, Hopened.
  cbn [probes select] in Hcalls, Hopened. rewrite Hn in Hcalls, Hopened.
  exists rest. split; [exact Hcalls|]. split; [exact Hprefix|].
  destruct Hopened as [Ho|(p & [= <-] & Ho)]; auto.
Qed.

End SplashExtras.

(** ** The optimiser *)

Section OptimizeExtras.

Context `{Imaging} `{Platform}.

(** X9: [optimize_png] on a path that does not exist fails in [stat],
    before any file is opened. *)
Theorem optimize_png_missing (p : path) (w : world) :
  files w !! p = None ->
  OptimizePngs.optimize_png p w
  = (Raise (FileNotFoundError p), World (files w) (calls w ++ [Stat p]) (stdout w)).
Proof.
  intros Hp. unfold OptimizePngs.optimize_png, mbind, io_bind, stat_size.
  rewrite Hp. reflexivity.
Qed.

(** X10: [optimize_png] on an image that can be encoded, in a directory:
    the file is read once and written once, holds the new encoding,
    and the result is the two sizes. *)
Theorem optimize_png_reencodes (p : path) (w : world) (b b' : list byte) (im : image) :
  files w !! p = Some (File b) ->
  is_dir_in (files w) (parent p) = true ->
  decode b = Some im ->
  png_encode OptimizePngs.max_compression im = Some b' ->
  OptimizePngs.optimize_png p w
  = (Ok (Z.of_nat (length b), Z.of_nat (length b')),
     World (<[p := File b']> (files w))
           (calls w ++ [Stat p; OpenRead p; OpenWrite p; Stat p]) (stdout w)).
Proof.
  intros Hp Hdir Hd He.
  assert (Hwp : wp (OptimizePngs.optimize_png p)
                  (fun r w' =>
                     (r, w') =
                     (Ok (Z.of_nat (length b), Z.of_nat (length b')),
                      World (<[p := File b']> (files w))
                        (calls w ++ [Stat p; OpenRead p; OpenWrite p; Stat p])
                        (stdout w))) w).
  { unfold OptimizePngs.optimize_png.
    apply wp_bind, wp_stat_size. rewrite Hp.
    apply wp_bind, wp_Image_open. unfold logged. cbn [files calls stdout].
    rewrite Hp, Hd.
    apply wp_bind, wp_Image_save. cbn [files calls stdout].
    rewrite Hp, Hdir, He.
    apply wp_bind, wp_stat_size. cbn [files calls stdout].
    unfold after_save. cbn [files]. rewrite He, lookup_insert_eq.
    apply wp_ret. unfold logged. cbn [files calls stdout].
    rewrite <- !app_assoc. reflexivity. }
  unfold wp in Hwp. destruct (OptimizePngs.optimize_png p w). exact Hwp.
Qed.

(** X11: [iter_pngs] on any list of distinct directories no two of which
    hold a common path: the loop body runs once on each regular file
    matching ["*.png"] below a directory of the list that exists, or
    the loop stops at the first such file on which the body raises. *)
Theorem iter_pngs_visits_targets (dirs : list path) (w : world) :
  NoDup dirs -> separate dirs ->
  iter_post w dirs
    (OptimizePngs.iter_pngs dirs OptimizePngs.count_png (0, 0, 0) w).1
    (OptimizePngs.iter_pngs dirs OptimizePngs.count_png (0, 0, 0) w).2.
Proof.
  intros Hnd Hsep.
  apply (wp_iter_pngs dirs [] w [] (0, 0, 0) w Hnd Hsep (processed_start w)).
  intros q. split.
  - intros Hq. apply elem_of_nil in Hq. contradiction.
  - intros (b & Hb & _). apply elem_of_nil in Hb. contradiction.
Qed.

(** X12: a run of the optimiser that completes has read and rewritten each
    file to process exactly once, in one order; each holds the
    encoding, at the highest compression level, of the image it held;
    no other path has changed. *)
Theorem optimizer_reencodes_each_target (w : world) :
  is_ok (OptimizePngs.main w).1 = true ->
  exists done new,
    calls (OptimizePngs.main w).2 = (calls w ++ new)%list /\
    opened new = done /\ written new = done /\ NoDup done /\
    (forall q, q ∈ done <-> is_target OptimizePngs.TARGET_DIRS (files w) q) /\
    (forall q, q ∈ done -> reencoded (files w) (files (OptimizePngs.main w).2) q) /\
    (forall q, q ∉ done -> files (OptimizePngs.main w).2 !! q = files w !! q).
Proof.
  pose proof (optimize_run w) as Hrun. unfold wp, optimize_post in Hrun.
  destruct (OptimizePngs.main w) as [[code|e] w']; cbn [fst snd is_ok] in *;
    [intros _|discriminate].
  destruct Hrun as (_ & done & pct & Hinv & Hdone & _).
  destruct Hinv as (new & Hc & Hw & Ho & _ & Hnd & Hre & Hfr & _).
  exists done, new. cbn [files calls] in *. auto 10.
Qed.

(** X13: whatever the outcome of a run of the optimiser, a path that is
    not a file to process holds afterwards what it held before. *)
Theorem optimizer_touches_only_targets (w : world) (q : path) :
  ~ is_target OptimizePngs.TARGET_DIRS (files w) q ->
  files (OptimizePngs.main w).2 !! q = files w !! q.
Proof.
  intros Hq.
  pose proof (optimize_run w) as Hrun. unfold wp, optimize_post in Hrun.
  destruct (OptimizePngs.main w) as [[code|e] w']; cbn [fst snd] in *.
  - destruct Hrun as (_ & done & pct & Hinv & Hdone & _).
    destruct Hinv as (new & _ & _ & _ & _ & _ & _ & Hfr & _).
    apply Hfr. intros Hin. apply Hq, Hdone, Hin.
  - destruct Hrun as [(done & p & Hhalt & Htargets)|(_ & done & acc & Hinv & Hdone & _)].
    + destruct Hhalt as (new & _ & _ & _ & _ & _ & Hfr & _).
      apply Hfr.
      * intros Hin. apply Hq, Htargets, elem_of_app. auto.
      * intros ->. apply Hq, Htargets, elem_of_app. right.
        apply list_elem_of_singleton. reflexivity.
    + destruct Hinv as (new & _ & _ & _ & _ & _ & _ & Hfr & _).
      apply Hfr. intros Hin. apply Hq, Hdone, Hin.
Qed.

(** X14: a run of the optimiser that fails, for whatever reason, prints
    nothing: the summary comes only after the whole loop. *)
Theorem optimizer_failure_is_silent (w : world) (e : exn) :
  (OptimizePngs.main w).1 = Raise e ->
  stdout (OptimizePngs.main w).2 = stdout w.
Proof.
  pose proof (optimize_run w) as Hrun. unfold wp, optimize_post in Hrun.
  destruct (OptimizePngs.main w) as [[code|e'] w']; cbn [fst snd] in *;
    [discriminate|intros _].
  destruct Hrun as [(done & p & Hhalt & _)|(_ & done & acc & Hinv & _)].
  - destruct Hhalt as (new & _ & Hout & _). exact Hout.
  - destruct Hinv as (new & _ & _ & _ & Hout & _). exact Hout.
Qed.

End OptimizeExtras.

(** X15: when no size changes, the percentage is 0 and prints as 0.00. *)
Theorem percentage_of_no_change (total_before : Z) :
  0 < total_before ->
  OptimizePngs.percentage 0 total_before = Ok (S754_zero false) /\
  PyFloat.format_2f (S754_zero false) = "0.00".
Proof.
  intros Hpos. split; [|reflexivity].
  unfold OptimizePngs.percentage, PyFloat.int_truediv.
  destruct (Z.eqb_spec total_before 0) as [->|_]; [lia|].
  destruct total_before as [|p|p]; try lia.
  reflexivity.
Qed.

(** X16: when the files have grown, [delta] is negative and the summary
    shows it behind the minus sign of the format string: two minus
    signs. *)
Theorem summary_of_growth (touched total_before total_after delta : Z)
  (pct : PyFloat.float) :
  delta < 0 ->
  OptimizePngs.summary_line touched total_before total_after delta pct
  = "Optimized " ++ pretty touched ++ " PNGs: " ++ pretty total_before
    ++ " -> " ++ pretty total_after ++ " bytes (--" ++ pretty (- delta)
    ++ " bytes, " ++ PyFloat.format_2f pct ++ "%)".
Proof.
  intros Hneg. destruct delta as [|p|p]; try lia.
  unfold OptimizePngs.summary_line. reflexivity.
Qed.

(** * Examples

    Runs of the two scripts on the model of the interfaces. *)

#[local] Existing Instance Toy.imaging.
#[local] Existing Instance Toy.platform.

(** C1 (example): from a checkout with only [192.png] the run completes,
    and each splash file is written once with the size of its spec. *)
Lemma splash_files_written_example :
  (Splashes.main ["repo"] small_icon_world).1 = Ok tt /\
  exists new,
    calls (Splashes.main ["repo"] small_icon_world).2
    = (calls small_icon_world ++ new)%list /\
    forall spec, spec ∈ SPLASH_SPECS ->
      occurrences (Splashes.out_dir // filename spec) (written new) = 1%nat /\
      exists flat b,
        files (Splashes.main ["repo"] small_icon_world).2
          !! (Splashes.out_dir // filename spec) = Some (File b) /\
        png_encode Splashes.optimized flat = Some b /\
        im_size flat = (width spec, height spec).
Proof.
  split; [vm_compute; reflexivity|].
  apply (splash_files_written ["repo"] small_icon_world).
  vm_compute. reflexivity.
Defined.

(** Beyond the sides a canvas can have, [icon_size] is no longer the
    floor: at 1279438876420709 the binary64 product rounds up to an
    integer, one more than floor(side * 0.22), whether 0.22 is read as
    the decimal or as the double the literal denotes. *)
Lemma icon_size_huge_canvas :
  0 < width huge_spec /\ 0 < height huge_spec /\
  icon_size huge_spec = Ok 281476552812556 /\
  Z.min (width huge_spec) (height huge_spec) * 22 / 100 = 281476552812555 /\
  lit_0_22 = S754_finite false 7926335344172073 (-55) /\
  Z.min (width huge_spec) (height huge_spec) * 7926335344172073 / 2 ^ 55
  = 281476552812555.
Proof. vm_compute. intuition discriminate. Qed.

Lemma bare_tree_has_no_icon (p : path) :
  p ∈ Splashes.icon_candidates -> files bare_world !! p = None.
Proof.
  intros Hp. unfold Splashes.icon_candidates in Hp.
  repeat (apply elem_of_cons in Hp as [->|Hp]; [vm_compute; reflexivity|]).
  apply elem_of_nil in Hp. contradiction.
Defined.

(** C3 (example): a checkout with no icon and no [splash]. *)
Lemma missing_icon_run_outcome_example :
  (forall p, p ∈ Splashes.icon_candidates -> files bare_world !! p = None) /\
  exists new,
    calls (Splashes.main ["repo"] bare_world).2 = (calls bare_world ++ new)%list /\
    written new = [] /\ opened new = [] /\
    stdout (Splashes.main ["repo"] bare_world).2 = stdout bare_world /\
    (Splashes.main ["repo"] bare_world).1
    = Raise (SystemExit (Splashes.missing_icon_message ["repo"])) /\
    files (Splashes.main ["repo"] bare_world).2
    = <[Splashes.out_dir := Dir]> (files bare_world).
Proof.
  split; [exact bare_tree_has_no_icon|].
  exact (proj1 (missing_icon_run_outcome ["repo"] bare_world bare_tree_has_no_icon)).
Defined.

(** C3 (counterexample): the failed run on that checkout has changed
    the tree: [splash] was not there before and is a directory after. *)
Lemma failed_run_creates_output_dir :
  files bare_world !! ["icons"; "ios"; "1024.png"] = None /\
  files bare_world !! ["icons"; "ios"; "512.png"] = None /\
  files bare_world !! ["icons"; "ios"; "192.png"] = None /\
  (Splashes.main ["repo"] bare_world).1
  = Raise (SystemExit
             "Missing source icon. Tried: /repo/icons/ios/1024.png, /repo/icons/ios/512.png, /repo/icons/ios/192.png") /\
  files bare_world !! ["splash"] = None /\
  files (Splashes.main ["repo"] bare_world).2 !! ["splash"] = Some Dir.
Proof. vm_compute. repeat split. Qed.

(** C5 (example): a checkout that has [1024.png]: the run completes and
    the file holds what it held. *)
Lemma canonical_icon_kept_example :
  (Splashes.main ["repo"] full_icon_world).1 = Ok tt /\
  is_Some (files full_icon_world !! Splashes.desired_1024) /\
  files (Splashes.main ["repo"] full_icon_world).2 !! Splashes.desired_1024
  = files full_icon_world !! Splashes.desired_1024.
Proof.
  assert (Hthere : is_Some (files full_icon_world !! Splashes.desired_1024))
    by (vm_compute; eauto).
  split; [vm_compute; reflexivity|]. split; [exact Hthere|].
  destruct (canonical_icon_only_if_absent ["repo"] full_icon_world)
    as (new & _ & _ & _ & _ & Hkept & _).
  exact (Hkept Hthere).
Defined.

(** C8 (example): a directory whose second file is not an image. *)
Lemma optimizer_halts_at_first_failure_example :
  (OptimizePngs.main corrupt_world).1
  = Raise (UnidentifiedImageError ["splash"; "b.png"]) /\
  exists done,
    halted corrupt_world done ["splash"; "b.png"]
      (UnidentifiedImageError ["splash"; "b.png"]) (OptimizePngs.main corrupt_world).2 /\
    forall q, q ∈ (done ++ [["splash"; "b.png"]])%list ->
              is_target OptimizePngs.TARGET_DIRS (files corrupt_world) q.
Proof.
  assert (Hrun : (OptimizePngs.main corrupt_world).1
                 = Raise (UnidentifiedImageError ["splash"; "b.png"]))
    by (vm_compute; reflexivity).
  split; [exact Hrun|].
  exact (proj1 (optimizer_halts_at_first_failure corrupt_world) _ _ Hrun
           (or_introl eq_refl)).
Defined.

Lemma bounded_canvas_limit : @canvas_limit Bounded.imaging.
Proof.
  intros m [w h] c im. cbn [new_image Bounded.imaging fst snd].
  unfold Bounded.new_image. cbn [fst snd].
  destruct (0 <=? w); [|discriminate]. destruct (Z.ltb_spec w (2 ^ 31)); [|discriminate].
  destruct (0 <=? h); [|discriminate]. destruct (Z.ltb_spec h (2 ^ 31)); [|discriminate].
  intros _. split; assumption.
Defined.

(** C2 (example): a 640 x 480 canvas, on the model whose canvases have
    C int sides: the icon is resized to 105 x 105 and composited at
    (267, 187). *)
Lemma composited_icon_square_and_centred_example :
  0 < width vga_spec /\ 0 < height vga_spec /\
  @canvas_limit Bounded.imaging /\
  (@Splashes.render Bounded.imaging (Toy.Raster RGBA 192 192) (253, 251, 247)
     vga_spec empty_splash_world).1 = Ok tt /\
  icon_size vga_spec = Ok 105 /\
  (exists canvas scaled composed flat bytes,
      @new_image Bounded.imaging RGBA (640, 480) (253, 251, 247, 255) = Some canvas /\
      @resize Bounded.imaging (105, 105) (Toy.Raster RGBA 192 192) = Some scaled /\
      @im_size Bounded.imaging scaled = (105, 105) /\
      @alpha_composite Bounded.imaging canvas scaled (267, 187) = Some composed /\
      @convert Bounded.imaging RGB composed = Some flat /\
      @png_encode Bounded.imaging Splashes.optimized flat = Some bytes /\
      files (@Splashes.render Bounded.imaging (Toy.Raster RGBA 192 192)
               (253, 251, 247) vga_spec empty_splash_world).2
      = <[ ["splash"; "640x480.png"] := File bytes ]> (files empty_splash_world)) /\
  0 <= (640 - (267 + 105)) - 267 <= 1 /\
  0 <= (480 - (187 + 105)) - 187 <= 1.
Proof.
  assert (Hw : 0 < width vga_spec) by reflexivity.
  assert (Hh : 0 < height vga_spec) by reflexivity.
  assert (Hrun : @Splashes.render Bounded.imaging (Toy.Raster RGBA 192 192)
                   (253, 251, 247) vga_spec empty_splash_world
                 = (Ok tt,
                    (@Splashes.render Bounded.imaging (Toy.Raster RGBA 192 192)
                       (253, 251, 247) vga_spec empty_splash_world).2))
    by (vm_compute; reflexivity).
  split; [exact Hw|]. split; [exact Hh|]. split; [exact bounded_canvas_limit|].
  split; [vm_compute; reflexivity|].
  exact (@composited_icon_square_and_centred Bounded.imaging vga_spec
           (Toy.Raster RGBA 192 192) (253, 251, 247) empty_splash_world _
           Hw Hh bounded_canvas_limit Hrun).
Defined.

(** C6 (example): 1024.png is absent, 512.png and 192.png are there:
    the run probes 1024.png and 512.png, reads 512.png and nothing
    else, and completes. *)
Lemma first_existing_candidate_is_source_example :
  files two_icon_world !! ["icons"; "ios"; "1024.png"] = None /\
  files two_icon_world !! ["icons"; "ios"; "512.png"] = Some (File icon512) /\
  files two_icon_world !! ["icons"; "ios"; "192.png"] = Some (File icon192) /\
  (@Splashes.main Toy.imaging ["repo"] two_icon_world).1 = Ok tt /\
  take 4 (calls (@Splashes.main Toy.imaging ["repo"] two_icon_world).2)
  = [Exists ["icons"; "ios"; "1024.png"]; Exists ["icons"; "ios"; "512.png"];
     Mkdir ["splash"]; OpenRead ["icons"; "ios"; "512.png"]] /\
  opened (calls (@Splashes.main Toy.imaging ["repo"] two_icon_world).2)
  = [["icons"; "ios"; "512.png"]] /\
  exists tried rest,
    calls (@Splashes.main Toy.imaging ["repo"] two_icon_world).2
    = (calls two_icon_world ++ map Exists tried
         ++ Mkdir Splashes.out_dir :: rest)%list /\
    ((exists before p after,
         Splashes.icon_candidates = (before ++ p :: after)%list /\
         tried = (before ++ [p])%list /\
         is_Some (files two_icon_world !! p) /\
         (forall q, q ∈ before -> files two_icon_world !! q = None) /\
         exists rest',
           rest = OpenRead p :: rest' /\ opened rest' = [] /\
           match files two_icon_world !! p with
           | Some (File b) =>
               match @decode Toy.imaging b with
               | Some im =>
                   (forall msg,
                       (@Splashes.main Toy.imaging ["repo"] two_icon_world).1
                       <> Raise (SystemExit msg)) /\
                   ((@Splashes.main Toy.imaging ["repo"] two_icon_world).1 = Ok tt ->
                    exists icon,
                      @convert Toy.imaging RGBA im = Some icon /\
                      (forall spec, spec ∈ SPLASH_SPECS ->
                         @composited Toy.imaging icon
                           (files (@Splashes.main Toy.imaging ["repo"]
                                     two_icon_world).2) spec) /\
                      (files two_icon_world !! Splashes.desired_1024 = None ->
                       @upscaled Toy.imaging icon
                         (files (@Splashes.main Toy.imaging ["repo"]
                                   two_icon_world).2))) /\
                   (forall icon,
                       @convert Toy.imaging RGBA im = Some icon ->
                       (forall spec, spec ∈ SPLASH_SPECS ->
                          @renderable Toy.imaging icon (files two_icon_world) spec) ->
                       (files two_icon_world !! Splashes.desired_1024 = None ->
                        @upscalable Toy.imaging icon (files two_icon_world)) ->
                       (@Splashes.main Toy.imaging ["repo"] two_icon_world).1 = Ok tt)
               | None =>
                   rest' = [] /\
                   (@Splashes.main Toy.imaging ["repo"] two_icon_world).1
                   = Raise (UnidentifiedImageError p)
               end
           | _ =>
               rest' = [] /\
               (@Splashes.main Toy.imaging ["repo"] two_icon_world).1
               = Raise (IsADirectoryError p)
           end)
     \/
     (tried = Splashes.icon_candidates /\
      (forall q, q ∈ Splashes.icon_candidates -> files two_icon_world !! q = None) /\
      opened rest = [] /\
      ((@Splashes.main Toy.imaging ["repo"] two_icon_world).1
       = Raise (SystemExit (Splashes.missing_icon_message ["repo"])) \/
       (@Splashes.main Toy.imaging ["repo"] two_icon_world).1
       = Raise (FileExistsError Splashes.out_dir)))).
Proof.
  do 6 (split; [vm_compute; reflexivity|]).
  exact (proj2 (@first_existing_candidate_is_source Toy.imaging ["repo"]
                  two_icon_world)).
Defined.

(** C7 (example): two files of 12 and 20 bytes are re-encoded in 9
    bytes each: 14 of 32 bytes saved, 43.75%. *)
Lemma summary_line_reports_totals_example :
  (@OptimizePngs.main Bounded.imaging Toy.platform padded_world).1 = Ok 0 /\
  stdout (@OptimizePngs.main Bounded.imaging Toy.platform padded_world).2
  = ["Optimized 2 PNGs: 32 -> 18 bytes (-14 bytes, 43.75%)"] /\
  exists done pct,
    NoDup done /\
    (forall q, q ∈ done <->
               is_target OptimizePngs.TARGET_DIRS (files padded_world) q) /\
    pct = (if sum_sizes (files padded_world) done =? 0 then S754_zero false
           else SFmul 53 1024
                  (SFdiv 53 1024
                     (PyFloat.exact
                        (sum_sizes (files padded_world) done
                         - sum_sizes
                             (files (@OptimizePngs.main Bounded.imaging Toy.platform
                                       padded_world).2) done))
                     (PyFloat.exact (sum_sizes (files padded_world) done)))
                  (S754_finite false 7036874417766400 (-46))) /\
    stdout (@OptimizePngs.main Bounded.imaging Toy.platform padded_world).2 =
      (stdout padded_world ++
         [("Optimized " ++ pretty (Z.of_nat (length done)) ++ " PNGs: "
           ++ pretty (sum_sizes (files padded_world) done) ++ " -> "
           ++ pretty (sum_sizes
                        (files (@OptimizePngs.main Bounded.imaging Toy.platform
                                  padded_world).2) done)
           ++ " bytes (-"
           ++ pretty (sum_sizes (files padded_world) done
                      - sum_sizes
                          (files (@OptimizePngs.main Bounded.imaging Toy.platform
                                    padded_world).2) done)
           ++ " bytes, " ++ PyFloat.format_2f pct ++ "%)")%string])%list.
Proof.
  assert (Hrun : (@OptimizePngs.main Bounded.imaging Toy.platform padded_world).1
                 = Ok 0) by (vm_compute; reflexivity).
  split; [exact Hrun|]. split; [vm_compute; reflexivity|].
  exact (proj2 (proj1 (@summary_line_reports_totals Bounded.imaging Toy.platform
                         padded_world) 0 Hrun)).
Defined.

(** ** Examples for the properties above *)

(** X1 (example). *)
Lemma hex_to_rgb_wrong_length_example :
  String.length (PyStr.lstrip "#" "#abc") <> 6%nat /\
  hex_to_rgb "#abc" = Raise (ValueError (BadColorLength "abc")).
Proof.
  assert (Hlen : String.length (PyStr.lstrip "#" "#abc") <> 6%nat)
    by (vm_compute; discriminate).
  split; [exact Hlen|]. exact (hex_to_rgb_wrong_length "#abc" Hlen).
Defined.

(** X2 (example). *)
Lemma hex_to_rgb_six_digits_example :
  is_hex_digit "F" = true /\ is_hex_digit "D" = true /\ is_hex_digit "B" = true /\
  is_hex_digit "7" = true /\
  hex_to_rgb "FDFBF7" = Ok (253, 251, 247) /\
  hex_to_rgb "#FDFBF7" = Ok (253, 251, 247).
Proof.
  do 4 (split; [reflexivity|]).
  destruct (hex_to_rgb_six_digits "F" "D" "F" "B" "F" "7"
              eq_refl eq_refl eq_refl eq_refl eq_refl eq_refl) as (Hbare & Hhash & _).
  split; [exact Hbare | exact Hhash].
Defined.

(** X3 (example). *)
Lemma hex_to_rgb_components_bounded_example :
  hex_to_rgb "+f 1-f" = Ok (15, 1, -15) /\
  -15 <= 15 <= 255 /\ -15 <= 1 <= 255 /\ -15 <= -15 <= 255.
Proof.
  assert (Hrgb : hex_to_rgb "+f 1-f" = Ok (15, 1, -15)) by (vm_compute; reflexivity).
  split; [exact Hrgb|]. exact (hex_to_rgb_components_bounded _ _ _ _ Hrgb).
Defined.

(** X4 (example). *)
Lemma icon_fits_any_canvas_example :
  0 < Z.min 1170 2532 < 2 ^ 50 /\
  exists s x y,
    icon_placement {| width := 1170; height := 2532; filename := "1170x2532.png" |}
    = Ok (s, (x, y)) /\
    (s = 0 <-> Z.min 1170 2532 < 5) /\
    0 <= s <= Z.min 1170 2532 /\
    0 <= x /\ 0 <= y /\ x + s <= 1170 /\ y + s <= 2532.
Proof.
  assert (Hm : 0 < Z.min 1170 2532 < 2 ^ 50) by (vm_compute; split; reflexivity).
  split; [exact Hm|].
  exact (icon_fits_any_canvas
           {| width := 1170; height := 2532; filename := "1170x2532.png" |} Hm).
Defined.

(** X9 (example). *)
Lemma optimize_png_missing_example :
  files bare_world !! ["splash"; "a.png"] = None /\
  OptimizePngs.optimize_png ["splash"; "a.png"] bare_world
  = (Raise (FileNotFoundError ["splash"; "a.png"]),
     World (files bare_world) (calls bare_world ++ [Stat ["splash"; "a.png"]])
       (stdout bare_world)).
Proof.
  assert (Hp : files bare_world !! ["splash"; "a.png"] = None)
    by (vm_compute; reflexivity).
  split; [exact Hp|]. exact (optimize_png_missing _ _ Hp).
Defined.

(** X10 (example). *)
Lemma optimize_png_reencodes_example :
  files clean_world !! ["splash"; "a.png"] = Some (File icon192) /\
  OptimizePngs.optimize_png ["splash"; "a.png"] clean_world
  = (Ok (9, 9),
     World (<[ ["splash"; "a.png"] := File icon192 ]> (files clean_world))
       (calls clean_world
          ++ [Stat ["splash"; "a.png"]; OpenRead ["splash"; "a.png"];
              OpenWrite ["splash"; "a.png"]; Stat ["splash"; "a.png"]])
       (stdout clean_world)).
Proof.
  assert (Hp : files clean_world !! ["splash"; "a.png"] = Some (File icon192))
    by (vm_compute; reflexivity).
  split; [exact Hp|].
  exact (optimize_png_reencodes ["splash"; "a.png"] clean_world icon192 icon192
           (Toy.Raster RGBA 192 192) Hp eq_refl eq_refl eq_refl).
Defined.

(** X11 (example). *)
Lemma iter_pngs_visits_targets_example :
  NoDup OptimizePngs.TARGET_DIRS /\ separate OptimizePngs.TARGET_DIRS /\
  iter_post clean_world OptimizePngs.TARGET_DIRS
    (OptimizePngs.iter_pngs OptimizePngs.TARGET_DIRS OptimizePngs.count_png
       (0, 0, 0) clean_world).1
    (OptimizePngs.iter_pngs OptimizePngs.TARGET_DIRS OptimizePngs.count_png
       (0, 0, 0) clean_world).2.
Proof.
  split; [exact TARGET_DIRS_NoDup|]. split; [exact TARGET_DIRS_separate|].
  exact (iter_pngs_visits_targets OptimizePngs.TARGET_DIRS clean_world
           TARGET_DIRS_NoDup TARGET_DIRS_separate).
Defined.

(** X12 (example). *)
Lemma optimizer_reencodes_each_target_example :
  (OptimizePngs.main clean_world).1 = Ok 0 /\
  exists done new,
    calls (OptimizePngs.main clean_world).2 = (calls clean_world ++ new)%list /\
    opened new = done /\ written new = done /\ NoDup done /\
    (forall q, q ∈ done <-> is_target OptimizePngs.TARGET_DIRS (files clean_world) q) /\
    (forall q, q ∈ done ->
               reencoded (files clean_world) (files (OptimizePngs.main clean_world).2) q) /\
    (forall q, q ∉ done ->
               files (OptimizePngs.main clean_world).2 !! q = files clean_world !! q).
Proof.
  split; [vm_compute; reflexivity|].
  apply (optimizer_reencodes_each_target clean_world). vm_compute. reflexivity.
Defined.

Lemma splash_dir_is_no_target :
  ~ is_target OptimizePngs.TARGET_DIRS (files corrupt_world) ["splash"].
Proof. intros (base & _ & _ & _ & _ & Hfile). vm_compute in Hfile. discriminate. Defined.

(** X13 (example). *)
Lemma optimizer_touches_only_targets_example :
  ~ is_target OptimizePngs.TARGET_DIRS (files corrupt_world) ["splash"] /\
  files (OptimizePngs.main corrupt_world).2 !! ["splash"]
  = files corrupt_world !! ["splash"].
Proof.
  split; [exact splash_dir_is_no_target|].
  exact (optimizer_touches_only_targets corrupt_world ["splash"] splash_dir_is_no_target).
Defined.

(** X14 (example). *)
Lemma optimizer_failure_is_silent_example :
  (OptimizePngs.main corrupt_world).1
  = Raise (UnidentifiedImageError ["splash"; "b.png"]) /\
  stdout (OptimizePngs.main corrupt_world).2 = stdout corrupt_world.
Proof.
  assert (Hrun : (OptimizePngs.main corrupt_world).1
                 = Raise (UnidentifiedImageError ["splash"; "b.png"]))
    by (vm_compute; reflexivity).
  split; [exact Hrun|]. exact (optimizer_failure_is_silent corrupt_world _ Hrun).
Defined.

(** X15 (example). *)
Lemma percentage_of_no_change_example :
  0 < 4096 /\
  OptimizePngs.percentage 0 4096 = Ok (S754_zero false) /\
  PyFloat.format_2f (S754_zero false) = "0.00".
Proof.
  assert (Hpos : 0 < 4096) by reflexivity.
  split; [exact Hpos|]. exact (percentage_of_no_change 4096 Hpos).
Defined.

(** X16 (example). *)
Lemma summary_of_growth_example :
  -5 < 0 /\
  OptimizePngs.summary_line 1 10 15 (-5) (S754_zero false)
  = "Optimized 1 PNGs: 10 -> 15 bytes (--5 bytes, 0.00%)".
Proof.
  assert (Hneg : -5 < 0) by reflexivity.
  split; [exact Hneg|].
  exact (summary_of_growth 1 10 15 (-5) (S754_zero false) Hneg).
Defined.

(** X8 (example). *)
Lemma rerun_takes_canonical_icon_example :
  (Splashes.main ["repo"] small_icon_world).1 = Ok tt /\
  is_Some (files (Splashes.main ["repo"] small_icon_world).2 !! Splashes.desired_1024) /\
  exists rest,
    calls (Splashes.main ["repo"] (Splashes.main ["repo"] small_icon_world).2).2
    = (calls (Splashes.main ["repo"] small_icon_world).2
         ++ Exists Splashes.desired_1024 :: Mkdir Splashes.out_dir :: rest)%list /\
    written rest `prefix_of` outputs /\
    (opened rest = [] \/ opened rest = [Splashes.desired_1024]).
Proof.
  assert (Hrun : (Splashes.main ["repo"] small_icon_world).1 = Ok tt)
    by (vm_compute; reflexivity).
  split; [exact Hrun|].
  exact (rerun_takes_canonical_icon ["repo"] small_icon_world Hrun).
Defined.
